(** * Asset checks of the platform core: a shallow embedding

    The three modules under [platform_core/asset_checks] are embedded here:
    [data_quality_checks.py], [schema_checks.py] and [freshness_checks.py].

    A pandas [DataFrame] is a list of column headers (label and dtype name)
    together with its rows; a cell is a tagged value.  A check returns an
    [AssetCheckResult]; the checks that assign to [df[...]] are written in
    state-passing style, so that the caller's frame after the call is part
    of what they return.  A Python exception is the [Raises] outcome. *)

From Stdlib Require Import List String Ascii ZArith Bool Lia Permutation.
From Stdlib Require Import SetoidList SetoidPermutation Sorted.
From Stdlib Require Import Floats DecimalString.
Import ListNotations.

#[local] Set Warnings "-register-all".

Open Scope string_scope.
Open Scope Z_scope.

(** ** Values, columns and frames *)

(** A cell.  [VNone] is Python's [None], [VNaT] is pandas' missing
    timestamp, a missing float is [VFloat nan].  A timestamp is the number
    of nanoseconds since the epoch, as pandas stores it. *)
Inductive value : Type :=
| VNone
| VNaT
| VBool (b : bool)
| VInt (z : Z)
| VFloat (f : float)
| VStr (s : string)
| VTimestamp (ns : Z).

(** A column header: the label and [str(dtype)]. *)
Record header : Type := mkHeader {
  label : string;
  dtype : string
}.

(** A frame, row-major: [len(df)] is the number of rows and [df.shape] is
    (rows, columns). *)
Record DataFrame : Type := mkDataFrame {
  headers : list header;
  rows : list (list value)
}.

Definition columns (df : DataFrame) : list string := map label (headers df).

Definition len (df : DataFrame) : Z := Z.of_nat (List.length (rows df)).

(** [col in df.columns] and [x in some_list_of_str]. *)
Definition str_in (s : string) (l : list string) : bool :=
  existsb (String.eqb s) l.

(** Position of the first header carrying the label. *)
Fixpoint index_of (c : string) (l : list string) : option nat :=
  match l with
  | [] => None
  | x :: r => if String.eqb c x then Some O
              else option_map S (index_of c r)
  end.

(** Outcome of a call: a value, or an exception. *)
Inductive pyexn : Type :=
| KeyError (key : string)
| TypeError
| ValueError
| AttributeError.

Inductive outcome (A : Type) : Type :=
| Returns (a : A)
| Raises (e : pyexn).
Arguments Returns {A} a.
Arguments Raises {A} e.

Definition bind {A B : Type} (m : outcome A) (k : A -> outcome B) : outcome B :=
  match m with
  | Returns a => k a
  | Raises e => Raises e
  end.

Notation "x <- m ;; k" := (bind m (fun x => k))
  (at level 61, m at next level, right associativity).

(** A series: the cells of one column, top to bottom. *)
Definition Series : Type := list value.

Definition cell (i : nat) (r : list value) : value := nth i r VNone.

(** [df[column]] on a frame whose labels are distinct: the cells of the
    column, and [KeyError] when the label is absent.  On a repeated label
    pandas returns a frame of all the columns of that label, which has no
    [dtype] and no [unique]; the statements that read a column through
    [getitem] are made for frames with [distinct_labels]. *)
Definition getitem (df : DataFrame) (c : string) : outcome Series :=
  match index_of c (columns df) with
  | Some i => Returns (map (cell i) (rows df))
  | None => Raises (KeyError c)
  end.

(** [str(df[column].dtype)] for a label that is present, on a frame whose
    labels are distinct (on a repeated label [df[column]] is a frame and
    the attribute lookup raises). *)
Definition dtype_of (df : DataFrame) (c : string) : string :=
  match index_of c (columns df) with
  | Some i => dtype (nth i (headers df) (mkHeader c ""))
  | None => ""
  end.

(** ** Floats and integers *)

(** Conversion of an integer to binary64, round to nearest even. *)
Definition float_of_Z (z : Z) : float :=
  SF2Prim (binary_normalize prec emax z 0%Z false).

(** The integer a binary64 denotes, when it denotes one. *)
Definition Z_of_SF (x : spec_float) : option Z :=
  match x with
  | S754_zero _ => Some 0
  | S754_finite s m e =>
      let sg (n : Z) := if s then - n else n in
      if 0 <=? e then Some (sg (Z.pos m * 2 ^ e))
      else if Z.pos m mod 2 ^ (- e) =? 0 then Some (sg (Z.pos m / 2 ^ (- e)))
      else None
  | _ => None
  end.

Definition str_of_Z (z : Z) : string := NilZero.string_of_int (Z.to_int z).

(** ** Equality of cells *)

(** Python compares [True], [1] and [1.0] equal: numbers are compared
    after [norm], which sends a boolean and an integral float to the
    integer they denote. *)
Definition norm (v : value) : value :=
  match v with
  | VBool b => VInt (if b then 1 else 0)
  | VFloat f => match Z_of_SF (Prim2SF f) with
                | Some z => VInt z
                | None => VFloat f
                end
  | _ => v
  end.

(** Equality of normalised cells; [nan_eq] says whether two missing floats
    count as equal. *)
Definition base_eqb (nan_eq : bool) (a b : value) : bool :=
  match a, b with
  | VNone, VNone => true
  | VNaT, VNaT => true
  | VBool x, VBool y => Bool.eqb x y
  | VInt x, VInt y => x =? y
  | VFloat x, VFloat y =>
      (x =? y)%float || (nan_eq && PrimFloat.is_nan x && PrimFloat.is_nan y)
  | VStr x, VStr y => String.eqb x y
  | VTimestamp x, VTimestamp y => x =? y
  | _, _ => false
  end.

(** The equality of pandas' hash tables ([duplicated], [unique]): missing
    floats are equal to one another. *)
Definition pandas_eqb (a b : value) : bool := base_eqb true (norm a) (norm b).

(** [a == b] as [val in some_list] uses it: the singletons [None] and [NaT]
    are found by identity, a missing float is never found. *)
Definition py_eqb (a b : value) : bool := base_eqb false (norm a) (norm b).

Definition py_in (v : value) (l : list value) : bool := existsb (py_eqb v) l.

(** [series.isnull()] on one cell. *)
Definition isnull (v : value) : bool :=
  match v with
  | VNone | VNaT => true
  | VFloat f => PrimFloat.is_nan f
  | _ => false
  end.

(** [mask.sum()]: the number of cells satisfying the mask. *)
Definition count (p : value -> bool) (s : Series) : Z :=
  Z.of_nat (List.length (filter p s)).

(** [series.duplicated().sum()]: the cells equal to an earlier one. *)
Fixpoint duplicated_from (seen : list value) (s : Series) : list bool :=
  match s with
  | [] => []
  | v :: r => existsb (pandas_eqb v) seen :: duplicated_from (v :: seen) r
  end.

Definition duplicated (s : Series) : list bool := duplicated_from [] s.

Definition sum_mask (m : list bool) : Z :=
  Z.of_nat (List.length (filter (fun b => b) m)).

(** [series.unique()]: distinct cells in order of first appearance. *)
Fixpoint unique_from (seen : list value) (s : Series) : list value :=
  match s with
  | [] => []
  | v :: r => if existsb (pandas_eqb v) seen then unique_from seen r
              else v :: unique_from (v :: seen) r
  end.

Definition unique (s : Series) : list value := unique_from [] s.

(** ** Results *)

(** The severities the specification lists; the source names only
    [AssetCheckSeverity.WARN] and [AssetCheckSeverity.ERROR]. *)
Inductive AssetCheckSeverity : Type := INFO | WARN | ERROR.

Inductive json : Type :=
| JNull
| JBool (b : bool)
| JInt (z : Z)
| JFloat (f : float)
| JStr (s : string)
| JList (l : list json)
| JDict (d : list (string * json)).

Inductive MetadataValue : Type :=
| MJson (j : json)
| MInt (z : Z)
| MFloat (f : float)
| MText (s : string).

(** A metadata dictionary in insertion order; [None] is a literal [None]
    stored under the key. *)
Definition Metadata : Type := list (string * option MetadataValue).

(** [severity] is [None] where the source passes no [severity=] argument. *)
Record AssetCheckResult : Type := mkResult {
  passed : bool;
  severity : option AssetCheckSeverity;
  description : string;
  metadata : Metadata
}.

Definition json_of_value (v : value) : json :=
  match v with
  | VNone | VNaT => JNull
  | VBool b => JBool b
  | VInt z => JInt z
  | VFloat f => JFloat f
  | VStr s => JStr s
  | VTimestamp ns => JInt ns
  end.

Definition json_strs (l : list string) : json := JList (map JStr l).

Definition json_values (l : list value) : json := JList (map json_of_value l).

(** A Python dict keyed by strings, in insertion order: assignment
    overwrites an existing key where it stands and appends a new one. *)
Fixpoint dict_set {A : Type} (k : string) (v : A) (d : list (string * A))
  : list (string * A) :=
  match d with
  | [] => [(k, v)]
  | (k', v') :: r => if String.eqb k k' then (k, v) :: r
                     else (k', v') :: dict_set k v r
  end.

(** [series.to_dict()] and dict comprehensions: the items assigned in turn. *)
Definition dict_of_items {A : Type} (items : list (string * A))
  : list (string * A) :=
  fold_left (fun d kv => dict_set (fst kv) (snd kv) d) items [].

Definition lookup {A : Type} (k : string) (d : list (string * A)) : option A :=
  option_map snd (find (fun kv => String.eqb k (fst kv)) d).

Definition json_counts (d : list (string * Z)) : json :=
  JDict (map (fun kv => (fst kv, JInt (snd kv))) d).

Definition json_strdict (d : list (string * string)) : json :=
  JDict (map (fun kv => (fst kv, JStr (snd kv))) d).

Definition join (sep : string) (l : list string) : string := String.concat sep l.

Definition str_of_len {A : Type} (l : list A) : string :=
  str_of_Z (Z.of_nat (List.length l)).

(** ** The runtime the checks call into

    String conversions of Python and pandas, the date parser behind
    [pd.to_datetime], and the clock read by [datetime.now()]. *)
Record Runtime : Type := mkRuntime {
  repr_values : list value -> string;      (* [f"{a_list}"] *)
  str_float : float -> string;             (* [f"{x}"] *)
  fmt1 : float -> string;                  (* [f"{x:.1f}"] *)
  str_timestamp : value -> string;         (* [str(ts)] *)
  parse_datetime : string -> option Z;     (* [pd.to_datetime(text)], in ns *)
  now : Z                                  (* [datetime.now()], in ns *)
}.

(** Python truthiness of an [Optional[int]] and of an [Optional[str]]. *)
Definition truthy_int (o : option Z) : bool :=
  match o with
  | Some z => negb (z =? 0)
  | None => false
  end.

Definition truthy_str (o : option string) : bool :=
  match o with
  | Some s => negb (String.eqb s "")
  | None => false
  end.

(** [row_count > max_rows], evaluated only when [max_rows] is truthy. *)
Definition gt_opt (n : Z) (o : option Z) : bool :=
  match o with
  | Some m => m <? n
  | None => false
  end.

Definition str_opt_Z (o : option Z) : string :=
  match o with
  | Some m => str_of_Z m
  | None => "None"
  end.

(** [df[columns]] on a frame whose labels are distinct: the named
    columns in the order asked for.  (On a repeated label pandas selects
    every column of that label.) *)
Fixpoint getitems (df : DataFrame) (cs : list string)
  : outcome (list (string * Series)) :=
  match cs with
  | [] => Returns []
  | c :: r =>
      s <- getitem df c ;;
      rest <- getitems df r ;;
      Returns ((c, s) :: rest)
  end.

(** The cells of a numeric column as binary64, as the comparison with a
    float bound reads them. *)
Definition to_float (v : value) : outcome float :=
  match v with
  | VInt z => Returns (float_of_Z z)
  | VFloat f => Returns f
  | VBool b => Returns (if b then 1%float else 0%float)
  | _ => Raises TypeError
  end.

Fixpoint to_floats (s : Series) : outcome (list float) :=
  match s with
  | [] => Returns []
  | v :: r => x <- to_float v ;; xs <- to_floats r ;; Returns (x :: xs)
  end.

Definition countf (p : float -> bool) (xs : list float) : Z :=
  Z.of_nat (List.length (filter p xs)).

(** [series.min()] and [series.max()]: missing values are skipped, and the
    result is missing when nothing is left. *)
Definition fmin (a x : float) : float :=
  if PrimFloat.is_nan x then a
  else if PrimFloat.is_nan a then x
  else if (x <? a)%float then x else a.

Definition fmax (a x : float) : float :=
  if PrimFloat.is_nan x then a
  else if PrimFloat.is_nan a then x
  else if (a <? x)%float then x else a.

Definition series_min (xs : list float) : float := fold_left fmin xs nan.
Definition series_max (xs : list float) : float := fold_left fmax xs nan.

(** ** data_quality_checks.py *)

Section DataQuality.

Variable rt : Runtime.

Definition check_no_nulls (df : DataFrame) (cols : list string)
  : outcome AssetCheckResult :=
  sel <- getitems df cols ;;
  let null_counts := map (fun cs => (fst cs, count isnull (snd cs))) sel in
  let failed_columns :=
    map fst (filter (fun cn => 0 <? snd cn) null_counts) in
  match failed_columns with
  | _ :: _ =>
      Returns (mkResult false (Some ERROR)
        ("Found null values in columns: " ++ join ", " failed_columns)
        [("failed_columns", Some (MJson (json_strs failed_columns)));
         ("null_counts",
          Some (MJson (json_counts (dict_of_items null_counts))))])
  | [] =>
      Returns (mkResult true None
        ("No null values found in " ++ str_of_len cols ++ " columns")
        [("checked_columns", Some (MJson (json_strs cols)));
         ("total_rows", Some (MInt (len df)))])
  end.

(** The loop of [check_unique_values], threading [duplicate_counts] and
    [failed_columns]. *)
Fixpoint unique_loop (df : DataFrame) (cols : list string)
    (duplicate_counts : list (string * Z)) (failed_columns : list string)
  : outcome (list (string * Z) * list string) :=
  match cols with
  | [] => Returns (duplicate_counts, failed_columns)
  | column :: r =>
      s <- getitem df column ;;
      let duplicate_count := sum_mask (duplicated s) in
      let duplicate_counts := dict_set column duplicate_count duplicate_counts in
      let failed_columns :=
        if 0 <? duplicate_count then (failed_columns ++ [column])%list
        else failed_columns in
      unique_loop df r duplicate_counts failed_columns
  end.

Definition check_unique_values (df : DataFrame) (cols : list string)
  : outcome AssetCheckResult :=
  st <- unique_loop df cols [] [] ;;
  let '(duplicate_counts, failed_columns) := st in
  match failed_columns with
  | _ :: _ =>
      Returns (mkResult false (Some ERROR)
        ("Found duplicate values in columns: " ++ join ", " failed_columns)
        [("failed_columns", Some (MJson (json_strs failed_columns)));
         ("duplicate_counts", Some (MJson (json_counts duplicate_counts)))])
  | [] =>
      Returns (mkResult true None
        ("All values unique in " ++ str_of_len cols ++ " columns")
        [("checked_columns", Some (MJson (json_strs cols)));
         ("total_rows", Some (MInt (len df)))])
  end.

Definition check_row_count (df : DataFrame) (min_rows : Z)
    (max_rows : option Z) : AssetCheckResult :=
  let row_count := len df in
  if row_count <? min_rows then
    mkResult false (Some ERROR)
      ("Row count " ++ str_of_Z row_count ++ " below minimum "
         ++ str_of_Z min_rows)
      [("row_count", Some (MInt row_count));
       ("min_rows", Some (MInt min_rows));
       ("max_rows",
        if truthy_int max_rows then option_map MInt max_rows else None)]
  else if truthy_int max_rows && gt_opt row_count max_rows then
    mkResult false (Some ERROR)
      ("Row count " ++ str_of_Z row_count ++ " above maximum "
         ++ str_opt_Z max_rows)
      [("row_count", Some (MInt row_count));
       ("min_rows", Some (MInt min_rows));
       ("max_rows", option_map MInt max_rows)]
  else
    mkResult true None
      ("Row count " ++ str_of_Z row_count ++ " within expected range")
      [("row_count", Some (MInt row_count));
       ("min_rows", Some (MInt min_rows));
       ("max_rows",
        if truthy_int max_rows then option_map MInt max_rows else None)].

Definition check_column_values (df : DataFrame) (column : string)
    (allowed_values : list value) : outcome AssetCheckResult :=
  s <- getitem df column ;;
  let unique_values := unique s in
  let invalid_values :=
    filter (fun val => negb (py_in val allowed_values)) unique_values in
  match invalid_values with
  | _ :: _ =>
      Returns (mkResult false (Some ERROR)
        ("Found invalid values in column " ++ column ++ ": "
           ++ repr_values rt invalid_values)
        [("column", Some (MText column));
         ("invalid_values", Some (MJson (json_values invalid_values)));
         ("allowed_values", Some (MJson (json_values allowed_values)))])
  | [] =>
      Returns (mkResult true None
        ("All values in column " ++ column ++ " are valid")
        [("column", Some (MText column));
         ("unique_values", Some (MJson (json_values unique_values)));
         ("allowed_values", Some (MJson (json_values allowed_values)))])
  end.

Definition numeric_range_pass (column : string) (xs : list float)
    (min_value max_value : option float) : AssetCheckResult :=
  mkResult true None
    ("All values in column " ++ column ++ " within expected range")
    [("column", Some (MText column));
     ("min_value", option_map MFloat min_value);
     ("max_value", option_map MFloat max_value);
     ("actual_min", Some (MFloat (series_min xs)));
     ("actual_max", Some (MFloat (series_max xs)))].

Definition numeric_range_max (column : string) (xs : list float)
    (min_value max_value : option float) : AssetCheckResult :=
  match max_value with
  | Some mx =>
      let above_max := countf (fun x => (mx <? x)%float) xs in
      if 0 <? above_max then
        mkResult false (Some ERROR)
          (str_of_Z above_max ++ " values in column " ++ column
             ++ " above maximum " ++ str_float rt mx)
          [("column", Some (MText column));
           ("above_max_count", Some (MInt above_max));
           ("max_value", Some (MFloat mx));
           ("actual_max", Some (MFloat (series_max xs)))]
      else numeric_range_pass column xs min_value max_value
  | None => numeric_range_pass column xs min_value max_value
  end.

Definition check_numeric_range (df : DataFrame) (column : string)
    (min_value max_value : option float) : outcome AssetCheckResult :=
  s <- getitem df column ;;
  xs <- to_floats s ;;
  match min_value with
  | Some mn =>
      let below_min := countf (fun x => (x <? mn)%float) xs in
      if 0 <? below_min then
        Returns (mkResult false (Some ERROR)
          (str_of_Z below_min ++ " values in column " ++ column
             ++ " below minimum " ++ str_float rt mn)
          [("column", Some (MText column));
           ("below_min_count", Some (MInt below_min));
           ("min_value", Some (MFloat mn));
           ("actual_min", Some (MFloat (series_min xs)))])
      else Returns (numeric_range_max column xs min_value max_value)
  | None => Returns (numeric_range_max column xs min_value max_value)
  end.

End DataQuality.

(** ** schema_checks.py *)

Definition check_required_columns (df : DataFrame)
    (required_columns : list string) : AssetCheckResult :=
  let missing_columns :=
    filter (fun col => negb (str_in col (columns df))) required_columns in
  match missing_columns with
  | _ :: _ =>
      mkResult false (Some ERROR)
        ("Missing required columns: " ++ join ", " missing_columns)
        [("missing_columns", Some (MJson (json_strs missing_columns)));
         ("required_columns", Some (MJson (json_strs required_columns)));
         ("actual_columns", Some (MJson (json_strs (columns df))))]
  | [] =>
      mkResult true None
        ("All " ++ str_of_len required_columns ++ " required columns present")
        [("required_columns", Some (MJson (json_strs required_columns)));
         ("actual_columns", Some (MJson (json_strs (columns df))))]
  end.

(** One turn of the loop of [check_column_types]: the message appended to
    [type_mismatches], if any. *)
Definition type_mismatch (df : DataFrame) (column expected_type : string)
  : option string :=
  if negb (str_in column (columns df)) then None
  else
    let actual_type := dtype_of df column in
    let msg (kind : string) :=
      Some (column ++ ": expected " ++ kind ++ ", got " ++ actual_type) in
    if String.eqb expected_type "string" && negb (prefix "object" actual_type)
    then msg "string"
    else if String.eqb expected_type "integer" && negb (prefix "int" actual_type)
    then msg "integer"
    else if String.eqb expected_type "float" && negb (prefix "float" actual_type)
    then msg "float"
    else if String.eqb expected_type "datetime"
            && negb (prefix "datetime" actual_type)
    then msg "datetime"
    else if String.eqb expected_type "boolean" && negb (prefix "bool" actual_type)
    then msg "boolean"
    else None.

Fixpoint type_mismatches (df : DataFrame)
    (expected_types : list (string * string)) : list string :=
  match expected_types with
  | [] => []
  | (column, expected_type) :: r =>
      match type_mismatch df column expected_type with
      | Some m => m :: type_mismatches df r
      | None => type_mismatches df r
      end
  end.

(** [{col: str(df[col].dtype) for col in df.columns}]. *)
Definition actual_types (df : DataFrame) : list (string * string) :=
  dict_of_items (map (fun col => (col, dtype_of df col)) (columns df)).

Definition check_column_types (df : DataFrame)
    (expected_types : list (string * string)) : AssetCheckResult :=
  let mism := type_mismatches df expected_types in
  match mism with
  | _ :: _ =>
      mkResult false (Some ERROR)
        ("Column type mismatches: " ++ join "; " mism)
        [("type_mismatches", Some (MJson (json_strs mism)));
         ("expected_types", Some (MJson (json_strdict expected_types)));
         ("actual_types", Some (MJson (json_strdict (actual_types df))))]
  | [] =>
      mkResult true None
        ("All " ++ str_of_len expected_types
           ++ " column types match expectations")
        [("expected_types", Some (MJson (json_strdict expected_types)));
         ("actual_types", Some (MJson (json_strdict (actual_types df))))]
  end.

Definition check_no_extra_columns (df : DataFrame)
    (allowed_columns : list string) : AssetCheckResult :=
  let extra_columns :=
    filter (fun col => negb (str_in col allowed_columns)) (columns df) in
  match extra_columns with
  | _ :: _ =>
      mkResult false (Some WARN)
        ("Found unexpected columns: " ++ join ", " extra_columns)
        [("extra_columns", Some (MJson (json_strs extra_columns)));
         ("allowed_columns", Some (MJson (json_strs allowed_columns)));
         ("actual_columns", Some (MJson (json_strs (columns df))))]
  | [] =>
      mkResult true None
        "No unexpected columns found"
        [("allowed_columns", Some (MJson (json_strs allowed_columns)));
         ("actual_columns", Some (MJson (json_strs (columns df))))]
  end.

Definition list_str_eqb (a b : list string) : bool :=
  if list_eq_dec string_dec a b then true else false.

Definition check_column_order (df : DataFrame) (expected_order : list string)
  : AssetCheckResult :=
  let common_columns :=
    filter (fun col => str_in col (columns df)) expected_order in
  let actual_order :=
    filter (fun col => str_in col expected_order) (columns df) in
  if negb (list_str_eqb common_columns actual_order) then
    mkResult false (Some WARN)
      "Column order doesn't match expected order"
      [("expected_order", Some (MJson (json_strs expected_order)));
       ("actual_order", Some (MJson (json_strs actual_order)));
       ("common_columns", Some (MJson (json_strs common_columns)))]
  else
    mkResult true None
      ("Column order matches expected order for "
         ++ str_of_len common_columns ++ " columns")
      [("expected_order", Some (MJson (json_strs expected_order)));
       ("actual_order", Some (MJson (json_strs actual_order)))].

(** The schema dictionary read by [validate_schema]: each of the four keys
    it looks for is present or absent. *)
Record Schema : Type := mkSchema {
  required_columns : option (list string);
  column_types : option (list (string * string));
  allowed_columns : option (list string);
  column_order : option (list string)
}.

Definition json_of_schema (schema : Schema) : json :=
  let entry {A : Type} (k : string) (f : A -> json) (o : option A) :=
    match o with
    | Some a => [(k, f a)]
    | None => []
    end in
  JDict (entry "required_columns" json_strs (required_columns schema)
         ++ entry "column_types" json_strdict (column_types schema)
         ++ entry "allowed_columns" json_strs (allowed_columns schema)
         ++ entry "column_order" json_strs (column_order schema))%list.

(** The snapshot stored under ["actual_schema"]. *)
Definition actual_schema (df : DataFrame) : json :=
  JDict [("columns", json_strs (columns df));
         ("types", json_strdict (actual_types df));
         ("shape", JList [JInt (len df);
                          JInt (Z.of_nat (List.length (headers df)))])].

(** [if key in schema: result = check(df, schema[key]);
     if not result.passed: issues.append(result.description)]. *)
Definition run_subcheck {A : Type} (o : option A)
    (check : A -> AssetCheckResult) (issues : list string) : list string :=
  match o with
  | Some a =>
      let result := check a in
      if negb (passed result) then (issues ++ [description result])%list
      else issues
  | None => issues
  end.

Definition schema_issues (df : DataFrame) (schema : Schema) : list string :=
  let issues := [] in
  let issues :=
    run_subcheck (required_columns schema) (check_required_columns df) issues in
  let issues :=
    run_subcheck (column_types schema) (check_column_types df) issues in
  let issues :=
    run_subcheck (allowed_columns schema) (check_no_extra_columns df) issues in
  let issues :=
    run_subcheck (column_order schema) (check_column_order df) issues in
  issues.

Definition validate_schema (df : DataFrame) (schema : Schema)
  : AssetCheckResult :=
  let issues := schema_issues df schema in
  match issues with
  | _ :: _ =>
      mkResult false (Some ERROR)
        ("Schema validation failed: " ++ join "; " issues)
        [("schema_issues", Some (MJson (json_strs issues)));
         ("schema_definition", Some (MJson (json_of_schema schema)));
         ("actual_schema", Some (MJson (actual_schema df)))]
  | [] =>
      mkResult true None
        "Schema validation passed"
        [("schema_definition", Some (MJson (json_of_schema schema)));
         ("actual_schema", Some (MJson (actual_schema df)))]
  end.

(** ** Assignment to a column, and timestamps *)

Definition set_nth {A : Type} (i : nat) (v : A) (l : list A) : list A :=
  (firstn i l ++ v :: skipn (S i) l)%list.

(** [df[c] = series]: an existing column is overwritten where it stands
    (cells and dtype), a new one is appended on the right. *)
Definition setitem (df : DataFrame) (c : string) (dt : string) (s : Series)
  : DataFrame :=
  match index_of c (columns df) with
  | Some i =>
      mkDataFrame (set_nth i (mkHeader c dt) (headers df))
        (map (fun rv => set_nth i (snd rv) (fst rv)) (combine (rows df) s))
  | None =>
      mkDataFrame (headers df ++ [mkHeader c dt])%list
        (map (fun rv => (fst rv ++ [snd rv])%list) (combine (rows df) s))
  end.

(** Truncation of a binary64 towards zero (missing and infinite: none). *)
Definition Z_trunc_SF (x : spec_float) : option Z :=
  match x with
  | S754_zero _ => Some 0
  | S754_finite s m e =>
      let n := if 0 <=? e then Z.pos m * 2 ^ e else Z.pos m / 2 ^ (- e) in
      Some (if s then - n else n)
  | _ => None
  end.

Section Temporal.

Variable rt : Runtime.

(** [pd.to_datetime] on one cell: numbers are nanoseconds since the epoch,
    text goes through the parser, missing values become [NaT]. *)
Definition to_datetime_cell (v : value) : outcome value :=
  match v with
  | VNone | VNaT => Returns VNaT
  | VTimestamp ns => Returns (VTimestamp ns)
  | VInt z => Returns (VTimestamp z)
  | VFloat f =>
      if PrimFloat.is_nan f then Returns VNaT
      else match Z_trunc_SF (Prim2SF f) with
           | Some z => Returns (VTimestamp z)
           | None => Raises ValueError
           end
  | VStr s =>
      match parse_datetime rt s with
      | Some ns => Returns (VTimestamp ns)
      | None => Raises ValueError
      end
  | VBool _ => Raises TypeError
  end.

Fixpoint to_datetime (s : Series) : outcome Series :=
  match s with
  | [] => Returns []
  | v :: r =>
      x <- to_datetime_cell v ;; xs <- to_datetime r ;; Returns (x :: xs)
  end.

Definition datetime_dtype : string := "datetime64[ns]".

(** [df[c] = pd.to_datetime(df[c])]: the frame after the statement, or the
    exception raised before anything was assigned. *)
Definition convert_column (df : DataFrame) (c : string) : outcome DataFrame :=
  s <- getitem df c ;;
  t <- to_datetime s ;;
  Returns (setitem df c datetime_dtype t).

(** The timestamps of a series, missing ones left out. *)
Fixpoint stamps (s : Series) : list Z :=
  match s with
  | [] => []
  | VTimestamp ns :: r => ns :: stamps r
  | _ :: r => stamps r
  end.

Definition ts_min (s : Series) : value :=
  match stamps s with
  | [] => VNaT
  | x :: r => VTimestamp (fold_left Z.min r x)
  end.

Definition ts_max (s : Series) : value :=
  match stamps s with
  | [] => VNaT
  | x :: r => VTimestamp (fold_left Z.max r x)
  end.

(** [(series < bound).sum()] and [(series > bound).sum()] on timestamps: a
    missing timestamp compares false. *)
Definition count_before (bound : Z) (s : Series) : Z :=
  Z.of_nat (List.length (filter (fun ns => ns <? bound) (stamps s))).

Definition count_after (bound : Z) (s : Series) : Z :=
  Z.of_nat (List.length (filter (fun ns => bound <? ns) (stamps s))).

Definition parse_bound (text : string) : outcome Z :=
  match parse_datetime rt text with
  | Some ns => Returns ns
  | None => Raises ValueError
  end.

Definition text_if_truthy (o : option string) : option MetadataValue :=
  if truthy_str o then option_map MText o else None.

Definition date_range_pass (column : string) (s : Series)
    (min_date max_date : option string) : AssetCheckResult :=
  mkResult true None
    ("All dates in column " ++ column ++ " within expected range")
    [("column", Some (MText column));
     ("min_date", text_if_truthy min_date);
     ("max_date", text_if_truthy max_date);
     ("actual_min", Some (MText (str_timestamp rt (ts_min s))));
     ("actual_max", Some (MText (str_timestamp rt (ts_max s))))].

Definition date_range_max (column : string) (s : Series)
    (min_date max_date : option string) : outcome AssetCheckResult :=
  match max_date with
  | Some mx =>
      max_date_parsed <- parse_bound mx ;;
      let after_max := count_after max_date_parsed s in
      if 0 <? after_max then
        Returns (mkResult false (Some ERROR)
          (str_of_Z after_max ++ " dates in column " ++ column
             ++ " after maximum " ++ mx)
          [("column", Some (MText column));
           ("after_max_count", Some (MInt after_max));
           ("max_date", Some (MText mx));
           ("actual_max", Some (MText (str_timestamp rt (ts_max s))))])
      else Returns (date_range_pass column s min_date max_date)
  | None => Returns (date_range_pass column s min_date max_date)
  end.

Definition date_range_body (column : string) (s : Series)
    (min_date max_date : option string) : outcome AssetCheckResult :=
  match min_date with
  | Some mn =>
      min_date_parsed <- parse_bound mn ;;
      let before_min := count_before min_date_parsed s in
      if 0 <? before_min then
        Returns (mkResult false (Some ERROR)
          (str_of_Z before_min ++ " dates in column " ++ column
             ++ " before minimum " ++ mn)
          [("column", Some (MText column));
           ("before_min_count", Some (MInt before_min));
           ("min_date", Some (MText mn));
           ("actual_min", Some (MText (str_timestamp rt (ts_min s))))])
      else date_range_max column s min_date max_date
  | None => date_range_max column s min_date max_date
  end.

(** A check that assigns to its argument returns the frame it leaves with
    the caller next to its outcome. *)
Definition Effect : Type := (outcome AssetCheckResult * DataFrame)%type.

(** The column read back after the conversion. *)
Definition column_of (df : DataFrame) (c : string) : Series :=
  match getitem df c with
  | Returns s => s
  | Raises _ => []
  end.

Definition check_date_range (df : DataFrame) (column : string)
    (min_date max_date : option string) : Effect :=
  match convert_column df column with
  | Raises e => (Raises e, df)
  | Returns df1 =>
      (date_range_body column (column_of df1 column) min_date max_date, df1)
  end.

End Temporal.

(** ** freshness_checks.py *)

Section Freshness.

Variable rt : Runtime.

(** The result every check of this module returns when the timestamp
    column is not a column of the frame. *)
Definition column_not_found (df : DataFrame) (timestamp_column : string)
  : AssetCheckResult :=
  mkResult false (Some ERROR)
    ("Timestamp column '" ++ timestamp_column ++ "' not found in DataFrame")
    [("timestamp_column", Some (MText timestamp_column));
     ("available_columns", Some (MJson (json_strs (columns df))))].

Definition ns_per_second : float := 1000000000%float.

(** [timedelta.total_seconds()] of a duration in nanoseconds. *)
Definition total_seconds (ns : Z) : float := (float_of_Z ns / ns_per_second)%float.

Definition freshness_metadata (most_recent : value) (age_hours : float)
    (max_age_hours : Z) (timestamp_column : string) : Metadata :=
  [("most_recent_timestamp", Some (MText (str_timestamp rt most_recent)));
   ("current_time", Some (MText (str_timestamp rt (VTimestamp (now rt)))));
   ("age_hours", Some (MFloat age_hours));
   ("max_age_hours", Some (MInt max_age_hours));
   ("timestamp_column", Some (MText timestamp_column))].

Definition check_data_freshness (df : DataFrame) (timestamp_column : string)
    (max_age_hours : Z) : Effect :=
  if negb (str_in timestamp_column (columns df)) then
    (Returns (column_not_found df timestamp_column), df)
  else
    match convert_column rt df timestamp_column with
    | Raises e => (Raises e, df)
    | Returns df1 =>
        let most_recent := ts_max (column_of df1 timestamp_column) in
        let age_hours :=
          match most_recent with
          | VTimestamp ns => (total_seconds (now rt - ns) / 3600)%float
          | _ => nan
          end in
        if (float_of_Z max_age_hours <? age_hours)%float then
          (Returns (mkResult false (Some ERROR)
             ("Data is " ++ fmt1 rt age_hours
                ++ " hours old, exceeds maximum age of "
                ++ str_of_Z max_age_hours ++ " hours")
             (freshness_metadata most_recent age_hours max_age_hours
                timestamp_column)), df1)
        else
          (Returns (mkResult true None
             ("Data is fresh: " ++ fmt1 rt age_hours ++ " hours old (within "
                ++ str_of_Z max_age_hours ++ " hour limit)")
             (freshness_metadata most_recent age_hours max_age_hours
                timestamp_column)), df1)
    end.

(** [sort_values] on the timestamps that are present. *)
Fixpoint insert_sorted (x : Z) (l : list Z) : list Z :=
  match l with
  | [] => [x]
  | y :: r => if x <=? y then x :: l else y :: insert_sorted x r
  end.

Definition sort_stamps (l : list Z) : list Z := fold_right insert_sorted [] l.

(** [series.diff()] with the undefined entries dropped: the differences of
    consecutive timestamps. *)
Fixpoint diffs (l : list Z) : list Z :=
  match l with
  | a :: (b :: _) as r => (b - a) :: diffs r
  | _ => []
  end.

(** [df.sort_values(c)[c].diff().dt.total_seconds() / unit].dropna(). *)
Definition time_diffs (s : Series) (unit : float) : list float :=
  map (fun d => (total_seconds d / unit)%float) (diffs (sort_stamps (stamps s))).

Definition series_mean (xs : list float) : float :=
  (fold_left PrimFloat.add xs 0 / float_of_Z (Z.of_nat (List.length xs)))%float.

Definition frequency_metadata (df : DataFrame) (max_gap avg_frequency : float)
    (expected_frequency_hours : Z) (timestamp_column : string) : Metadata :=
  [("max_gap_hours", Some (MFloat max_gap));
   ("avg_frequency_hours", Some (MFloat avg_frequency));
   ("expected_frequency_hours", Some (MInt expected_frequency_hours));
   ("timestamp_column", Some (MText timestamp_column));
   ("record_count", Some (MInt (len df)))].

Definition check_update_frequency (df : DataFrame) (timestamp_column : string)
    (expected_frequency_hours : Z) : Effect :=
  if negb (str_in timestamp_column (columns df)) then
    (Returns (column_not_found df timestamp_column), df)
  else
    match convert_column rt df timestamp_column with
    | Raises e => (Raises e, df)
    | Returns df1 =>
        let td := time_diffs (column_of df1 timestamp_column) 3600 in
        match td with
        | [] =>
            (Returns (mkResult false (Some WARN)
               "Insufficient data to check update frequency"
               [("timestamp_column", Some (MText timestamp_column));
                ("record_count", Some (MInt (len df1)))]), df1)
        | _ :: _ =>
            let avg_frequency := series_mean td in
            let max_gap := series_max td in
            let threshold := expected_frequency_hours * 2 in
            if (float_of_Z threshold <? max_gap)%float then
              (Returns (mkResult false (Some WARN)
                 ("Large gap in updates detected: " ++ fmt1 rt max_gap
                    ++ " hours (expected: "
                    ++ str_of_Z expected_frequency_hours ++ " hours)")
                 (frequency_metadata df1 max_gap avg_frequency
                    expected_frequency_hours timestamp_column)), df1)
            else
              (Returns (mkResult true None
                 ("Update frequency is normal: avg " ++ fmt1 rt avg_frequency
                    ++ " hours, max gap " ++ fmt1 rt max_gap ++ " hours")
                 (frequency_metadata df1 max_gap avg_frequency
                    expected_frequency_hours timestamp_column)), df1)
        end
    end.

Definition ns_per_hour : Z := 3600000000000.
Definition ns_per_day : Z := 86400000000000.

(** [series.dt.hour] and [series.dt.weekday] on one cell (Monday is 0; the
    epoch fell on a Thursday).  The accessor exists on a datetime column
    only. *)
Definition hour_of (ns : Z) : Z := (ns / ns_per_hour) mod 24.
Definition weekday_of (ns : Z) : Z := (ns / ns_per_day + 3) mod 7.

Definition dt_hour (v : value) : outcome value :=
  match v with
  | VTimestamp ns => Returns (VInt (hour_of ns))
  | VNaT => Returns (VFloat nan)
  | _ => Raises AttributeError
  end.

Definition dt_weekday (v : value) : outcome value :=
  match v with
  | VTimestamp ns => Returns (VInt (weekday_of ns))
  | VNaT => Returns (VFloat nan)
  | _ => Raises AttributeError
  end.

Fixpoint map_cells (f : value -> outcome value) (s : Series) : outcome Series :=
  match s with
  | [] => Returns []
  | v :: r => x <- f v ;; xs <- map_cells f r ;; Returns (x :: xs)
  end.

(** The dtype of a column of hours or weekdays. *)
Definition field_dtype (s : Series) : string :=
  if existsb isnull s then "float64" else "int32".

(** [cell >= n] and [cell < n] for a cell of such a column. *)
Definition cell_geb (v : value) (n : Z) : bool :=
  match v with
  | VInt h => n <=? h
  | _ => false
  end.

Definition cell_ltb (v : value) (n : Z) : bool :=
  match v with
  | VInt h => h <? n
  | _ => false
  end.

(** [(count / total_count) * 100 if total_count > 0 else 0]. *)
Definition percentage (n total_count : Z) : float :=
  if 0 <? total_count
  then (float_of_Z n / float_of_Z total_count * 100)%float
  else 0%float.

Definition check_business_hours_data (df : DataFrame)
    (timestamp_column : string) (business_start business_end : Z) : Effect :=
  if negb (str_in timestamp_column (columns df)) then
    (Returns (column_not_found df timestamp_column), df)
  else
    match convert_column rt df timestamp_column with
    | Raises e => (Raises e, df)
    | Returns df1 =>
        match map_cells dt_hour (column_of df1 timestamp_column) with
        | Raises e => (Raises e, df1)
        | Returns hours =>
            let df2 := setitem df1 "hour" (field_dtype hours) hours in
            let hour := column_of df2 "hour" in
            let business_hours_count :=
              count (fun h => cell_geb h business_start
                              && cell_ltb h business_end) hour in
            let total_count := len df2 in
            let business_hours_percentage :=
              percentage business_hours_count total_count in
            match map_cells dt_weekday (column_of df2 timestamp_column) with
            | Raises e => (Raises e, df2)
            | Returns weekdays =>
                let df3 :=
                  setitem df2 "weekday" (field_dtype weekdays) weekdays in
                let weekend_count :=
                  count (fun d => cell_geb d 5) (column_of df3 "weekday") in
                let weekend_percentage :=
                  percentage weekend_count total_count in
                (Returns (mkResult true None
                   ("Data distribution: " ++ fmt1 rt business_hours_percentage
                      ++ "% during business hours, "
                      ++ fmt1 rt weekend_percentage ++ "% on weekends")
                   [("business_hours_count", Some (MInt business_hours_count));
                    ("business_hours_percentage",
                     Some (MFloat business_hours_percentage));
                    ("weekend_count", Some (MInt weekend_count));
                    ("weekend_percentage", Some (MFloat weekend_percentage));
                    ("total_count", Some (MInt total_count));
                    ("business_start", Some (MInt business_start));
                    ("business_end", Some (MInt business_end));
                    ("timestamp_column", Some (MText timestamp_column))]),
                 df3)
            end
        end
    end.

Definition check_data_continuity (df : DataFrame) (timestamp_column : string)
    (expected_interval_minutes : Z) : Effect :=
  if negb (str_in timestamp_column (columns df)) then
    (Returns (column_not_found df timestamp_column), df)
  else
    match convert_column rt df timestamp_column with
    | Raises e => (Raises e, df)
    | Returns df1 =>
        let td := time_diffs (column_of df1 timestamp_column) 60 in
        match td with
        | [] =>
            (Returns (mkResult false (Some WARN)
               "Insufficient data to check continuity"
               [("timestamp_column", Some (MText timestamp_column));
                ("record_count", Some (MInt (len df1)))]), df1)
        | _ :: _ =>
            let tolerance :=
              (float_of_Z expected_interval_minutes * 1.5)%float in
            let gaps := filter (fun d => (tolerance <? d)%float) td in
            match gaps with
            | _ :: _ =>
                (Returns (mkResult false (Some WARN)
                   ("Found " ++ str_of_len gaps ++ " data gaps longer than "
                      ++ fmt1 rt tolerance ++ " minutes")
                   [("gap_count", Some (MInt (Z.of_nat (List.length gaps))));
                    ("largest_gap_minutes", Some (MFloat (series_max gaps)));
                    ("avg_gap_minutes", Some (MFloat (series_mean gaps)));
                    ("expected_interval_minutes",
                     Some (MInt expected_interval_minutes));
                    ("tolerance_minutes", Some (MFloat tolerance));
                    ("timestamp_column", Some (MText timestamp_column))]),
                 df1)
            | [] =>
                (Returns (mkResult true None
                   ("Data continuity is good: no gaps larger than "
                      ++ fmt1 rt tolerance ++ " minutes")
                   [("expected_interval_minutes",
                     Some (MInt expected_interval_minutes));
                    ("tolerance_minutes", Some (MFloat tolerance));
                    ("timestamp_column", Some (MText timestamp_column));
                    ("record_count", Some (MInt (len df1)))]), df1)
            end
        end
    end.

End Freshness.

(** ** Every check behind one interface *)

(** A call of one of the fifteen checks, with its arguments. *)
Inductive Check : Type :=
| NoNulls (cols : list string)
| UniqueValues (cols : list string)
| RowCount (min_rows : Z) (max_rows : option Z)
| ColumnValues (column : string) (allowed_values : list value)
| NumericRange (column : string) (min_value max_value : option float)
| DateRange (column : string) (min_date max_date : option string)
| DataFreshness (timestamp_column : string) (max_age_hours : Z)
| UpdateFrequency (timestamp_column : string) (expected_frequency_hours : Z)
| BusinessHoursData (timestamp_column : string) (business_start business_end : Z)
| DataContinuity (timestamp_column : string) (expected_interval_minutes : Z)
| RequiredColumns (required : list string)
| ColumnTypes (expected_types : list (string * string))
| NoExtraColumns (allowed : list string)
| ColumnOrder (expected_order : list string)
| ValidateSchema (schema : Schema).

(** The outcome of the call and the frame the caller holds afterwards.  A
    check whose body never assigns to [df] leaves the frame it was given. *)
Definition run (rt : Runtime) (c : Check) (df : DataFrame) : Effect :=
  match c with
  | NoNulls cols => (check_no_nulls df cols, df)
  | UniqueValues cols => (check_unique_values df cols, df)
  | RowCount mn mx => (Returns (check_row_count df mn mx), df)
  | ColumnValues col allowed => (check_column_values rt df col allowed, df)
  | NumericRange col mn mx => (check_numeric_range rt df col mn mx, df)
  | DateRange col mn mx => check_date_range rt df col mn mx
  | DataFreshness ts h => check_data_freshness rt df ts h
  | UpdateFrequency ts h => check_update_frequency rt df ts h
  | BusinessHoursData ts s e => check_business_hours_data rt df ts s e
  | DataContinuity ts m => check_data_continuity rt df ts m
  | RequiredColumns l => (Returns (check_required_columns df l), df)
  | ColumnTypes l => (Returns (check_column_types df l), df)
  | NoExtraColumns l => (Returns (check_no_extra_columns df l), df)
  | ColumnOrder l => (Returns (check_column_order df l), df)
  | ValidateSchema s => (Returns (validate_schema df s), df)
  end.

(** The checks whose body assigns to [df[...]]. *)
Definition assigns (c : Check) : bool :=
  match c with
  | DateRange _ _ _ | DataFreshness _ _ | UpdateFrequency _ _
  | BusinessHoursData _ _ _ | DataContinuity _ _ => true
  | _ => false
  end.

(** ** Vocabulary of the statements *)

(** The sub-checks a schema asks for, each run on its own, in the order
    [required_columns], [column_types], [allowed_columns], [column_order]. *)
Definition subchecks (df : DataFrame) (schema : Schema)
  : list AssetCheckResult :=
  let one {A : Type} (o : option A) (check : A -> AssetCheckResult) :=
    match o with
    | Some a => [check a]
    | None => []
    end in
  (one (required_columns schema) (check_required_columns df)
   ++ one (column_types schema) (check_column_types df)
   ++ one (allowed_columns schema) (check_no_extra_columns df)
   ++ one (column_order schema) (check_column_order df))%list.

Definition failing (l : list AssetCheckResult) : list AssetCheckResult :=
  filter (fun r => negb (passed r)) l.

(** The labels of a list, each once, in order of first appearance. *)
Definition add_new (acc : list string) (c : string) : list string :=
  if str_in c acc then acc else (acc ++ [c])%list.

Definition distinct (l : list string) : list string := fold_left add_new l [].

Definition nulls_in (df : DataFrame) (c : string) : Z :=
  count isnull (column_of df c).


(** A frame with the same columns and the same rows in another order. *)
Definition row_permutation (df df' : DataFrame) : Prop :=
  headers df = headers df' /\ Permutation (rows df) (rows df').

(** Two lists of cells already seen that hold the same cells up to the
    equality of [duplicated] and [unique]. *)
Definition same_seen (seen seen' : list value) : Prop :=
  forall v, existsb (pandas_eqb v) seen = existsb (pandas_eqb v) seen'.

(** What [df[c]] gives on a frame and on a row permutation of it. *)
Inductive same_column : outcome Series -> outcome Series -> Prop :=
| same_cells (s s' : Series) :
    Permutation s s' -> same_column (Returns s) (Returns s')
| same_error (e : pyexn) : same_column (Raises e) (Raises e).


Definition below_min (min_value : option float) (xs : list float) : Z :=
  match min_value with
  | Some mn => countf (fun x => (x <? mn)%float) xs
  | None => 0
  end.

Definition above_max (max_value : option float) (xs : list float) : Z :=
  match max_value with
  | Some mx => countf (fun x => (mx <? x)%float) xs
  | None => 0
  end.

(** Every row has one cell per column. *)
Definition well_formed (df : DataFrame) : Prop :=
  Forall (fun r => List.length r = List.length (headers df)) (rows df).

(** The timestamps whose hour lies in [business_start, business_end), and
    those that fall on a Saturday or a Sunday. *)
Definition in_hours (business_start business_end : Z) (s : Series) : Z :=
  Z.of_nat (List.length
    (filter (fun ns => (business_start <=? hour_of ns)
                       && (hour_of ns <? business_end)) (stamps s))).

Definition on_weekend (s : Series) : Z :=
  Z.of_nat (List.length (filter (fun ns => 5 <=? weekday_of ns) (stamps s))).

(** The cells of a datetime column. *)
Definition is_stamp (v : value) : bool :=
  match v with
  | VTimestamp _ | VNaT => true
  | _ => false
  end.

(** A runtime for the concrete examples; its parser knows two dates. *)
Definition rt0 : Runtime :=
  mkRuntime (fun _ => "[...]") (fun _ => "x") (fun _ => "x.x")
            (fun _ => "ts")
            (fun text =>
               if String.eqb text "1970-01-01" then Some 0
               else if String.eqb text "1970-01-03"
               then Some (2 * 86400000000000)
               else None)
            0.

(** ** asset_decorators.py: the wrappers that call the checks *)

(** What a wrapped asset function returned: a frame, or an object that has
    no [columns] attribute. *)
Inductive AssetValue : Type :=
| FrameValue (df : DataFrame)
| OtherValue.

(** What the wrappers write through [context.log]. *)
Inductive LogRecord : Type :=
| LogInfo (msg : string)
| LogWarning (msg : string)
| LogError (msg : string).

(** How a wrapper ends: it returns the asset value, or it raises
    [ValueError(message)] itself, or a check it called raised. *)
Inductive Ending : Type :=
| Hands (v : AssetValue)
| RaisesValueError (message : string)
| Propagates (e : pyexn).

(** [if context and not check_result.passed:
       context.log.warning(f"Data quality check failed: {...}")]. *)
Definition warn_if_failed (has_context : bool) (check_result : AssetCheckResult)
  : list LogRecord :=
  if has_context && negb (passed check_result)
  then [LogWarning ("Data quality check failed: "
                      ++ description check_result)]
  else [].

(** One turn of the loop over [data_quality_checks] in the wrapper of
    [silver_asset]: the records it logs, or the exception of the check. *)
Definition silver_check (has_context : bool) (result : DataFrame)
    (check_name : string) : outcome (list LogRecord) :=
  if String.eqb check_name "no_nulls" then
    check_result <- check_no_nulls result (columns result) ;;
    Returns (warn_if_failed has_context check_result)
  else if String.eqb check_name "row_count" then
    Returns (warn_if_failed has_context (check_row_count result 1 None))
  else Returns [].

(** The loop: what was logged so far stays logged when a check raises. *)
Fixpoint silver_loop (has_context : bool) (result : DataFrame)
    (names : list string) (log : list LogRecord)
  : list LogRecord * option pyexn :=
  match names with
  | [] => (log, None)
  | check_name :: r =>
      match silver_check has_context result check_name with
      | Returns records => silver_loop has_context result r (log ++ records)
      | Raises e => (log, Some e)
      end
  end.

(** The wrapper of [silver_asset], from the value the asset function
    returned: the log and the ending. *)
Definition silver_wrapper (has_context : bool)
    (data_quality_checks : option (list string)) (result : AssetValue)
  : list LogRecord * Ending :=
  match data_quality_checks, result with
  | Some ((_ :: _) as names), FrameValue df =>
      match silver_loop has_context df names [] with
      | (log, None) => (log, Hands result)
      | (log, Some e) => (log, Propagates e)
      end
  | _, _ => ([], Hands result)
  end.

(** The wrapper of [schema_validated_asset]. *)
Definition schema_validated_wrapper (schema : Schema) (result : AssetValue)
  : list LogRecord * Ending :=
  match result with
  | FrameValue df =>
      let schema_check := validate_schema df schema in
      if negb (passed schema_check) then
        ([LogError ("Schema validation failed: " ++ description schema_check)],
         RaisesValueError
           ("Schema validation failed: " ++ description schema_check))
      else ([LogInfo "Schema validation passed"], Hands result)
  | OtherValue => ([], Hands result)
  end.

(** [{**base, **extra}] and [d[k] = v] on dictionaries of strings. *)
Definition dict_update {A : Type} (base extra : list (string * A))
  : list (string * A) :=
  fold_left (fun d kv => dict_set (fst kv) (snd kv) d) extra base.

Definition or_empty {A : Type} (o : option (list A)) : list A :=
  match o with
  | Some l => l
  | None => []
  end.

(** The tags the tier decorators hand to [asset]. *)
Definition bronze_tags (tags : option (list (string * string)))
  : list (string * string) :=
  dict_update [("tier", "bronze"); ("stage", "raw_ingestion")] (or_empty tags).

Definition silver_tags (tags : option (list (string * string)))
  : list (string * string) :=
  dict_update [("tier", "silver"); ("stage", "cleaned_validated")]
    (or_empty tags).

Definition gold_tags (tags : option (list (string * string)))
    (business_owner : option string) : list (string * string) :=
  let gold_tags :=
    dict_update [("tier", "gold"); ("stage", "business_logic")]
      (or_empty tags) in
  match business_owner with
  | Some owner =>
      if truthy_str business_owner
      then dict_set "business_owner" owner gold_tags
      else gold_tags
  | None => gold_tags
  end.

(** ** More vocabulary *)

(** No two cells of the series are equal for [duplicated]. *)
Definition distinct_cells (s : Series) : Prop :=
  ForallOrdPairs (fun a b => pandas_eqb a b = false) s.

Definition duplicate_count (df : DataFrame) (c : string) : Z :=
  sum_mask (duplicated (column_of df c)).

(** The dtype prefix [check_column_types] asks of an expected kind; the
    kinds it does not know ask nothing. *)
Definition kind_prefix (expected_type : string) : option string :=
  if String.eqb expected_type "string" then Some "object"
  else if String.eqb expected_type "integer" then Some "int"
  else if String.eqb expected_type "float" then Some "float"
  else if String.eqb expected_type "datetime" then Some "datetime"
  else if String.eqb expected_type "boolean" then Some "bool"
  else None.

Definition kind_ok (expected_type actual_type : string) : bool :=
  match kind_prefix expected_type with
  | Some p => prefix p actual_type
  | None => true
  end.

(** Some cell of some column of the frame is null. *)
Definition null_somewhere (df : DataFrame) : Prop :=
  exists c v, In c (columns df) /\ In v (column_of df c) /\ isnull v = true.

(** The bound a date text stands for, when the parser reads it. *)
Definition bound_is (rt : Runtime) (text : option string) (bound : option Z)
  : Prop :=
  match text, bound with
  | Some s, Some a => parse_datetime rt s = Some a
  | None, None => True
  | _, _ => False
  end.

Definition before_min (bound : option Z) (s : Series) : Z :=
  match bound with
  | Some a => count_before a s
  | None => 0
  end.

Definition after_max (bound : option Z) (s : Series) : Z :=
  match bound with
  | Some a => count_after a s
  | None => 0
  end.

(** Closed bounds on one timestamp. *)
Definition between (lo hi : option Z) (x : Z) : Prop :=
  match lo with Some a => a <= x | None => True end
  /\ match hi with Some b => x <= b | None => True end.

(** The frames of the statements below have distinct column labels.  On a
    repeated label pandas' [df[label]] is a frame, not a series, and
    [df[list]] selects every column of the label, where [getitem],
    [getitems] and [dtype_of] read the first one. *)
Definition distinct_labels (df : DataFrame) : Prop := NoDup (columns df).

(** The label and dtype of each column, left to right. *)
Definition header_types (df : DataFrame) : list (string * string) :=
  map (fun h => (label h, dtype h)) (headers df).




Definition observed_max (xs : list float) (m : float) : Prop :=
  (PrimFloat.is_nan m = true
   /\ forall x, In x xs -> PrimFloat.is_nan x = true)
  \/ (PrimFloat.is_nan m = false /\ In m xs
      /\ forall x, In x xs -> (m <? x)%float = false).

(** Equality of cells as a relation, and the cells that are equal to
    nothing but themselves: text, timestamps, [None] and [NaT]; not
    numbers, since [1], [1.0] and [True] are equal. *)
Definition pandas_eq (a b : value) : Prop := pandas_eqb a b = true.

Definition strict_cell (v : value) : Prop :=
  match v with
  | VNone | VNaT | VStr _ | VTimestamp _ => True
  | VBool _ | VInt _ | VFloat _ => False
  end.

(** The gaps between consecutive timestamps of a list, in the given unit
    of seconds. *)
Definition gaps_between (l : list Z) (unit : float) : list float :=
  map (fun p => (float_of_Z (snd p - fst p) / 1000000000 / unit)%float)
      (combine l (tl l)).

(** The schema that names one list as required, allowed and ordered. *)
Definition exact_schema (l : list string) : Schema :=
  mkSchema (Some l) None (Some l) (Some l).

(** The four checks that convert the timestamp column and assign nothing
    else. *)
Definition converts_only (c : Check) : option string :=
  match c with
  | DateRange col _ _ => Some col
  | DataFreshness ts _ | UpdateFrequency ts _ | DataContinuity ts _ => Some ts
  | _ => None
  end.

(** ** Frames for the concrete examples *)

(** Two columns, two rows, one missing cell. *)
Definition frame_ab : DataFrame :=
  mkDataFrame [mkHeader "a" "int64"; mkHeader "b" "object"]
              [[VInt 1; VStr "x"]; [VInt 2; VNone]].


(** One text column, and the same rows in the other order. *)
Definition frame_cd : DataFrame :=
  mkDataFrame [mkHeader "status" "object"] [[VStr "c"]; [VStr "d"]].

Definition frame_dc : DataFrame :=
  mkDataFrame [mkHeader "status" "object"] [[VStr "d"]; [VStr "c"]].

(** One text column that holds a value twice. *)
Definition frame_xxy : DataFrame :=
  mkDataFrame [mkHeader "k" "object"] [[VStr "x"]; [VStr "x"]; [VStr "y"]].

(** A column of timestamps: Thursday 1970-01-01 10:00 and Saturday
    1970-01-03 20:00. *)
Definition frame_ts : DataFrame :=
  mkDataFrame [mkHeader "ts" "datetime64[ns]"; mkHeader "n" "int64"]
              [[VTimestamp 36000000000000; VInt 1];
               [VTimestamp 244800000000000; VInt 2]].

(** One date held as text. *)
Definition frame_day : DataFrame :=
  mkDataFrame [mkHeader "day" "object"] [[VStr "1970-01-01"]].

(** A column of dates held as text. *)
Definition frame_days : DataFrame :=
  mkDataFrame [mkHeader "day" "object"]
              [[VStr "1970-01-01"]; [VStr "1970-01-03"]].

(** * Properties *)

(** ** Lists of labels *)

Lemma str_in_In (s : string) (l : list string) :
  str_in s l = true <-> In s l.
Proof.
  unfold str_in. rewrite existsb_exists. split.
  - intros [x [Hx He]]. apply String.eqb_eq in He. now subst.
  - intros H. exists s. split; [assumption | apply String.eqb_refl].
Qed.

Lemma str_in_false (s : string) (l : list string) :
  str_in s l = false <-> ~ In s l.
Proof.
  rewrite <- str_in_In. destruct (str_in s l); split; congruence.
Qed.

Lemma list_str_eqb_eq (a b : list string) :
  list_str_eqb a b = true <-> a = b.
Proof.
  unfold list_str_eqb. destruct (list_eq_dec string_dec a b); split;
    congruence.
Qed.

Lemma filter_all {A : Type} (p : A -> bool) (l : list A) :
  (forall x, In x l -> p x = true) -> filter p l = l.
Proof.
  induction l as [|a l IH]; simpl; intros H; [reflexivity|].
  rewrite (H a (or_introl eq_refl)). f_equal. apply IH. auto.
Qed.

Lemma filter_none {A : Type} (p : A -> bool) (l : list A) :
  (forall x, In x l -> p x = false) -> filter p l = [].
Proof.
  induction l as [|a l IH]; simpl; intros H; [reflexivity|].
  rewrite (H a (or_introl eq_refl)). apply IH. auto.
Qed.

Lemma filter_nil_iff {A : Type} (p : A -> bool) (l : list A) :
  filter p l = [] <-> (forall x, In x l -> p x = false).
Proof.
  split; [|apply filter_none].
  induction l as [|a l IH]; simpl; intros H x Hx; [contradiction|].
  destruct (p a) eqn:Ha; [discriminate|].
  destruct Hx as [<-|Hx]; auto.
Qed.

(** ** Column order *)

(** C8. [check_column_order] keeps of the expected order the labels that
    are columns of the frame and of the frame's columns those that are
    expected; it passes exactly when the two filtered lists are equal and a
    failure carries the severity WARN.  When the expected order is a
    permutation of the frame's columns, it passes exactly when the columns
    stand in that order. *)
Theorem check_column_order_spec (df : DataFrame) (expected_order : list string) :
  let common := filter (fun c => str_in c (columns df)) expected_order in
  let actual := filter (fun c => str_in c expected_order) (columns df) in
  let r := check_column_order df expected_order in
  (passed r = true <-> common = actual)
  /\ (passed r = false <-> common <> actual)
  /\ (passed r = false -> severity r = Some WARN)
  /\ (Permutation expected_order (columns df) ->
      (passed r = true <-> columns df = expected_order)).
Proof.
  intros common actual r.
  assert (Hp : passed r = true <-> common = actual).
  { unfold r, check_column_order. fold common actual.
    destruct (list_str_eqb common actual) eqn:E; simpl.
    - apply list_str_eqb_eq in E. split; auto.
    - split; [discriminate|]. intros H. apply list_str_eqb_eq in H.
      congruence. }
  split; [exact Hp|]. split.
  { rewrite <- Hp. destruct (passed r); split; congruence. }
  split.
  { unfold r, check_column_order.
    destruct (list_str_eqb _ _); simpl; [discriminate | reflexivity]. }
  intros Hperm. rewrite Hp. unfold common, actual.
  rewrite (filter_all _ expected_order), (filter_all _ (columns df)).
  - split; congruence.
  - intros x Hx. apply str_in_In.
    apply (Permutation_in x (Permutation_sym Hperm) Hx).
  - intros x Hx. apply str_in_In. apply (Permutation_in x Hperm Hx).
Qed.

Lemma check_column_order_witness :
  Permutation ["b"; "a"] (columns frame_ab)
  /\ passed (check_column_order frame_ab ["b"; "a"]) = false
  /\ passed (check_column_order frame_ab ["a"; "b"]) = true.
Proof.
  split; [apply perm_swap|].
  split.
  - destruct (check_column_order_spec frame_ab ["b"; "a"])
      as [_ [H _]]. apply H. vm_compute. discriminate.
  - destruct (check_column_order_spec frame_ab ["a"; "b"])
      as [_ [_ [_ H]]]. apply H; [apply Permutation_refl | reflexivity].
Defined.

(** ** Column types *)

Lemma type_mismatch_absent (df : DataFrame) (c t : string) :
  str_in c (columns df) = false -> type_mismatch df c t = None.
Proof.
  intros H. unfold type_mismatch. now rewrite H.
Qed.

(** ** The schema validator *)

Lemma run_subcheck_app {A : Type} (o : option A)
    (check : A -> AssetCheckResult) (issues : list string) :
  run_subcheck o check issues
  = (issues ++ map description
       (failing match o with Some a => [check a] | None => [] end))%list.
Proof.
  unfold run_subcheck, failing. destruct o as [a|]; simpl.
  - destruct (passed (check a)); simpl; [now rewrite app_nil_r | reflexivity].
  - now rewrite app_nil_r.
Qed.

Lemma schema_issues_failing (df : DataFrame) (schema : Schema) :
  schema_issues df schema = map description (failing (subchecks df schema)).
Proof.
  unfold schema_issues, subchecks, failing.
  rewrite !run_subcheck_app. unfold failing.
  rewrite !filter_app, !map_app. simpl. now rewrite <- !app_assoc.
Qed.

Lemma failing_nil_iff (l : list AssetCheckResult) :
  failing l = [] <-> (forall s, In s l -> passed s = true).
Proof.
  unfold failing. rewrite filter_nil_iff. split; intros H s Hs.
  - specialize (H s Hs). now destruct (passed s).
  - now rewrite (H s Hs).
Qed.

(** ** Severity of a failure *)

Ltac effect_cases :=
  repeat match goal with
  | |- context [match ?x with _ => _ end] => destruct x eqn:?; simpl
  | |- context [if ?x then _ else _] => destruct x eqn:?; simpl
  end.

Lemma numeric_range_max_severity (rt : Runtime) (c : string)
    (xs : list float) (mn mx : option float) :
  passed (numeric_range_max rt c xs mn mx) = false ->
  severity (numeric_range_max rt c xs mn mx) = Some ERROR.
Proof.
  unfold numeric_range_max, numeric_range_pass.
  destruct mx as [m|]; simpl; [|discriminate].
  destruct (0 <? _); simpl; [reflexivity | discriminate].
Qed.

Lemma date_range_body_severity (rt : Runtime) (c : string) (s : Series)
    (mn mx : option string) (r : AssetCheckResult) :
  date_range_body rt c s mn mx = Returns r -> passed r = false ->
  severity r = Some ERROR.
Proof.
  unfold date_range_body, date_range_max, date_range_pass, parse_bound, bind.
  intros H Hp.
  repeat match type of H with
  | context [match ?x with _ => _ end] => destruct x eqn:?
  | context [if ?x then _ else _] => destruct x eqn:?
  end; inversion H; subst; simpl in *; congruence.
Qed.

(** C7. Whichever of the checks is called (the column checks, the shape
    checks, the temporal checks or the schema validator), a result it
    returns with [passed = false] carries the severity WARN or ERROR; it
    is never INFO and never left unset. *)
Theorem failed_check_has_severity (rt : Runtime) (c : Check) (df : DataFrame)
    (r : AssetCheckResult) :
  fst (run rt c df) = Returns r ->
  passed r = false ->
  severity r = Some WARN \/ severity r = Some ERROR.
Proof.
  destruct c; simpl.
  - unfold check_no_nulls, bind. intros H Hp.
    destruct (getitems df cols); [|discriminate].
    destruct (map fst _); inversion H; subst; simpl in *;
      [discriminate | now right].
  - unfold check_unique_values, bind. intros H Hp.
    destruct (unique_loop df cols [] []) as [[dc fc]|]; [|discriminate].
    destruct fc; inversion H; subst; simpl in *; [discriminate | now right].
  - unfold check_row_count. intros H Hp. inversion H; subst; clear H.
    revert Hp. effect_cases; intros; try discriminate; now right.
  - unfold check_column_values, bind. intros H Hp.
    destruct (getitem df column); [|discriminate].
    destruct (filter _ _); inversion H; subst; simpl in *;
      [discriminate | now right].
  - unfold check_numeric_range, bind. intros H Hp.
    destruct (getitem df column); [|discriminate].
    destruct (to_floats a); [|discriminate].
    destruct min_value as [mn|].
    + destruct (0 <? _); inversion H; subst; simpl in *; [now right|].
      right. now apply numeric_range_max_severity.
    + inversion H; subst. right. now apply numeric_range_max_severity.
  - unfold check_date_range. intros H Hp.
    destruct (convert_column rt df column); simpl in H; [|discriminate].
    right. eapply date_range_body_severity; eauto.
  - unfold check_data_freshness, column_not_found. intros H Hp.
    revert H. effect_cases; intros H; inversion H; subst; simpl in *;
      try discriminate; now right.
  - unfold check_update_frequency, column_not_found. intros H Hp.
    revert H. effect_cases; intros H; inversion H; subst; simpl in *;
      try discriminate; auto.
  - unfold check_business_hours_data, column_not_found. intros H Hp.
    revert H. effect_cases; intros H; inversion H; subst; simpl in *;
      try discriminate; auto.
  - unfold check_data_continuity, column_not_found. intros H Hp.
    revert H. effect_cases; intros H; inversion H; subst; simpl in *;
      try discriminate; auto.
  - unfold check_required_columns. intros H Hp. inversion H; subst; clear H.
    revert Hp. destruct (filter _ _); simpl; intros; [discriminate|now right].
  - unfold check_column_types. intros H Hp. inversion H; subst; clear H.
    revert Hp. destruct (type_mismatches _ _); simpl; intros;
      [discriminate|now right].
  - unfold check_no_extra_columns. intros H Hp. inversion H; subst; clear H.
    revert Hp. destruct (filter _ _); simpl; intros; [discriminate|now left].
  - unfold check_column_order. intros H Hp. inversion H; subst; clear H.
    revert Hp. destruct (list_str_eqb _ _); simpl; intros;
      [discriminate|now left].
  - unfold validate_schema. intros H Hp. inversion H; subst; clear H.
    revert Hp. destruct (schema_issues _ _); simpl; intros;
      [discriminate|now right].
Qed.

Lemma failed_check_witness :
  severity (check_row_count frame_ab 10 None) = Some WARN
  \/ severity (check_row_count frame_ab 10 None) = Some ERROR.
Proof.
  apply (failed_check_has_severity rt0 (RowCount 10 None) frame_ab);
    reflexivity.
Defined.

(** ** Row count *)

(** What [check_row_count] decides: the upper bound is looked at only when
    [max_rows] is truthy, so that a bound of zero is no bound. *)
Lemma check_row_count_passed (df : DataFrame) (min_rows : Z)
    (max_rows : option Z) :
  passed (check_row_count df min_rows max_rows) = true
  <-> min_rows <= len df
      /\ (forall m, max_rows = Some m -> m <> 0 -> len df <= m).
Proof.
  unfold check_row_count.
  destruct (len df <? min_rows) eqn:E1; simpl.
  - apply Z.ltb_lt in E1. split; [discriminate | lia].
  - apply Z.ltb_ge in E1. destruct max_rows as [m|]; simpl.
    + destruct (m =? 0) eqn:E2; simpl.
      * apply Z.eqb_eq in E2. split; [|reflexivity].
        intros _. split; [assumption|]. intros m' [= <-]. lia.
      * apply Z.eqb_neq in E2. destruct (m <? len df) eqn:E3; simpl.
        -- apply Z.ltb_lt in E3. split; [discriminate|].
           intros [_ H]. specialize (H m eq_refl E2). lia.
        -- apply Z.ltb_ge in E3. split; [|reflexivity].
           intros _. split; [assumption|]. intros m' [= <-] _. assumption.
    + split; [|reflexivity]. intros _. split; [assumption | discriminate].
Qed.

(** A failing [check_row_count] has the severity ERROR and stores the
    number of rows and the bound that was violated. *)
Lemma check_row_count_failure (df : DataFrame) (min_rows : Z)
    (max_rows : option Z) :
  let r := check_row_count df min_rows max_rows in
  passed r = false ->
  severity r = Some ERROR
  /\ lookup "row_count" (metadata r) = Some (Some (MInt (len df)))
  /\ ((len df < min_rows
       /\ lookup "min_rows" (metadata r) = Some (Some (MInt min_rows)))
      \/ (exists m, max_rows = Some m /\ m < len df
          /\ lookup "max_rows" (metadata r) = Some (Some (MInt m)))).
Proof.
  unfold check_row_count.
  destruct (len df <? min_rows) eqn:E1; simpl.
  - apply Z.ltb_lt in E1. intros _. repeat split. left. now split.
  - destruct max_rows as [m|]; simpl; [|discriminate].
    destruct (m =? 0); simpl; [discriminate|].
    destruct (m <? len df) eqn:E3; simpl; [|discriminate].
    apply Z.ltb_lt in E3. intros _. repeat split. right. exists m.
    repeat split. assumption.
Qed.

(** C5, at the input where the code leaves the claim.  A frame of two
    rows checked against [max_rows = 0] passes, although two rows are more
    than zero: the test [if max_rows and ...] reads the bound 0 as no
    bound. *)
Theorem check_row_count_max_zero :
  len frame_ab = 2
  /\ passed (check_row_count frame_ab 1 (Some 0)) = true
  /\ ~ (1 <= len frame_ab /\ len frame_ab <= 0)
  /\ lookup "max_rows" (metadata (check_row_count frame_ab 1 (Some 0)))
     = Some None.
Proof.
  repeat split. intros [_ H]. revert H. vm_compute. intros H. now apply H.
Qed.

(** ** Null counts *)

Lemma index_of_Some (c : string) (l : list string) :
  In c l -> exists i, index_of c l = Some i.
Proof.
  induction l as [|a l IH]; simpl; [contradiction|].
  destruct (String.eqb c a) eqn:E; [now exists O|].
  intros [-> | H]; [now rewrite String.eqb_refl in E|].
  destruct (IH H) as [i ->]. now exists (S i).
Qed.

Lemma index_of_None (c : string) (l : list string) :
  ~ In c l -> index_of c l = None.
Proof.
  induction l as [|a l IH]; simpl; [reflexivity|]. intros H.
  destruct (String.eqb c a) eqn:E.
  - apply String.eqb_eq in E. subst. exfalso. auto.
  - rewrite IH; auto.
Qed.

Lemma getitem_present (df : DataFrame) (c : string) :
  In c (columns df) -> getitem df c = Returns (column_of df c).
Proof.
  intros H. unfold column_of, getitem.
  destruct (index_of_Some _ _ H) as [i ->]. reflexivity.
Qed.

Lemma getitem_absent (df : DataFrame) (c : string) :
  ~ In c (columns df) -> getitem df c = Raises (KeyError c).
Proof.
  intros H. unfold getitem. now rewrite index_of_None.
Qed.

Lemma getitems_present (df : DataFrame) (cols : list string) :
  (forall c, In c cols -> In c (columns df)) ->
  getitems df cols = Returns (map (fun c => (c, column_of df c)) cols).
Proof.
  induction cols as [|c l IH]; simpl; intros H; [reflexivity|].
  rewrite getitem_present by auto. simpl. rewrite IH by auto. reflexivity.
Qed.

Lemma dict_set_map {A : Type} (f : string -> A) (l : list string)
    (c : string) :
  dict_set c (f c) (map (fun k => (k, f k)) l)
  = map (fun k => (k, f k)) (add_new l c).
Proof.
  unfold add_new. induction l as [|a l IH]; simpl; [reflexivity|].
  destruct (String.eqb c a) eqn:E; simpl.
  - apply String.eqb_eq in E. now subst.
  - rewrite IH. unfold str_in. destruct (existsb (String.eqb c) l); reflexivity.
Qed.

Lemma dict_of_items_map {A : Type} (f : string -> A) (l : list string) :
  dict_of_items (map (fun k => (k, f k)) l)
  = map (fun k => (k, f k)) (distinct l).
Proof.
  unfold dict_of_items, distinct.
  change (@nil (string * A)) with (map (fun k => (k, f k)) []).
  generalize (@nil string) as acc.
  induction l as [|c l IH]; simpl; intros acc; [reflexivity|].
  rewrite dict_set_map. apply IH.
Qed.

Lemma add_new_In (acc : list string) (c x : string) :
  In x (add_new acc c) <-> In x acc \/ x = c.
Proof.
  unfold add_new. destruct (str_in c acc) eqn:E.
  - apply str_in_In in E. split; [auto|]. intros [H | ->]; assumption.
  - rewrite in_app_iff. simpl. intuition.
Qed.

Lemma add_new_NoDup (acc : list string) (c : string) :
  NoDup acc -> NoDup (add_new acc c).
Proof.
  unfold add_new. intros H. destruct (str_in c acc) eqn:E; [assumption|].
  apply str_in_false in E. apply NoDup_app; [assumption | | ].
  - constructor; [intros [] | constructor].
  - intros x Hx [<-|[]]. contradiction.
Qed.

(** [distinct] lists every label of its argument, each once. *)
Lemma distinct_spec (l : list string) :
  NoDup (distinct l) /\ (forall c, In c (distinct l) <-> In c l).
Proof.
  unfold distinct.
  assert (G : forall acc, NoDup acc ->
            NoDup (fold_left add_new l acc)
            /\ (forall c, In c (fold_left add_new l acc)
                          <-> In c acc \/ In c l)).
  { induction l as [|a l IH]; simpl; intros acc Hacc.
    - split; [assumption|]. intuition.
    - destruct (IH (add_new acc a) (add_new_NoDup _ _ Hacc)) as [H1 H2].
      split; [assumption|]. intros c. rewrite H2, add_new_In.
      intuition. }
  destruct (G [] (NoDup_nil _)) as [H1 H2]. split; [assumption|].
  intros c. rewrite H2. simpl. intuition.
Qed.

Lemma count_pos (p : value -> bool) (s : Series) :
  (0 <? count p s) = true <-> exists v, In v s /\ p v = true.
Proof.
  unfold count. rewrite Z.ltb_lt. split.
  - destruct (filter p s) as [|v l] eqn:E; simpl; [lia|]. intros _.
    exists v. apply filter_In. rewrite E. now left.
  - intros [v Hv]. apply filter_In in Hv.
    destruct (filter p s); [contradiction | simpl; lia].
Qed.

Lemma count_zero (p : value -> bool) (s : Series) :
  (0 <? count p s) = false <-> forall v, In v s -> p v = false.
Proof.
  rewrite <- not_true_iff_false, count_pos. split.
  - intros H v Hv. destruct (p v) eqn:E; [|reflexivity].
    exfalso. apply H. now exists v.
  - intros H [v [Hv Hp]]. rewrite (H v Hv) in Hp. discriminate.
Qed.

Lemma failed_columns_filter (f : string -> Z) (l : list string) :
  map fst (filter (fun cn : string * Z => 0 <? snd cn)
             (map (fun c => (c, f c)) l))
  = filter (fun c => 0 <? f c) l.
Proof.
  induction l as [|a l IH]; simpl; [reflexivity|].
  destruct (0 <? f a); simpl; now rewrite IH.
Qed.

Lemma null_counts_map (df : DataFrame) (cols : list string) :
  map (fun cs : string * Series => (fst cs, count isnull (snd cs)))
      (map (fun c => (c, column_of df c)) cols)
  = map (fun c => (c, nulls_in df c)) cols.
Proof. rewrite map_map. reflexivity. Qed.

(** ** Order and equality of binary64 *)

Lemma SFcompare_antisym (a b : spec_float) :
  SFcompare b a = option_map CompOpp (SFcompare a b).
Proof.
  destruct a as [sa|sa| |sa ma ea], b as [sb|sb| |sb mb eb]; simpl;
    try reflexivity;
    try (destruct sa; reflexivity); try (destruct sb; reflexivity);
    try (destruct sa, sb; reflexivity).
  destruct sa, sb; simpl; try reflexivity;
    rewrite (Z.compare_antisym ea eb); destruct (ea ?= eb)%Z; simpl;
    try reflexivity;
    change (PosDef.Pos.compare_cont Eq mb ma) with (Pos.compare mb ma);
    change (PosDef.Pos.compare_cont Eq ma mb) with (Pos.compare ma mb);
    rewrite (Pos.compare_antisym ma mb); reflexivity.
Qed.

Lemma SFcompare_Eq_cong (a b c : spec_float) :
  SFcompare a b = Some Eq -> SFcompare a c = SFcompare b c.
Proof.
  destruct a as [sa|sa| |sa ma ea], b as [sb|sb| |sb mb eb]; simpl;
    intros H; try discriminate;
    try (destruct sa; discriminate); try (destruct sb; discriminate).
  - destruct c; reflexivity.
  - destruct sa, sb; try discriminate; reflexivity.
  - assert (E : sa = sb /\ ea = eb /\ ma = mb).
    { destruct sa, sb; try discriminate;
        destruct (ea ?= eb)%Z eqn:Ee; try discriminate;
        apply Z.compare_eq in Ee; injection H as H;
        change (PosDef.Pos.compare_cont Eq ma mb) with (Pos.compare ma mb) in H.
      - destruct (Pos.compare ma mb) eqn:Em; try discriminate.
        apply Pos.compare_eq in Em. auto.
      - apply Pos.compare_eq in H. auto. }
    destruct E as [-> [-> ->]]. reflexivity.
Qed.



Lemma float_eqb_sym (a b : float) : (a =? b)%float = (b =? a)%float.
Proof.
  rewrite !eqb_spec. unfold SFeqb.
  rewrite (SFcompare_antisym (Prim2SF a) (Prim2SF b)).
  destruct (SFcompare (Prim2SF a) (Prim2SF b)) as [[]|]; reflexivity.
Qed.

Lemma float_eqb_cong (a b c : float) :
  (a =? b)%float = true -> (a =? c)%float = (b =? c)%float.
Proof.
  rewrite !eqb_spec. unfold SFeqb.
  destruct (SFcompare (Prim2SF a) (Prim2SF b)) as [[]|] eqn:E;
    try discriminate.
  intros _. now rewrite (SFcompare_Eq_cong _ _ (Prim2SF c) E).
Qed.

(** ** Numeric range *)

Lemma countf_pos (p : float -> bool) (xs : list float) :
  (0 <? countf p xs) = true <-> exists x, In x xs /\ p x = true.
Proof.
  unfold countf. rewrite Z.ltb_lt. split.
  - destruct (filter p xs) as [|v l] eqn:E; simpl; [lia|]. intros _.
    exists v. apply filter_In. rewrite E. now left.
  - intros [v Hv]. apply filter_In in Hv.
    destruct (filter p xs); [contradiction | simpl; lia].
Qed.

Lemma countf_nonneg (p : float -> bool) (xs : list float) : 0 <= countf p xs.
Proof. unfold countf. lia. Qed.

Lemma countf_zero (p : float -> bool) (xs : list float) :
  countf p xs = 0 <-> forall x, In x xs -> p x = false.
Proof.
  split.
  - intros H x Hx. destruct (p x) eqn:E; [|reflexivity]. exfalso.
    assert (H1 : (0 <? countf p xs) = true) by (apply countf_pos; eauto).
    rewrite H in H1. discriminate.
  - intros H. unfold countf. now rewrite (filter_none _ _ H).
Qed.

(** ** Equality of cells is an equivalence *)

Lemma float_nan_eqb (a c : float) :
  PrimFloat.is_nan a = true -> (a =? c)%float = false.
Proof.
  unfold PrimFloat.is_nan. intros H.
  destruct (a =? c)%float eqn:E; [|reflexivity].
  rewrite (float_eqb_cong a c a E), (float_eqb_sym c a), E in H. discriminate.
Qed.

Lemma float_eqb_not_nan (a b : float) :
  (a =? b)%float = true ->
  PrimFloat.is_nan a = false /\ PrimFloat.is_nan b = false.
Proof.
  intros E. split.
  - destruct (PrimFloat.is_nan a) eqn:N; [|reflexivity].
    rewrite (float_nan_eqb a b N) in E. discriminate.
  - destruct (PrimFloat.is_nan b) eqn:N; [|reflexivity].
    rewrite float_eqb_sym, (float_nan_eqb b a N) in E. discriminate.
Qed.

Lemma base_eqb_refl (w : value) : base_eqb true w w = true.
Proof.
  destruct w; simpl; try reflexivity.
  - apply Bool.eqb_reflx.
  - apply Z.eqb_refl.
  - unfold PrimFloat.is_nan. destruct (f =? f)%float; reflexivity.
  - apply String.eqb_refl.
  - apply Z.eqb_refl.
Qed.

Lemma base_eqb_sym (n : bool) (a b : value) : base_eqb n a b = base_eqb n b a.
Proof.
  destruct a, b; simpl; try reflexivity.
  - now destruct b, b0.
  - apply Z.eqb_sym.
  - rewrite (float_eqb_sym f f0).
    destruct n, (PrimFloat.is_nan f), (PrimFloat.is_nan f0); reflexivity.
  - apply String.eqb_sym.
  - apply Z.eqb_sym.
Qed.

Lemma base_eqb_cong (n : bool) (a b c : value) :
  base_eqb true a b = true -> base_eqb n a c = base_eqb n b c.
Proof.
  destruct a, b; simpl; intros H; try discriminate; try reflexivity.
  - apply Bool.eqb_prop in H. now subst.
  - apply Z.eqb_eq in H. now subst.
  - destruct c; try reflexivity. simpl.
    destruct (f =? f0)%float eqn:E; simpl in H.
    + destruct (float_eqb_not_nan f f0 E) as [-> ->].
      rewrite (float_eqb_cong f f0 f1 E). now rewrite !andb_false_r.
    + apply andb_true_iff in H. destruct H as [Hf Hf0].
      rewrite Hf, Hf0, (float_nan_eqb f f1 Hf), (float_nan_eqb f0 f1 Hf0).
      reflexivity.
  - apply String.eqb_eq in H. now subst.
  - apply Z.eqb_eq in H. now subst.
Qed.

Lemma pandas_eqb_refl (v : value) : pandas_eqb v v = true.
Proof. apply base_eqb_refl. Qed.

Lemma pandas_eqb_sym (a b : value) : pandas_eqb a b = pandas_eqb b a.
Proof. apply base_eqb_sym. Qed.

Lemma pandas_eqb_cong (a b c : value) :
  pandas_eqb a b = true -> pandas_eqb a c = pandas_eqb b c.
Proof. apply base_eqb_cong. Qed.

Lemma pandas_eqb_cong_r (a b c : value) :
  pandas_eqb a b = true -> pandas_eqb c a = pandas_eqb c b.
Proof.
  intros H. rewrite (pandas_eqb_sym c a), (pandas_eqb_sym c b).
  now apply pandas_eqb_cong.
Qed.

Lemma py_in_cong (a b : value) (l : list value) :
  pandas_eqb a b = true -> py_in a l = py_in b l.
Proof.
  intros H. unfold py_in. induction l as [|c l IH]; simpl; [reflexivity|].
  rewrite IH. f_equal. unfold py_eqb. now apply base_eqb_cong.
Qed.

(** ** Distinct and duplicated cells under a permutation *)

Lemma same_seen_cons (x : value) (seen seen' : list value) :
  same_seen seen seen' -> same_seen (x :: seen) (x :: seen').
Proof. intros H v. simpl. now rewrite (H v). Qed.

Lemma unique_from_ext (s : Series) (seen seen' : list value) :
  same_seen seen seen' -> unique_from seen s = unique_from seen' s.
Proof.
  revert seen seen'. induction s as [|v r IH]; simpl; intros seen seen' H;
    [reflexivity|].
  rewrite <- (H v). destruct (existsb (pandas_eqb v) seen).
  - now apply IH.
  - f_equal. apply IH. now apply same_seen_cons.
Qed.

Lemma unique_from_swap (x y : value) (l seen : list value) :
  List.length (unique_from seen (y :: x :: l))
  = List.length (unique_from seen (x :: y :: l)).
Proof.
  simpl. rewrite (pandas_eqb_sym y x).
  destruct (existsb (pandas_eqb y) seen) eqn:By,
           (existsb (pandas_eqb x) seen) eqn:Bx; simpl;
    rewrite ?orb_true_r, ?orb_false_r; try reflexivity.
  destruct (pandas_eqb x y) eqn:E; simpl.
  - f_equal. f_equal. apply unique_from_ext. intros v. simpl.
    now rewrite (pandas_eqb_cong_r x y v E).
  - do 3 f_equal. apply unique_from_ext. intros v. simpl.
    rewrite !orb_assoc. f_equal. apply orb_comm.
Qed.

Lemma unique_from_perm (s s' : Series) :
  Permutation s s' ->
  forall seen,
    List.length (unique_from seen s) = List.length (unique_from seen s').
Proof.
  induction 1 as [|x l l' _ IH|x y l|l l' l'' _ IH1 _ IH2]; intros seen.
  - reflexivity.
  - simpl. destruct (existsb (pandas_eqb x) seen); simpl; now rewrite IH.
  - apply unique_from_swap.
  - now rewrite IH1.
Qed.

Lemma existsb_pandas_cong (a b : value) (seen : list value) :
  pandas_eqb a b = true ->
  existsb (pandas_eqb a) seen = existsb (pandas_eqb b) seen.
Proof.
  intros H. induction seen as [|c l IH]; simpl; [reflexivity|].
  now rewrite IH, (pandas_eqb_cong a b c H).
Qed.

Lemma same_seen_dup (v : value) (seen : list value) :
  existsb (pandas_eqb v) seen = true -> same_seen (v :: seen) seen.
Proof.
  intros E w. simpl. destruct (pandas_eqb w v) eqn:Ew; [|reflexivity].
  simpl. now rewrite (existsb_pandas_cong w v seen Ew).
Qed.

Lemma sum_mask_cons (b : bool) (m : list bool) :
  sum_mask (b :: m) = (if b then 1 else 0) + sum_mask m.
Proof.
  unfold sum_mask. simpl. destruct b; simpl List.length; lia.
Qed.

Lemma duplicated_unique (s : Series) (seen : list value) :
  sum_mask (duplicated_from seen s)
  = Z.of_nat (List.length s) - Z.of_nat (List.length (unique_from seen s)).
Proof.
  revert seen. induction s as [|v r IH]; intros seen; [reflexivity|].
  simpl duplicated_from. rewrite sum_mask_cons, IH. simpl unique_from.
  destruct (existsb (pandas_eqb v) seen) eqn:E; simpl List.length; [|lia].
  rewrite (unique_from_ext r (v :: seen) seen (same_seen_dup v seen E)). lia.
Qed.

Lemma duplicated_perm (s s' : Series) :
  Permutation s s' -> sum_mask (duplicated s) = sum_mask (duplicated s').
Proof.
  intros H. unfold duplicated. rewrite !duplicated_unique.
  now rewrite (unique_from_perm s s' H), (Permutation_length H).
Qed.

Lemma unique_from_In (s : Series) (seen : list value) (u : value) :
  In u (unique_from seen s) -> In u s.
Proof.
  revert seen. induction s as [|v r IH]; simpl; intros seen; [auto|].
  destruct (existsb (pandas_eqb v) seen); simpl.
  - intros H. right. eapply IH; eauto.
  - intros [H|H]; [now left | right; eapply IH; eauto].
Qed.

Lemma unique_from_cover (s : Series) (seen : list value) (v : value) :
  In v s ->
  existsb (pandas_eqb v) seen = true
  \/ exists u, In u (unique_from seen s) /\ pandas_eqb v u = true.
Proof.
  revert seen. induction s as [|w r IH]; simpl; intros seen; [contradiction|].
  intros [<-|H].
  - destruct (existsb (pandas_eqb w) seen) eqn:E; [now left|].
    right. exists w. split; [now left | apply pandas_eqb_refl].
  - destruct (existsb (pandas_eqb w) seen) eqn:E.
    + destruct (IH seen H) as [H1|[u [Hu Hv]]]; [now left|].
      right. now exists u.
    + destruct (IH (w :: seen) H) as [H1|[u [Hu Hv]]].
      * simpl in H1. apply orb_true_iff in H1. destruct H1 as [H1|H1].
        -- right. exists w. split; [now left | assumption].
        -- now left.
      * right. exists u. split; [now right | assumption].
Qed.

Lemma invalid_values_nil (s : Series) (allowed : list value) :
  filter (fun val => negb (py_in val allowed)) (unique s) = []
  <-> (forall v, In v s -> py_in v allowed = true).
Proof.
  rewrite filter_nil_iff. split.
  - intros H v Hv.
    destruct (unique_from_cover s [] v Hv) as [H1|[u [Hu Hvu]]];
      [discriminate|].
    rewrite (py_in_cong v u allowed Hvu). specialize (H u Hu).
    now apply negb_false_iff in H.
  - intros H u Hu. apply negb_false_iff. apply H.
    eapply unique_from_In; eauto.
Qed.

(** ** Row order *)

Lemma row_permutation_columns (df df' : DataFrame) :
  row_permutation df df' -> columns df = columns df'.
Proof. intros [H _]. unfold columns. now rewrite H. Qed.

Lemma row_permutation_len (df df' : DataFrame) :
  row_permutation df df' -> len df = len df'.
Proof.
  intros [_ H]. unfold len. now rewrite (Permutation_length H).
Qed.

Lemma getitem_perm (df df' : DataFrame) (c : string) :
  row_permutation df df' -> same_column (getitem df c) (getitem df' c).
Proof.
  intros H. unfold getitem. rewrite <- (row_permutation_columns _ _ H).
  destruct (index_of c (columns df)); constructor.
  apply Permutation_map. apply H.
Qed.

Lemma count_perm (p : value -> bool) (s s' : Series) :
  Permutation s s' -> count p s = count p s'.
Proof.
  intros H. unfold count. f_equal. apply Permutation_length.
  (* the cells kept by the mask are permuted with the column *)
  induction H; simpl.
  - constructor.
  - destruct (p x); [constructor|]; assumption.
  - destruct (p x), (p y); try constructor; apply Permutation_refl.
  - eapply Permutation_trans; eassumption.
Qed.

Lemma null_counts_perm (df df' : DataFrame) (cols : list string) :
  row_permutation df df' ->
  bind (getitems df cols) (fun sel =>
    Returns (map (fun cs : string * Series =>
                    (fst cs, count isnull (snd cs))) sel))
  = bind (getitems df' cols) (fun sel =>
      Returns (map (fun cs : string * Series =>
                      (fst cs, count isnull (snd cs))) sel)).
Proof.
  intros H. induction cols as [|c l IH]; simpl; [reflexivity|].
  destruct (getitem_perm df df' c H) as [s s' Hs|e]; simpl; [|reflexivity].
  destruct (getitems df l) as [sel|e], (getitems df' l) as [sel'|e'];
    simpl in *; try congruence.
  injection IH as IH. now rewrite IH, (count_perm isnull s s' Hs).
Qed.

Lemma check_no_nulls_counts (df : DataFrame) (cols : list string) :
  check_no_nulls df cols
  = bind (bind (getitems df cols) (fun sel =>
            Returns (map (fun cs : string * Series =>
                            (fst cs, count isnull (snd cs))) sel)))
      (fun null_counts =>
         let failed_columns :=
           map fst (filter (fun cn : string * Z => 0 <? snd cn)
                      null_counts) in
         match failed_columns with
         | _ :: _ =>
             Returns (mkResult false (Some ERROR)
               ("Found null values in columns: " ++ join ", " failed_columns)
               [("failed_columns", Some (MJson (json_strs failed_columns)));
                ("null_counts",
                 Some (MJson (json_counts (dict_of_items null_counts))))])
         | [] =>
             Returns (mkResult true None
               ("No null values found in " ++ str_of_len cols ++ " columns")
               [("checked_columns", Some (MJson (json_strs cols)));
                ("total_rows", Some (MInt (len df)))])
         end).
Proof.
  unfold check_no_nulls. destruct (getitems df cols); reflexivity.
Qed.

Lemma unique_loop_perm (df df' : DataFrame) (cols : list string) :
  row_permutation df df' ->
  forall dc fc, unique_loop df cols dc fc = unique_loop df' cols dc fc.
Proof.
  intros H. induction cols as [|c l IH]; simpl; intros dc fc; [reflexivity|].
  destruct (getitem_perm df df' c H) as [s s' Hs|e]; simpl; [|reflexivity].
  rewrite (duplicated_perm s s' Hs). apply IH.
Qed.

(** The values [unique()] lists, on a column and on a permutation of
    it. *)
Lemma pandas_eq_equiv : Equivalence pandas_eq.
Proof.
  split.
  - intros v. apply pandas_eqb_refl.
  - intros a b H. unfold pandas_eq in *. now rewrite pandas_eqb_sym.
  - intros a b c H1 H2. unfold pandas_eq in *.
    now rewrite (pandas_eqb_cong a b c H1).
Qed.

Lemma unique_from_fresh (s : Series) (seen : list value) (u : value) :
  In u (unique_from seen s) -> existsb (pandas_eqb u) seen = false.
Proof.
  revert seen. induction s as [|v r IH]; simpl; intros seen; [contradiction|].
  destruct (existsb (pandas_eqb v) seen) eqn:E.
  - apply IH.
  - intros [<-|H]; [exact E|]. specialize (IH _ H). simpl in IH.
    now apply orb_false_iff in IH.
Qed.

Lemma unique_from_NoDupA (s : Series) (seen : list value) :
  NoDupA pandas_eq (unique_from seen s).
Proof.
  revert seen. induction s as [|v r IH]; simpl; intros seen; [constructor|].
  destruct (existsb (pandas_eqb v) seen) eqn:E; [apply IH|].
  constructor; [|apply IH]. intros H. apply InA_alt in H.
  destruct H as [y [Hvy Hy]]. apply unique_from_fresh in Hy. simpl in Hy.
  apply orb_false_iff in Hy. destruct Hy as [Hy _].
  unfold pandas_eq in Hvy. rewrite pandas_eqb_sym in Hy. congruence.
Qed.

Lemma unique_InA (s : Series) (x : value) :
  InA pandas_eq x (unique s) <-> InA pandas_eq x s.
Proof.
  rewrite !InA_alt. split; intros [y [Hxy Hy]].
  - exists y. split; [exact Hxy|]. eapply unique_from_In; exact Hy.
  - destruct (unique_from_cover s [] y Hy) as [H|[u [Hu Hyu]]];
      [discriminate|].
    exists u. split; [|exact Hu]. unfold pandas_eq in *.
    now rewrite (pandas_eqb_cong x y u Hxy).
Qed.

Lemma InA_Permutation (s s' : Series) (x : value) :
  Permutation s s' -> InA pandas_eq x s -> InA pandas_eq x s'.
Proof.
  intros H. rewrite !InA_alt. intros [y [Hxy Hy]]. exists y.
  split; [exact Hxy | exact (Permutation_in y H Hy)].
Qed.

Lemma unique_perm (s s' : Series) :
  Permutation s s' -> PermutationA pandas_eq (unique s) (unique s').
Proof.
  intros H. apply (NoDupA_equivlistA_PermutationA pandas_eq_equiv).
  - apply unique_from_NoDupA.
  - apply unique_from_NoDupA.
  - intros x. rewrite !unique_InA. split; apply InA_Permutation;
      [exact H | exact (Permutation_sym H)].
Qed.

Lemma NoDupA_filter (p : value -> bool) (l : list value) :
  NoDupA pandas_eq l -> NoDupA pandas_eq (filter p l).
Proof.
  induction 1 as [|x l Hx Hl IH]; simpl; [constructor|].
  destruct (p x); [|exact IH]. constructor; [|exact IH].
  intros H. apply Hx. apply InA_alt in H. apply InA_alt.
  destruct H as [y [Hxy Hy]]. exists y. split; [exact Hxy|].
  apply filter_In in Hy. apply Hy.
Qed.

Lemma filter_permA (p : value -> bool) (l l' : list value) :
  (forall a b, pandas_eq a b -> p a = p b) ->
  NoDupA pandas_eq l -> NoDupA pandas_eq l' ->
  PermutationA pandas_eq l l' ->
  PermutationA pandas_eq (filter p l) (filter p l').
Proof.
  intros Hp Hl Hl' H.
  apply (NoDupA_equivlistA_PermutationA pandas_eq_equiv);
    try (apply NoDupA_filter; assumption).
  assert (Hproper : Proper (pandas_eq ==> eq) p)
    by (intros a b Hab; now apply Hp).
  intros x. rewrite !(filter_InA Hproper).
  pose proof (@PermutationA_equivlistA _ pandas_eq pandas_eq_equiv l l' H x)
    as Hx.
  now rewrite Hx.
Qed.

Lemma strict_cell_eq (v b : value) :
  strict_cell v -> pandas_eqb v b = true -> b = v.
Proof.
  unfold pandas_eqb.
  destruct v; simpl; try contradiction; intros _;
    destruct b; simpl; try discriminate; try reflexivity;
    try (destruct (Z_of_SF (Prim2SF f)); simpl; discriminate).
  - intros H. apply String.eqb_eq in H. now subst.
  - intros H. apply Z.eqb_eq in H. now subst.
Qed.

Lemma PermutationA_strict (l l' : list value) :
  PermutationA pandas_eq l l' ->
  (forall v, In v l -> strict_cell v) -> Permutation l l'.
Proof.
  induction 1 as [|x y l l' Hxy _ IH|x y l|l1 l2 l3 _ IH1 _ IH2]; intros Hs.
  - constructor.
  - rewrite (strict_cell_eq x y (Hs x (or_introl eq_refl)) Hxy).
    constructor. apply IH. intros v Hv. apply Hs. now right.
  - apply perm_swap.
  - pose proof (IH1 Hs) as H12. apply (Permutation_trans H12).
    apply IH2. intros v Hv. apply Hs.
    exact (Permutation_in v (Permutation_sym H12) Hv).
Qed.

(** C9, as the code has it.  For a frame and the same frame with its rows
    permuted, [check_no_nulls] and [check_unique_values] return the same
    result (flag, severity, description, metadata).  [check_column_values]
    returns on both or raises the same exception on both, with the same
    flag, severity, column and allowed values.  The values it lists (the
    unique values on a pass, the invalid values on a failure) are cells of
    the column and are the same on both frames up to their order and up to
    the equality of [unique()], for which [1], [1.0] and [True] are one
    value; when they are text, timestamps or [None] they are the same
    values in another order.  The description of a pass is the same on
    both frames, that of a failure prints the listed values. *)
Theorem row_order_insensitivity (rt : Runtime) (df df' : DataFrame) :
  row_permutation df df' ->
  (forall cols, check_no_nulls df cols = check_no_nulls df' cols)
  /\ (forall cols, check_unique_values df cols = check_unique_values df' cols)
  /\ (forall column allowed_values,
        match check_column_values rt df column allowed_values,
              check_column_values rt df' column allowed_values with
        | Returns r, Returns r' =>
            passed r = passed r' /\ severity r = severity r'
            /\ lookup "column" (metadata r) = lookup "column" (metadata r')
            /\ lookup "allowed_values" (metadata r)
               = lookup "allowed_values" (metadata r')
            /\ exists l l',
                 PermutationA pandas_eq l l'
                 /\ ((forall v, In v l -> strict_cell v) -> Permutation l l')
                 /\ (forall v, In v l -> In v (column_of df column))
                 /\ (forall v, In v l' -> In v (column_of df' column))
                 /\ (passed r = true ->
                     lookup "unique_values" (metadata r)
                     = Some (Some (MJson (json_values l)))
                     /\ lookup "unique_values" (metadata r')
                        = Some (Some (MJson (json_values l')))
                     /\ description r = description r')
                 /\ (passed r = false ->
                     lookup "invalid_values" (metadata r)
                     = Some (Some (MJson (json_values l)))
                     /\ lookup "invalid_values" (metadata r')
                        = Some (Some (MJson (json_values l')))
                     /\ description r
                        = "Found invalid values in column " ++ column ++ ": "
                            ++ repr_values rt l
                     /\ description r'
                        = "Found invalid values in column " ++ column ++ ": "
                            ++ repr_values rt l')
        | Raises e, Raises e' => e = e'
        | _, _ => False
        end).
Proof.
  intros H. split; [|split].
  - intros cols. rewrite !check_no_nulls_counts.
    rewrite (null_counts_perm df df' cols H).
    now rewrite (row_permutation_len df df' H).
  - intros cols. unfold check_unique_values.
    rewrite (unique_loop_perm df df' cols H).
    now rewrite (row_permutation_len df df' H).
  - intros column allowed. unfold check_column_values, column_of.
    destruct (getitem_perm df df' column H) as [s s' Hs|e]; simpl;
      [|reflexivity].
    set (p := fun val => negb (py_in val allowed)).
    assert (Hp : forall a b, pandas_eq a b -> p a = p b).
    { intros a b Hab. unfold p. now rewrite (py_in_cong a b allowed Hab). }
    pose proof (unique_perm s s' Hs) as HU.
    pose proof (filter_permA p (unique s) (unique s') Hp
                  (unique_from_NoDupA s []) (unique_from_NoDupA s' []) HU)
      as HI.
    assert (Hin : forall v, In v (filter p (unique s)) -> In v s).
    { intros v Hv. apply filter_In in Hv. destruct Hv as [Hv _].
      eapply unique_from_In; exact Hv. }
    assert (Hin' : forall v, In v (filter p (unique s')) -> In v s').
    { intros v Hv. apply filter_In in Hv. destruct Hv as [Hv _].
      eapply unique_from_In; exact Hv. }
    assert (Hnil : filter p (unique s) = [] <-> filter p (unique s') = []).
    { unfold p. rewrite !invalid_values_nil. split; intros Hv v Hv';
        apply Hv.
      - apply (Permutation_in v (Permutation_sym Hs) Hv').
      - apply (Permutation_in v Hs Hv'). }
    destruct (filter p (unique s)) as [|a l] eqn:E,
             (filter p (unique s')) as [|a' l'] eqn:E'; simpl.
    + repeat split. exists (unique s), (unique s').
      split; [exact HU|]. split; [now apply PermutationA_strict|].
      split; [intros v Hv; eapply unique_from_In; exact Hv|].
      split; [intros v Hv; eapply unique_from_In; exact Hv|].
      split; [repeat split | discriminate].
    + destruct Hnil as [Hnil _]. discriminate (Hnil eq_refl).
    + destruct Hnil as [_ Hnil]. discriminate (Hnil eq_refl).
    + repeat split. exists (a :: l), (a' :: l').
      split; [exact HI|]. split; [now apply PermutationA_strict|].
      split; [exact Hin|]. split; [exact Hin'|].
      split; [discriminate | repeat split].
Qed.

Lemma row_order_witness :
  check_no_nulls frame_cd ["status"] = check_no_nulls frame_dc ["status"]
  /\ check_unique_values frame_cd ["status"]
     = check_unique_values frame_dc ["status"]
  /\ exists r r',
       check_column_values rt0 frame_cd "status" [VStr "a"] = Returns r
       /\ check_column_values rt0 frame_dc "status" [VStr "a"] = Returns r'
       /\ passed r = false /\ passed r' = false
       /\ exists l l',
            Permutation l l'
            /\ lookup "invalid_values" (metadata r)
               = Some (Some (MJson (json_values l)))
            /\ lookup "invalid_values" (metadata r')
               = Some (Some (MJson (json_values l'))).
Proof.
  assert (H : row_permutation frame_cd frame_dc).
  { split; [reflexivity | apply perm_swap]. }
  destruct (row_order_insensitivity rt0 frame_cd frame_dc H) as [H1 [H2 H3]].
  split; [apply H1|]. split; [apply H2|].
  specialize (H3 "status" [VStr "a"]).
  destruct (check_column_values rt0 frame_cd "status" [VStr "a"])
    as [r|e] eqn:Er;
    destruct (check_column_values rt0 frame_dc "status" [VStr "a"])
      as [r'|e'] eqn:Er'; try discriminate Er; try discriminate Er'.
  destruct H3 as [_ [_ [_ [_ [l [l' [_ [Hst [Hl [_ [_ Hf]]]]]]]]]]].
  assert (Hp : passed r = false) by (now inversion Er).
  assert (Hp' : passed r' = false) by (now inversion Er').
  exists r, r'. repeat split; try assumption.
  exists l, l'. destruct (Hf Hp) as [Hm [Hm' _]].
  repeat split; try assumption. apply Hst. intros v Hv.
  destruct (Hl v Hv) as [<-|[<-|[]]]; exact I.
Defined.

(** C9, as it is stated, fails for [check_column_values]: on two frames
    with the same rows in another order the invalid values come out in
    another order, so the two results differ. *)
Lemma column_values_follow_row_order :
  row_permutation frame_cd frame_dc
  /\ (exists r r',
        check_column_values rt0 frame_cd "status" [VStr "a"] = Returns r
        /\ check_column_values rt0 frame_dc "status" [VStr "a"] = Returns r'
        /\ lookup "invalid_values" (metadata r)
           = Some (Some (MJson (JList [JStr "c"; JStr "d"])))
        /\ lookup "invalid_values" (metadata r')
           = Some (Some (MJson (JList [JStr "d"; JStr "c"])))
        /\ r <> r').
Proof.
  split; [split; [reflexivity | apply perm_swap]|].
  eexists. eexists. split; [reflexivity|]. split; [reflexivity|].
  split; [reflexivity|]. split; [reflexivity|].
  intros E. apply (f_equal metadata) in E. vm_compute in E. discriminate.
Qed.

(** ** Assignment to a column *)

Lemma set_nth_cons {A : Type} (i : nat) (v a : A) (l : list A) :
  set_nth (S i) v (a :: l) = a :: set_nth i v l.
Proof. reflexivity. Qed.

Lemma nth_set_nth_same {A : Type} (i : nat) (v d : A) (l : list A) :
  (i < List.length l)%nat -> nth i (set_nth i v l) d = v.
Proof.
  revert l. induction i as [|i IH]; intros [|a l] H; simpl in H; try lia.
  - reflexivity.
  - rewrite set_nth_cons. simpl. apply IH. lia.
Qed.

Lemma nth_set_nth_other {A : Type} (i j : nat) (v d : A) (l : list A) :
  (i < List.length l)%nat -> i <> j ->
  nth j (set_nth i v l) d = nth j l d.
Proof.
  revert j l. induction i as [|i IH]; intros j [|a l] H Hij; simpl in H;
    try lia.
  - destruct j; [lia | reflexivity].
  - rewrite set_nth_cons. destruct j; [reflexivity|]. simpl.
    apply IH; lia.
Qed.

Lemma length_set_nth {A : Type} (i : nat) (v : A) (l : list A) :
  (i < List.length l)%nat -> List.length (set_nth i v l) = List.length l.
Proof.
  revert l. induction i as [|i IH]; intros [|a l] H; simpl in H; try lia.
  - reflexivity.
  - rewrite set_nth_cons. simpl. f_equal. apply IH. lia.
Qed.

Lemma index_of_nth (c : string) (l : list string) (i : nat) :
  index_of c l = Some i -> nth_error l i = Some c.
Proof.
  revert i. induction l as [|a l IH]; simpl; intros i; [discriminate|].
  destruct (String.eqb c a) eqn:E.
  - intros [= <-]. apply String.eqb_eq in E. now subst.
  - destruct (index_of c l) as [j|]; simpl; [|discriminate].
    intros [= <-]. simpl. now apply IH.
Qed.

Lemma index_of_lt (c : string) (l : list string) (i : nat) :
  index_of c l = Some i -> (i < List.length l)%nat.
Proof.
  intros H. apply index_of_nth in H. apply nth_error_Some. congruence.
Qed.

Lemma labels_set_nth (i : nat) (c dt : string) (hs : list header) :
  nth_error (map label hs) i = Some c ->
  map label (set_nth i (mkHeader c dt) hs) = map label hs.
Proof.
  revert hs. induction i as [|i IH]; intros [|h hs]; try discriminate.
  - simpl. intros [= ->]. reflexivity.
  - intros H. rewrite set_nth_cons. simpl in *. f_equal. now apply IH.
Qed.

Lemma index_of_app_new (c : string) (l : list string) :
  ~ In c l -> index_of c (l ++ [c]) = Some (List.length l).
Proof.
  induction l as [|a l IH]; simpl; intros H.
  - now rewrite String.eqb_refl.
  - destruct (String.eqb c a) eqn:E.
    + apply String.eqb_eq in E. subst. exfalso. auto.
    + rewrite IH by auto. reflexivity.
Qed.

Lemma index_of_app_old (c c' : string) (l : list string) :
  c' <> c -> index_of c' (l ++ [c]) = index_of c' l.
Proof.
  intros H. induction l as [|a l IH]; simpl.
  - apply String.eqb_neq in H. now rewrite H.
  - now rewrite IH.
Qed.

Lemma map_snd_combine {A B : Type} (l : list A) (l' : list B) :
  List.length l = List.length l' -> map snd (combine l l') = l'.
Proof.
  revert l'. induction l as [|a l IH]; intros [|b l'] H; simpl in *;
    try discriminate; [reflexivity|]. f_equal. apply IH. lia.
Qed.

Lemma map_fst_combine {A B : Type} (l : list A) (l' : list B) :
  List.length l = List.length l' -> map fst (combine l l') = l.
Proof.
  revert l'. induction l as [|a l IH]; intros [|b l'] H; simpl in *;
    try discriminate; [reflexivity|]. f_equal. apply IH. lia.
Qed.

Lemma map_combine_ext {A B C : Type} (f g : A * B -> C)
    (l : list A) (l' : list B) :
  (forall a b, In a l -> f (a, b) = g (a, b)) ->
  map f (combine l l') = map g (combine l l').
Proof.
  intros H. apply map_ext_in. intros [a b] Hab. apply H.
  eapply in_combine_l; eauto.
Qed.

Section SetItem.

Variable df : DataFrame.
Variables c dt : string.
Variable s : Series.
Hypothesis Hwf : well_formed df.
Hypothesis Hlen : List.length s = List.length (rows df).

Lemma row_width (r : list value) :
  In r (rows df) -> List.length r = List.length (map label (headers df)).
Proof.
  intros H. rewrite length_map.
  unfold well_formed in Hwf. rewrite Forall_forall in Hwf. now apply Hwf.
Qed.

Lemma setitem_len : len (setitem df c dt s) = len df.
Proof.
  unfold len, setitem. destruct (index_of c (columns df)); simpl;
    rewrite length_map, length_combine; lia.
Qed.

Lemma setitem_rows :
  List.length (rows (setitem df c dt s)) = List.length (rows df).
Proof.
  pose proof setitem_len as H. unfold len in H. lia.
Qed.

Lemma setitem_well_formed : well_formed (setitem df c dt s).
Proof.
  unfold well_formed, setitem.
  destruct (index_of c (columns df)) as [i|] eqn:E; simpl;
    apply Forall_forall; intros r Hr; apply in_map_iff in Hr;
    destruct Hr as [[r0 v] [<- Hin]]; simpl;
    apply in_combine_l in Hin; pose proof (row_width r0 Hin) as Hw.
  - pose proof (index_of_lt _ _ _ E) as Hi.
    rewrite !length_set_nth; unfold columns in *;
      rewrite ?length_map in *; lia.
  - rewrite !length_app. simpl. unfold columns in Hw.
    rewrite length_map in Hw. lia.
Qed.

Lemma setitem_same : column_of (setitem df c dt s) c = s.
Proof.
  unfold column_of, getitem, setitem, columns.
  destruct (index_of c (map label (headers df))) as [i|] eqn:E; simpl.
  - rewrite (labels_set_nth i c dt _ (index_of_nth _ _ _ E)), E.
    rewrite map_map.
    rewrite (map_combine_ext _ snd).
    + apply map_snd_combine. lia.
    + intros r v Hr. simpl. unfold cell. apply nth_set_nth_same.
      rewrite (row_width r Hr). apply (index_of_lt _ _ _ E).
  - assert (Hc : ~ In c (map label (headers df))).
    { intros H. destruct (index_of_Some _ _ H) as [i Hi]. congruence. }
    rewrite map_app. simpl. rewrite (index_of_app_new _ _ Hc).
    rewrite map_map. rewrite (map_combine_ext _ snd).
    + apply map_snd_combine. lia.
    + intros r v Hr. simpl. unfold cell.
      rewrite <- (row_width r Hr). rewrite app_nth2 by lia.
      now rewrite Nat.sub_diag.
Qed.

Lemma setitem_other (c' : string) :
  c' <> c -> column_of (setitem df c dt s) c' = column_of df c'.
Proof.
  intros Hne. unfold column_of, getitem, setitem, columns.
  destruct (index_of c (map label (headers df))) as [i|] eqn:E; simpl.
  - rewrite (labels_set_nth i c dt _ (index_of_nth _ _ _ E)).
    destruct (index_of c' (map label (headers df))) as [j|] eqn:E';
      [|reflexivity].
    rewrite map_map.
    rewrite (map_combine_ext _ (fun rv => cell j (fst rv))).
    + rewrite <- (map_map fst (cell j)). f_equal.
      apply map_fst_combine. lia.
    + intros r v Hr. simpl. unfold cell. apply nth_set_nth_other.
      * rewrite (row_width r Hr). apply (index_of_lt _ _ _ E).
      * intros ->. apply index_of_nth in E. apply index_of_nth in E'.
        congruence.
  - rewrite map_app. simpl. rewrite (index_of_app_old c c' _ Hne).
    destruct (index_of c' (map label (headers df))) as [j|] eqn:E';
      [|reflexivity].
    rewrite map_map.
    rewrite (map_combine_ext _ (fun rv => cell j (fst rv))).
    + rewrite <- (map_map fst (cell j)). f_equal.
      apply map_fst_combine. lia.
    + intros r v Hr. simpl. unfold cell. apply app_nth1.
      rewrite (row_width r Hr). apply (index_of_lt _ _ _ E').
Qed.

End SetItem.

(** ** Business hours *)

Lemma to_datetime_stamps (rt : Runtime) (s t : Series) :
  to_datetime rt s = Returns t ->
  List.length t = List.length s /\ forallb is_stamp t = true.
Proof.
  revert t. induction s as [|v r IH]; simpl; intros t.
  - intros [= <-]. now split.
  - destruct (to_datetime_cell rt v) as [x|] eqn:Ex; simpl; [|discriminate].
    destruct (to_datetime rt r) as [xs|]; simpl; [|discriminate].
    intros [= <-]. destruct (IH xs eq_refl) as [H1 H2]. simpl.
    split; [now rewrite H1|]. rewrite H2, andb_true_r.
    unfold to_datetime_cell in Ex.
    repeat match type of Ex with
    | context [match ?y with _ => _ end] => destruct y
    | context [if ?y then _ else _] => destruct y
    end; inversion Ex; reflexivity.
Qed.

Lemma map_cells_hour (t : Series) :
  forallb is_stamp t = true ->
  exists hs,
    map_cells dt_hour t = Returns hs
    /\ List.length hs = List.length t
    /\ forall bs be,
         count (fun h => cell_geb h bs && cell_ltb h be) hs = in_hours bs be t.
Proof.
  induction t as [|v r IH]; simpl; intros H.
  - exists []. repeat split.
  - apply andb_true_iff in H. destruct H as [Hv Hr].
    destruct (IH Hr) as [hs [E [Hl Hc]]]. rewrite E.
    destruct v; try discriminate; simpl.
    + eexists. split; [reflexivity|]. split; [simpl; now rewrite Hl|].
      intros bs be. specialize (Hc bs be). unfold count, in_hours in *.
      simpl. exact Hc.
    + eexists. split; [reflexivity|]. split; [simpl; now rewrite Hl|].
      intros bs be. specialize (Hc bs be). unfold count, in_hours in *.
      simpl. destruct ((bs <=? hour_of ns) && (hour_of ns <? be));
        simpl List.length; lia.
Qed.

Lemma map_cells_weekday (t : Series) :
  forallb is_stamp t = true ->
  exists ds,
    map_cells dt_weekday t = Returns ds
    /\ List.length ds = List.length t
    /\ count (fun d => cell_geb d 5) ds = on_weekend t.
Proof.
  induction t as [|v r IH]; simpl; intros H.
  - exists []. repeat split.
  - apply andb_true_iff in H. destruct H as [Hv Hr].
    destruct (IH Hr) as [ds [E [Hl Hc]]]. rewrite E.
    destruct v; try discriminate; simpl.
    + eexists. split; [reflexivity|]. split; [simpl; now rewrite Hl|].
      unfold count, on_weekend in *. simpl. exact Hc.
    + eexists. split; [reflexivity|]. split; [simpl; now rewrite Hl|].
      unfold count, on_weekend in *. simpl.
      destruct (5 <=? weekday_of ns); simpl List.length; lia.
Qed.

Lemma column_of_length (df : DataFrame) (c : string) :
  In c (columns df) ->
  List.length (column_of df c) = List.length (rows df).
Proof.
  intros H. unfold column_of, getitem.
  destruct (index_of_Some _ _ H) as [i ->]. apply length_map.
Qed.

(** C6, as the code has it.  When the timestamp column is not a column of
    the frame, [check_business_hours_data] returns a failing result with
    the severity ERROR.  When it is, every result the check returns passes
    and has no severity set; and on a frame with distinct labels whose
    timestamp column converts to timestamps and is not itself labelled
    "hour", the check returns and reports the number of rows whose hour
    lies in [business_start, business_end), the number of rows that fall on
    a Saturday or Sunday, the number of rows, and each of the two numbers
    as a percentage of the rows: the number divided by the number of rows,
    times 100, in binary64, and 0 for a frame with no rows. *)
Theorem check_business_hours_data_spec (rt : Runtime) (df : DataFrame)
    (timestamp_column : string) (business_start business_end : Z) :
  let call :=
    check_business_hours_data rt df timestamp_column
      business_start business_end in
  let total := Z.of_nat (List.length (rows df)) in
  (~ In timestamp_column (columns df) ->
     call = (Returns (column_not_found df timestamp_column), df)
     /\ passed (column_not_found df timestamp_column) = false
     /\ severity (column_not_found df timestamp_column) = Some ERROR)
  /\ (In timestamp_column (columns df) ->
      forall r, fst call = Returns r -> passed r = true /\ severity r = None)
  /\ (well_formed df -> distinct_labels df ->
      In timestamp_column (columns df) ->
      timestamp_column <> "hour" ->
      forall t, to_datetime rt (column_of df timestamp_column) = Returns t ->
      exists r,
        fst call = Returns r
        /\ lookup "business_hours_count" (metadata r)
           = Some (Some (MInt (in_hours business_start business_end t)))
        /\ lookup "business_hours_percentage" (metadata r)
           = Some (Some (MFloat
               (if 0 <? total
                then (float_of_Z (in_hours business_start business_end t)
                      / float_of_Z total * 100)%float
                else 0%float)))
        /\ lookup "weekend_count" (metadata r)
           = Some (Some (MInt (on_weekend t)))
        /\ lookup "weekend_percentage" (metadata r)
           = Some (Some (MFloat
               (if 0 <? total
                then (float_of_Z (on_weekend t) / float_of_Z total * 100)%float
                else 0%float)))
        /\ lookup "total_count" (metadata r) = Some (Some (MInt total))).
Proof.
  intros call total. unfold call, check_business_hours_data.
  split; [|split].
  - intros H. apply str_in_false in H. rewrite H. simpl. repeat split.
  - intros H r. apply str_in_In in H. rewrite H. simpl.
    destruct (convert_column rt df timestamp_column); simpl; [|discriminate].
    destruct (map_cells dt_hour _); simpl; [|discriminate].
    destruct (map_cells dt_weekday _); simpl; [|discriminate].
    intros [= <-]. now split.
  - intros Hwf _ Hin Hne t Ht.
    rewrite (proj2 (str_in_In _ _) Hin). simpl.
    unfold convert_column. rewrite (getitem_present df _ Hin). simpl.
    rewrite Ht. simpl.
    destruct (to_datetime_stamps rt _ _ Ht) as [Hlen Hst].
    rewrite (column_of_length df _ Hin) in Hlen.
    set (df1 := setitem df timestamp_column datetime_dtype t).
    assert (Hwf1 : well_formed df1)
      by (apply setitem_well_formed; assumption).
    assert (Hrows1 : List.length (rows df1) = List.length (rows df))
      by (apply setitem_rows; assumption).
    assert (Hcol1 : column_of df1 timestamp_column = t)
      by (apply setitem_same; assumption).
    rewrite Hcol1.
    destruct (map_cells_hour t Hst) as [hs [Ehs [Hlh Hch]]]. rewrite Ehs.
    assert (Hlh' : List.length hs = List.length (rows df1)) by lia.
    set (df2 := setitem df1 "hour" (field_dtype hs) hs).
    assert (Hwf2 : well_formed df2)
      by (apply setitem_well_formed; assumption).
    assert (Hrows2 : List.length (rows df2) = List.length (rows df1))
      by (apply setitem_rows; assumption).
    assert (Hcol2 : column_of df2 timestamp_column = t).
    { unfold df2. rewrite setitem_other by assumption. exact Hcol1. }
    assert (Hhour : column_of df2 "hour" = hs)
      by (apply setitem_same; assumption).
    rewrite Hcol2, Hhour.
    destruct (map_cells_weekday t Hst) as [ds [Eds [Hld Hcd]]]. rewrite Eds.
    assert (Hld' : List.length ds = List.length (rows df2)) by lia.
    rewrite (setitem_same df2 "weekday" (field_dtype ds) ds Hwf2 Hld').
    assert (Hlen2 : len df2 = total) by (unfold len, total; lia).
    eexists. split; [reflexivity|]. simpl.
    rewrite Hlen2, Hch, Hcd. unfold percentage. repeat split.
Qed.

Lemma check_business_hours_data_witness :
  exists r,
    fst (check_business_hours_data rt0 frame_ts "ts" 9 17) = Returns r
    /\ lookup "business_hours_count" (metadata r) = Some (Some (MInt 1))
    /\ lookup "business_hours_percentage" (metadata r)
       = Some (Some (MFloat 50%float))
    /\ lookup "weekend_count" (metadata r) = Some (Some (MInt 1))
    /\ lookup "weekend_percentage" (metadata r)
       = Some (Some (MFloat 50%float))
    /\ lookup "total_count" (metadata r) = Some (Some (MInt 2)).
Proof.
  destruct (check_business_hours_data_spec rt0 frame_ts "ts" 9 17)
    as [_ [_ H]].
  destruct (H ltac:(repeat constructor)
              ltac:(repeat constructor; simpl; intuition discriminate)
              ltac:(now left) ltac:(discriminate)
              [VTimestamp 36000000000000; VTimestamp 244800000000000]
              eq_refl)
    as [r [Hr [H1 [H2 [H3 [H4 H5]]]]]].
  exists r. repeat split; assumption.
Defined.

(** C6, as it is stated, fails: with no column of the given name the
    check returns a failing result; and the passing result it returns
    otherwise has no severity set, INFO or other. *)
Lemma check_business_hours_data_can_fail :
  (exists r,
     check_business_hours_data rt0 frame_ab "ts" 9 17 = (Returns r, frame_ab)
     /\ passed r = false
     /\ severity r = Some ERROR)
  /\ (exists r,
        fst (check_business_hours_data rt0 frame_ts "ts" 9 17) = Returns r
        /\ passed r = true
        /\ severity r = None
        /\ severity r <> Some INFO).
Proof.
  split; eexists; repeat split. discriminate.
Qed.

(** ** The caller's frame after a check *)

(** The ten checks that never assign to [df] hand back the frame they
    were given. *)
Lemma pure_checks_keep_frame (rt : Runtime) (c : Check) (df : DataFrame) :
  assigns c = false -> snd (run rt c df) = df.
Proof.
  destruct c; simpl; intros H; try discriminate; reflexivity.
Qed.

(** C2, at the inputs where the code leaves the claim.  After
    [check_business_hours_data] the caller's frame has two more columns,
    "hour" and "weekday"; after [check_date_range] the column of dates held
    as text holds timestamps and has another dtype. *)
Theorem checks_assign_to_input :
  snd (run rt0 (BusinessHoursData "ts" 9 17) frame_ts)
  = mkDataFrame
      [mkHeader "ts" "datetime64[ns]"; mkHeader "n" "int64";
       mkHeader "hour" "int32"; mkHeader "weekday" "int32"]
      [[VTimestamp 36000000000000; VInt 1; VInt 10; VInt 3];
       [VTimestamp 244800000000000; VInt 2; VInt 20; VInt 5]]
  /\ snd (run rt0 (BusinessHoursData "ts" 9 17) frame_ts) <> frame_ts
  /\ snd (run rt0 (DateRange "day" None None) frame_days)
     = mkDataFrame [mkHeader "day" "datetime64[ns]"]
                   [[VTimestamp 0]; [VTimestamp 172800000000000]]
  /\ snd (run rt0 (DateRange "day" None None) frame_days) <> frame_days.
Proof.
  split; [reflexivity|]. split; [|split; [reflexivity|]].
  - intros E. apply (f_equal (fun d => List.length (headers d))) in E.
    vm_compute in E. discriminate.
  - intros E. apply (f_equal rows) in E. vm_compute in E. discriminate.
Qed.

(** * Further properties of the checks *)

(** ** Shape checks *)

(** [check_required_columns] passes exactly when every required label is
    a column of the frame; a failure has the severity ERROR and lists, in
    the order asked for, the required labels that are missing. *)
Theorem check_required_columns_spec (df : DataFrame) (required : list string) :
  let r := check_required_columns df required in
  (passed r = true <-> (forall c, In c required -> In c (columns df)))
  /\ (passed r = false ->
      severity r = Some ERROR
      /\ lookup "missing_columns" (metadata r)
         = Some (Some (MJson (json_strs
             (filter (fun c => negb (str_in c (columns df))) required)))))
  /\ (forall c,
        In c (filter (fun c => negb (str_in c (columns df))) required)
        <-> In c required /\ ~ In c (columns df)).
Proof.
  intros r. unfold r, check_required_columns.
  assert (Hin : forall c,
            In c (filter (fun c => negb (str_in c (columns df))) required)
            <-> In c required /\ ~ In c (columns df)).
  { intros c. rewrite filter_In, negb_true_iff, str_in_false. tauto. }
  destruct (filter _ required) as [|m l] eqn:E; simpl.
  - split; [|split; [discriminate | exact Hin]].
    split; [|reflexivity]. intros _ c Hc.
    destruct (in_dec string_dec c (columns df)) as [H|H]; [assumption|].
    exfalso. apply (proj2 (Hin c)). now split.
  - split; [|split; [intros _; split; reflexivity | exact Hin]].
    split; [discriminate|]. intros H. exfalso.
    destruct (proj1 (Hin m) (or_introl eq_refl)) as [H1 H2]. auto.
Qed.

(** [check_no_extra_columns] passes exactly when every column of the
    frame is allowed; a failure has the severity WARN and lists the columns
    that are not allowed, in the order of the frame. *)
Theorem check_no_extra_columns_spec (df : DataFrame) (allowed : list string) :
  let r := check_no_extra_columns df allowed in
  (passed r = true <-> (forall c, In c (columns df) -> In c allowed))
  /\ (passed r = false ->
      severity r = Some WARN
      /\ lookup "extra_columns" (metadata r)
         = Some (Some (MJson (json_strs
             (filter (fun c => negb (str_in c allowed)) (columns df))))))
  /\ (forall c,
        In c (filter (fun c => negb (str_in c allowed)) (columns df))
        <-> In c (columns df) /\ ~ In c allowed).
Proof.
  intros r. unfold r, check_no_extra_columns.
  assert (Hin : forall c,
            In c (filter (fun c => negb (str_in c allowed)) (columns df))
            <-> In c (columns df) /\ ~ In c allowed).
  { intros c. rewrite filter_In, negb_true_iff, str_in_false. tauto. }
  destruct (filter _ (columns df)) as [|m l] eqn:E; simpl.
  - split; [|split; [discriminate | exact Hin]].
    split; [|reflexivity]. intros _ c Hc.
    destruct (in_dec string_dec c allowed) as [H|H]; [assumption|].
    exfalso. apply (proj2 (Hin c)). now split.
  - split; [|split; [intros _; split; reflexivity | exact Hin]].
    split; [discriminate|]. intros H. exfalso.
    destruct (proj1 (Hin m) (or_introl eq_refl)) as [H1 H2]. auto.
Qed.

Lemma check_column_order_passed (df : DataFrame) (expected : list string) :
  passed (check_column_order df expected) = true
  <-> filter (fun c => str_in c (columns df)) expected
      = filter (fun c => str_in c expected) (columns df).
Proof.
  unfold check_column_order.
  destruct (list_str_eqb _ _) eqn:E; simpl.
  - apply list_str_eqb_eq in E. split; auto.
  - split; [discriminate|]. intros H. apply list_str_eqb_eq in H. congruence.
Qed.

Lemma validate_schema_passed (df : DataFrame) (schema : Schema) :
  passed (validate_schema df schema) = true
  <-> (forall s, In s (subchecks df schema) -> passed s = true).
Proof.
  unfold validate_schema. rewrite schema_issues_failing, <- failing_nil_iff.
  destruct (failing (subchecks df schema)); simpl; split;
    intros; try reflexivity; discriminate.
Qed.

Lemma check_required_columns_passed (df : DataFrame)
    (required : list string) :
  passed (check_required_columns df required) = true
  <-> (forall c, In c required -> In c (columns df)).
Proof.
  unfold check_required_columns.
  assert (Hn : filter (fun c => negb (str_in c (columns df))) required = []
               <-> forall c, In c required -> In c (columns df)).
  { rewrite filter_nil_iff. split; intros H c Hc.
    - apply str_in_In. specialize (H c Hc). now apply negb_false_iff in H.
    - apply negb_false_iff. apply str_in_In. now apply H. }
  destruct (filter _ required) eqn:E; simpl.
  - split; [intros _; now apply Hn | reflexivity].
  - split; [discriminate|]. intros H. apply Hn in H. discriminate.
Qed.

Lemma check_no_extra_columns_passed (df : DataFrame)
    (allowed : list string) :
  passed (check_no_extra_columns df allowed) = true
  <-> (forall c, In c (columns df) -> In c allowed).
Proof.
  unfold check_no_extra_columns.
  assert (Hn : filter (fun c => negb (str_in c allowed)) (columns df) = []
               <-> forall c, In c (columns df) -> In c allowed).
  { rewrite filter_nil_iff. split; intros H c Hc.
    - apply str_in_In. specialize (H c Hc). now apply negb_false_iff in H.
    - apply negb_false_iff. apply str_in_In. now apply H. }
  destruct (filter _ (columns df)) eqn:E; simpl.
  - split; [intros _; now apply Hn | reflexivity].
  - split; [discriminate|]. intros H. apply Hn in H. discriminate.
Qed.

(** ** Column kinds *)

Lemma type_mismatch_None (df : DataFrame) (c t : string) :
  type_mismatch df c t = None
  <-> (In c (columns df) -> kind_ok t (dtype_of df c) = true).
Proof.
  unfold type_mismatch, kind_ok, kind_prefix.
  destruct (str_in c (columns df)) eqn:Ec; simpl.
  - apply str_in_In in Ec.
    destruct (String.eqb t "string") eqn:E1;
      [apply String.eqb_eq in E1; subst t; simpl;
       destruct (prefix "object" (dtype_of df c)); simpl; split;
       intros H; try reflexivity; try discriminate;
       discriminate (H Ec)|].
    destruct (String.eqb t "integer") eqn:E2;
      [apply String.eqb_eq in E2; subst t; simpl;
       destruct (prefix "int" (dtype_of df c)); simpl; split;
       intros H; try reflexivity; try discriminate;
       discriminate (H Ec)|].
    destruct (String.eqb t "float") eqn:E3;
      [apply String.eqb_eq in E3; subst t; simpl;
       destruct (prefix "float" (dtype_of df c)); simpl; split;
       intros H; try reflexivity; try discriminate;
       discriminate (H Ec)|].
    destruct (String.eqb t "datetime") eqn:E4;
      [apply String.eqb_eq in E4; subst t; simpl;
       destruct (prefix "datetime" (dtype_of df c)); simpl; split;
       intros H; try reflexivity; try discriminate;
       discriminate (H Ec)|].
    destruct (String.eqb t "boolean") eqn:E5;
      [apply String.eqb_eq in E5; subst t; simpl;
       destruct (prefix "bool" (dtype_of df c)); simpl; split;
       intros H; try reflexivity; try discriminate;
       discriminate (H Ec)|].
    simpl. split; reflexivity.
  - apply str_in_false in Ec. split; [intros _ H; contradiction | reflexivity].
Qed.

Lemma type_mismatches_nil (df : DataFrame) (expected : list (string * string)) :
  type_mismatches df expected = []
  <-> (forall c t, In (c, t) expected -> type_mismatch df c t = None).
Proof.
  induction expected as [|[c t] l IH]; simpl.
  - split; [intros _ c t [] | reflexivity].
  - destruct (type_mismatch df c t) eqn:E.
    + split; [discriminate|]. intros H.
      rewrite (H c t (or_introl eq_refl)) in E. discriminate.
    + rewrite IH. split.
      * intros H c' t' [[= <- <-]|H']; auto.
      * intros H c' t' H'. apply H. now right.
Qed.

Lemma check_column_types_passed (df : DataFrame)
    (expected : list (string * string)) :
  passed (check_column_types df expected) = true
  <-> (forall c t, In (c, t) expected -> In c (columns df) ->
         kind_ok t (dtype_of df c) = true).
Proof.
  unfold check_column_types.
  pose proof (type_mismatches_nil df expected) as Hn.
  destruct (type_mismatches df expected) eqn:E; simpl.
  - split; [|reflexivity]. intros _ c t Hct.
    apply type_mismatch_None. now apply (proj1 Hn eq_refl).
  - split; [discriminate|]. intros H. exfalso.
    assert (E' : s :: l = []); [|discriminate].
    apply Hn. intros c t Hct. apply type_mismatch_None. now apply H.
Qed.

(** ** Row count, once more *)

Lemma check_row_count_failure_witness :
  severity (check_row_count frame_ab 10 None) = Some ERROR
  /\ lookup "row_count" (metadata (check_row_count frame_ab 10 None))
     = Some (Some (MInt 2)).
Proof.
  destruct (check_row_count_failure frame_ab 10 None eq_refl) as [H1 [H2 _]].
  split; [exact H1 | exact H2].
Defined.

(** ** Unique values *)

Lemma sum_mask_nonneg (m : list bool) : 0 <= sum_mask m.
Proof. unfold sum_mask. lia. Qed.

Lemma duplicated_from_zero (s : Series) (seen : list value) :
  sum_mask (duplicated_from seen s) = 0
  <-> Forall (fun v => existsb (pandas_eqb v) seen = false) s
      /\ distinct_cells s.
Proof.
  unfold distinct_cells. revert seen.
  induction s as [|v r IH]; intros seen; simpl.
  - split; [intros _; split; constructor | reflexivity].
  - rewrite sum_mask_cons.
    pose proof (sum_mask_nonneg (duplicated_from (v :: seen) r)) as Hn.
    split.
    + intros H. destruct (existsb (pandas_eqb v) seen) eqn:E; [lia|].
      assert (H0 : sum_mask (duplicated_from (v :: seen) r) = 0) by lia.
      apply IH in H0. destruct H0 as [Hf Hd]. split.
      * constructor; [assumption|]. rewrite Forall_forall in *.
        intros w Hw. specialize (Hf w Hw). simpl in Hf.
        now apply orb_false_iff in Hf.
      * constructor; [|assumption]. rewrite Forall_forall in *.
        intros w Hw. specialize (Hf w Hw). simpl in Hf.
        apply orb_false_iff in Hf. now rewrite pandas_eqb_sym.
    + intros [Hf Hd]. inversion Hf as [|? ? Hv Hr]; subst.
      inversion Hd as [|? ? Hvr Hdr]; subst. rewrite Hv.
      assert (H0 : sum_mask (duplicated_from (v :: seen) r) = 0); [|lia].
      apply IH. split; [|assumption]. rewrite Forall_forall in *.
      intros w Hw. simpl. rewrite (Hr w Hw), orb_false_r.
      rewrite pandas_eqb_sym. now apply Hvr.
Qed.

Lemma duplicate_count_zero (df : DataFrame) (c : string) :
  (0 <? duplicate_count df c) = false <-> distinct_cells (column_of df c).
Proof.
  unfold duplicate_count, duplicated.
  pose proof (sum_mask_nonneg (duplicated_from [] (column_of df c))) as Hn.
  rewrite Z.ltb_ge. split.
  - intros H. apply (duplicated_from_zero (column_of df c) []). lia.
  - intros H.
    assert (H0 : sum_mask (duplicated_from [] (column_of df c)) = 0); [|lia].
    apply duplicated_from_zero. split; [|assumption].
    apply Forall_forall. reflexivity.
Qed.

Lemma unique_loop_present (df : DataFrame) (cols : list string) :
  (forall c, In c cols -> In c (columns df)) ->
  forall dc fc,
    unique_loop df cols dc fc
    = Returns (fold_left (fun d c => dict_set c (duplicate_count df c) d)
                 cols dc,
               (fc ++ filter (fun c => 0 <? duplicate_count df c) cols)%list).
Proof.
  induction cols as [|c l IH]; simpl; intros H dc fc.
  - now rewrite app_nil_r.
  - rewrite getitem_present by auto. simpl.
    rewrite IH by auto. fold (duplicate_count df c).
    destruct (0 <? duplicate_count df c); simpl;
      [now rewrite <- app_assoc | reflexivity].
Qed.

Lemma fold_dict_set_map {A : Type} (f : string -> A) (l : list string) :
  fold_left (fun d c => dict_set c (f c) d) l []
  = map (fun c => (c, f c)) (distinct l).
Proof.
  unfold distinct.
  change (@nil (string * A)) with (map (fun k => (k, f k)) []).
  generalize (@nil string) as acc.
  induction l as [|c l IH]; simpl; intros acc; [reflexivity|].
  rewrite dict_set_map. apply IH.
Qed.

Lemma NoDupA_distinct_cells (l : list value) :
  NoDupA pandas_eq l -> distinct_cells l.
Proof.
  unfold distinct_cells. induction 1 as [|x l Hx _ IH]; constructor;
    [|exact IH].
  apply Forall_forall. intros b Hb.
  destruct (pandas_eqb x b) eqn:E; [|reflexivity].
  exfalso. apply Hx. apply InA_alt. now exists b.
Qed.

(** On a frame with distinct labels, when every named column is in the
    frame, [check_unique_values] returns, and it passes exactly when no
    named column holds two equal cells.  A failure has the severity ERROR;
    ["failed_columns"] holds the named columns with a repeated cell, and
    ["duplicate_counts"] holds, for each named column once, the number of
    its cells less the number of distinct ones: the number of cells left
    when a set of pairwise different cells of the column, one for each
    value, is taken away. *)
Theorem check_unique_values_spec (df : DataFrame) (cols : list string) :
  distinct_labels df ->
  (forall c, In c cols -> In c (columns df)) ->
  exists r,
    check_unique_values df cols = Returns r
    /\ (passed r = true <->
        (forall c, In c cols -> distinct_cells (column_of df c)))
    /\ (passed r = false ->
        severity r = Some ERROR
        /\ (exists failed,
              lookup "failed_columns" (metadata r)
              = Some (Some (MJson (JList (map JStr failed))))
              /\ (forall c, In c failed <->
                    In c cols /\ ~ distinct_cells (column_of df c)))
        /\ (exists counts,
              lookup "duplicate_counts" (metadata r)
              = Some (Some (MJson
                  (JDict (map (fun kv => (fst kv, JInt (snd kv))) counts))))
              /\ map fst counts = distinct cols
              /\ (forall c n, In (c, n) counts ->
                    exists reps,
                      distinct_cells reps
                      /\ (forall u, In u reps -> In u (column_of df c))
                      /\ (forall v, In v (column_of df c) ->
                            exists u, In u reps /\ pandas_eqb v u = true)
                      /\ n = Z.of_nat (List.length (column_of df c))
                             - Z.of_nat (List.length reps)))).
Proof.
  intros _ Hall. unfold check_unique_values.
  rewrite (unique_loop_present df cols Hall). simpl.
  rewrite fold_dict_set_map.
  assert (Hnil : filter (fun c => 0 <? duplicate_count df c) cols = []
                 <-> forall c, In c cols -> distinct_cells (column_of df c)).
  { rewrite filter_nil_iff. split; intros H c Hc.
    - apply duplicate_count_zero. now apply H.
    - apply duplicate_count_zero. now apply H. }
  assert (Hin : forall c,
            In c (filter (fun c => 0 <? duplicate_count df c) cols)
            <-> In c cols /\ ~ distinct_cells (column_of df c)).
  { intros c. rewrite filter_In, <- duplicate_count_zero.
    destruct (0 <? duplicate_count df c); intuition congruence. }
  destruct (filter (fun c => 0 <? duplicate_count df c) cols) as [|f l] eqn:E.
  - eexists. split; [reflexivity|]. simpl. split; [|discriminate].
    split; [intros _; now apply Hnil | reflexivity].
  - eexists. split; [reflexivity|]. simpl. split.
    + split; [discriminate|]. intros H. apply Hnil in H. discriminate.
    + intros _. split; [reflexivity|]. split.
      * exists (f :: l). split; [reflexivity | exact Hin].
      * exists (map (fun c => (c, duplicate_count df c)) (distinct cols)).
        split; [reflexivity|]. rewrite map_map. simpl.
        split; [apply map_id|]. intros c n Hn. apply in_map_iff in Hn.
        destruct Hn as [k [[= <- <-] _]].
        exists (unique (column_of df k)).
        split; [apply NoDupA_distinct_cells, unique_from_NoDupA|].
        split; [intros u Hu; eapply unique_from_In; exact Hu|].
        split; [|apply duplicated_unique].
        intros v Hv.
        destruct (unique_from_cover (column_of df k) [] v Hv) as [H|H];
          [discriminate | exact H].
Qed.

Lemma check_unique_values_witness :
  (exists r,
     check_unique_values frame_ab ["a"; "b"] = Returns r /\ passed r = true)
  /\ (exists r,
        check_unique_values frame_xxy ["k"] = Returns r
        /\ passed r = false
        /\ lookup "failed_columns" (metadata r)
           = Some (Some (MJson (JList [JStr "k"])))
        /\ lookup "duplicate_counts" (metadata r)
           = Some (Some (MJson (JDict [("k", JInt 1)])))).
Proof.
  split.
  - destruct (check_unique_values_spec frame_ab ["a"; "b"])
      as [r [Hr [Hp _]]].
    + repeat constructor; simpl; intuition discriminate.
    + intros c [<-|[<-|[]]]; vm_compute; auto.
    + exists r. split; [exact Hr|]. vm_compute in Hr. now inversion Hr.
  - destruct (check_unique_values_spec frame_xxy ["k"]) as [r [Hr _]].
    + repeat constructor; simpl; intuition discriminate.
    + intros c [<-|[]]; vm_compute; auto.
    + exists r. split; [exact Hr|]. vm_compute in Hr.
      inversion Hr; subst. repeat split.
Defined.

(** ** Allowed values *)



(** ** A column that is not in the frame *)

Lemma getitems_absent (df : DataFrame) (cols : list string) (c : string) :
  In c cols -> ~ In c (columns df) ->
  exists k,
    getitems df cols = Raises (KeyError k)
    /\ In k cols /\ ~ In k (columns df).
Proof.
  induction cols as [|a l IH]; simpl; [contradiction|]. intros Hc Habs.
  destruct (in_dec string_dec a (columns df)) as [Ha|Ha].
  - rewrite (getitem_present df a Ha). simpl.
    destruct Hc as [->|Hc]; [contradiction|].
    destruct (IH Hc Habs) as [k [Hk [Hin Hnot]]]. rewrite Hk. simpl.
    exists k. auto.
  - rewrite (getitem_absent df a Ha). simpl. exists a. auto.
Qed.

Lemma unique_loop_absent (df : DataFrame) (cols : list string) (c : string) :
  In c cols -> ~ In c (columns df) ->
  forall dc fc,
  exists k,
    unique_loop df cols dc fc = Raises (KeyError k)
    /\ In k cols /\ ~ In k (columns df).
Proof.
  induction cols as [|a l IH]; simpl; [contradiction|]. intros Hc Habs dc fc.
  destruct (in_dec string_dec a (columns df)) as [Ha|Ha].
  - rewrite (getitem_present df a Ha). simpl.
    destruct Hc as [->|Hc]; [contradiction|].
    destruct (IH Hc Habs
                (dict_set a (sum_mask (duplicated (column_of df a))) dc)
                (if 0 <? sum_mask (duplicated (column_of df a))
                 then (fc ++ [a])%list else fc))
      as [k [Hk [Hin Hnot]]].
    exists k. auto.
  - rewrite (getitem_absent df a Ha). simpl. exists a. auto.
Qed.

(** The column checks of [data_quality_checks.py] do not look whether the
    column they are given exists: on a label that is not a column of the
    frame each of them raises [KeyError], and [check_date_range] raises it
    before it has assigned anything. *)
Theorem missing_column_raises (rt : Runtime) (df : DataFrame) (c : string) :
  ~ In c (columns df) ->
  (forall cols, In c cols ->
     exists k, check_no_nulls df cols = Raises (KeyError k)
               /\ In k cols /\ ~ In k (columns df))
  /\ (forall cols, In c cols ->
        exists k, check_unique_values df cols = Raises (KeyError k)
                  /\ In k cols /\ ~ In k (columns df))
  /\ (forall allowed,
        check_column_values rt df c allowed = Raises (KeyError c))
  /\ (forall mn mx, check_numeric_range rt df c mn mx = Raises (KeyError c))
  /\ (forall mn mx,
        check_date_range rt df c mn mx = (Raises (KeyError c), df)).
Proof.
  intros Habs. repeat split.
  - intros cols Hc. unfold check_no_nulls.
    destruct (getitems_absent df cols c Hc Habs) as [k [Hk H]].
    rewrite Hk. simpl. exists k. auto.
  - intros cols Hc. unfold check_unique_values.
    destruct (unique_loop_absent df cols c Hc Habs [] []) as [k [Hk H]].
    rewrite Hk. simpl. exists k. auto.
  - intros allowed. unfold check_column_values.
    now rewrite (getitem_absent df c Habs).
  - intros mn mx. unfold check_numeric_range.
    now rewrite (getitem_absent df c Habs).
  - intros mn mx. unfold check_date_range, convert_column.
    now rewrite (getitem_absent df c Habs).
Qed.

Lemma missing_column_witness :
  check_column_values rt0 frame_ab "price" [] = Raises (KeyError "price")
  /\ check_date_range rt0 frame_ab "price" None None
     = (Raises (KeyError "price"), frame_ab).
Proof.
  assert (H : ~ In "price" (columns frame_ab)).
  { intros [H|[H|[]]]; discriminate. }
  destruct (missing_column_raises rt0 frame_ab "price" H)
    as [_ [_ [H1 [_ H2]]]].
  split; [apply H1 | apply H2].
Defined.

(** The checks of [freshness_checks.py] look first: on a label that is not
    a column of the frame each of them returns a failing result with the
    severity ERROR that lists the columns there are, and leaves the frame
    as it was. *)
Theorem missing_timestamp_column (rt : Runtime) (df : DataFrame)
    (ts : string) :
  ~ In ts (columns df) ->
  let r := column_not_found df ts in
  (forall h, check_data_freshness rt df ts h = (Returns r, df))
  /\ (forall h, check_update_frequency rt df ts h = (Returns r, df))
  /\ (forall m, check_data_continuity rt df ts m = (Returns r, df))
  /\ passed r = false
  /\ severity r = Some ERROR
  /\ lookup "available_columns" (metadata r)
     = Some (Some (MJson (json_strs (columns df)))).
Proof.
  intros H r. apply str_in_false in H.
  unfold check_data_freshness, check_update_frequency,
    check_data_continuity. rewrite H. simpl. repeat split.
Qed.

Lemma missing_timestamp_column_witness :
  exists r,
    check_data_freshness rt0 frame_ab "ts" 24 = (Returns r, frame_ab)
    /\ passed r = false.
Proof.
  assert (H : ~ In "ts" (columns frame_ab)).
  { intros [H|[H|[]]]; discriminate. }
  destruct (missing_timestamp_column rt0 frame_ab "ts" H) as [H1 _].
  eexists. split; [apply H1 | reflexivity].
Defined.

(** ** Freshness *)

Lemma fold_max_spec (r : list Z) (x : Z) :
  let m := fold_left Z.max r x in
  (m = x \/ In m r) /\ x <= m /\ (forall y, In y r -> y <= m).
Proof.
  revert x. induction r as [|a r IH]; intros x; cbv zeta; simpl.
  - split; [now left|]. split; [lia | intros y []].
  - destruct (IH (Z.max x a)) as [H1 [H2 H3]]. cbv zeta in *.
    split; [|split].
    + destruct H1 as [H1|H1]; [|now right; right].
      destruct (Z.max_spec x a) as [[_ E]|[_ E]]; rewrite E in *.
      * right. left. congruence.
      * now left.
    + lia.
    + intros y [<-|Hy]; [lia | now apply H3].
Qed.

Lemma ts_max_spec (s : Series) :
  (stamps s = [] /\ ts_max s = VNaT)
  \/ (exists m, ts_max s = VTimestamp m /\ In m (stamps s)
                /\ forall y, In y (stamps s) -> y <= m).
Proof.
  unfold ts_max. destruct (stamps s) as [|x r]; [now left|]. right.
  destruct (fold_max_spec r x) as [H1 [H2 H3]].
  exists (fold_left Z.max r x). split; [reflexivity|]. split.
  - destruct H1 as [->|H1]; [now left | now right].
  - intros y [<-|Hy]; [assumption | now apply H3].
Qed.

Lemma float_ltb_nan (x : float) : (x <? nan)%float = false.
Proof.
  rewrite ltb_spec. unfold SFltb.
  replace (Prim2SF nan) with S754_nan by reflexivity.
  destruct (Prim2SF x); reflexivity.
Qed.

Lemma convert_column_present (rt : Runtime) (df : DataFrame) (ts : string)
    (t : Series) :
  In ts (columns df) ->
  to_datetime rt (column_of df ts) = Returns t ->
  convert_column rt df ts = Returns (setitem df ts datetime_dtype t).
Proof.
  intros Hin Ht. unfold convert_column.
  rewrite (getitem_present df ts Hin). simpl. now rewrite Ht.
Qed.

Lemma converted_column (rt : Runtime) (df : DataFrame) (ts : string)
    (t : Series) :
  well_formed df -> In ts (columns df) ->
  to_datetime rt (column_of df ts) = Returns t ->
  column_of (setitem df ts datetime_dtype t) ts = t.
Proof.
  intros Hwf Hin Ht. apply setitem_same; [assumption|].
  destruct (to_datetime_stamps rt _ _ Ht) as [Hlen _].
  now rewrite Hlen, column_of_length.
Qed.

(** On a frame whose timestamp column converts, [check_data_freshness]
    returns.  The age it reports is measured from the latest timestamp of
    the column, wherever that row stands, and the check passes exactly
    when that age does not exceed [max_age_hours]; a failure has the
    severity ERROR.  With no timestamp at all in the column (no rows, or
    only missing values) the age is not a number and the check passes. *)
Theorem check_data_freshness_spec (rt : Runtime) (df : DataFrame)
    (ts : string) (max_age_hours : Z) (t : Series) :
  well_formed df -> In ts (columns df) ->
  to_datetime rt (column_of df ts) = Returns t ->
  exists r,
    fst (check_data_freshness rt df ts max_age_hours) = Returns r
    /\ (stamps t = [] -> passed r = true)
    /\ (forall m, In m (stamps t) -> (forall y, In y (stamps t) -> y <= m) ->
        let age := (total_seconds (now rt - m) / 3600)%float in
        lookup "age_hours" (metadata r) = Some (Some (MFloat age))
        /\ (passed r = true <->
            (float_of_Z max_age_hours <? age)%float = false)
        /\ (passed r = false -> severity r = Some ERROR)).
Proof.
  intros Hwf Hin Ht. unfold check_data_freshness.
  rewrite (proj2 (str_in_In _ _) Hin). simpl.
  rewrite (convert_column_present rt df ts t Hin Ht).
  rewrite (converted_column rt df ts t Hwf Hin Ht).
  destruct (ts_max_spec t) as [[Hnil Hmax]|[m [Hmax [Hm Hle]]]];
    rewrite Hmax.
  - rewrite float_ltb_nan. eexists. split; [reflexivity|]. simpl.
    split; [reflexivity|]. intros m Hm. rewrite Hnil in Hm. contradiction.
  - destruct (float_of_Z max_age_hours
                <? total_seconds (now rt - m) / 3600)%float eqn:E;
      (eexists; split; [reflexivity|]; simpl;
       split; [intros Hnil; rewrite Hnil in Hm; contradiction|];
       intros m' Hm' Hle';
       assert (Em : m' = m) by (specialize (Hle m' Hm');
                                specialize (Hle' m Hm); lia);
       subst m'; rewrite E; repeat split; congruence).
Qed.

Lemma check_data_freshness_witness :
  exists r,
    fst (check_data_freshness rt0 frame_ts "ts" 24) = Returns r
    /\ lookup "most_recent_timestamp" (metadata r)
       = Some (Some (MText "ts")).
Proof.
  destruct (check_data_freshness_spec rt0 frame_ts "ts" 24
              [VTimestamp 36000000000000; VTimestamp 244800000000000])
    as [r [Hr _]].
  - repeat constructor.
  - now left.
  - reflexivity.
  - exists r. split; [exact Hr|]. vm_compute in Hr. now inversion Hr.
Defined.

(** ** Gaps between timestamps *)

Lemma insert_sorted_length (x : Z) (l : list Z) :
  List.length (insert_sorted x l) = S (List.length l).
Proof.
  induction l as [|y r IH]; simpl; [reflexivity|].
  destruct (x <=? y); simpl; [reflexivity | now rewrite IH].
Qed.

Lemma sort_stamps_length (l : list Z) :
  List.length (sort_stamps l) = List.length l.
Proof.
  unfold sort_stamps. induction l as [|x r IH]; simpl; [reflexivity|].
  now rewrite insert_sorted_length, IH.
Qed.

Lemma diffs_length (l : list Z) :
  List.length (diffs l) = Nat.pred (List.length l).
Proof.
  induction l as [|a [|b r] IH]; simpl in *; try reflexivity.
  now rewrite IH.
Qed.

Lemma time_diffs_length (s : Series) (unit : float) :
  List.length (time_diffs s unit) = Nat.pred (List.length (stamps s)).
Proof.
  unfold time_diffs. now rewrite length_map, diffs_length, sort_stamps_length.
Qed.

(** ** The frame after a conversion *)

Lemma set_nth_noop {A : Type} (i : nat) (v : A) (l : list A) :
  nth_error l i = Some v -> set_nth i v l = l.
Proof.
  revert l. induction i as [|i IH]; intros [|a l]; simpl; try discriminate.
  - intros [= ->]. reflexivity.
  - intros H. rewrite set_nth_cons. f_equal. now apply IH.
Qed.

Lemma nth_error_set_nth {A : Type} (i : nat) (v : A) (l : list A) :
  (i < List.length l)%nat -> nth_error (set_nth i v l) i = Some v.
Proof.
  revert l. induction i as [|i IH]; intros [|a l] H; simpl in H; try lia.
  - reflexivity.
  - rewrite set_nth_cons. simpl. apply IH. lia.
Qed.

Lemma nth_error_cell (i : nat) (r : list value) :
  (i < List.length r)%nat -> nth_error r i = Some (cell i r).
Proof.
  revert r. induction i as [|i IH]; intros [|a r] H; simpl in H; try lia.
  - reflexivity.
  - simpl. apply IH. lia.
Qed.

Lemma to_datetime_fixed (rt : Runtime) (t : Series) :
  forallb is_stamp t = true -> to_datetime rt t = Returns t.
Proof.
  induction t as [|v r IH]; simpl; [reflexivity|]. intros H.
  apply andb_true_iff in H. destruct H as [Hv Hr]. rewrite (IH Hr).
  destruct v; try discriminate; reflexivity.
Qed.

Lemma rows_rewritten (i : nat) (l : list (list value)) :
  (forall r, In r l -> (i < List.length r)%nat) ->
  map (fun rv : list value * value => set_nth i (snd rv) (fst rv))
      (combine l (map (cell i) l)) = l.
Proof.
  induction l as [|r l IH]; simpl; intros H; [reflexivity|].
  rewrite IH by auto. f_equal. apply set_nth_noop. apply nth_error_cell.
  apply H. now left.
Qed.

Lemma setitem_columns (df : DataFrame) (c dt : string) (s : Series) :
  In c (columns df) -> columns (setitem df c dt s) = columns df.
Proof.
  intros H. unfold setitem. destruct (index_of_Some _ _ H) as [i E].
  rewrite E. unfold columns in *. simpl.
  apply labels_set_nth. now apply index_of_nth.
Qed.

Lemma setitem_noop (df : DataFrame) (c dt : string) (i : nat) :
  well_formed df ->
  index_of c (columns df) = Some i ->
  nth_error (headers df) i = Some (mkHeader c dt) ->
  setitem df c dt (column_of df c) = df.
Proof.
  intros Hwf Hi Hh. unfold setitem, column_of, getitem. rewrite Hi.
  destruct df as [hs rs]. simpl in *. f_equal.
  - now apply set_nth_noop.
  - apply rows_rewritten. intros r Hr.
    unfold well_formed in Hwf. rewrite Forall_forall in Hwf.
    rewrite (Hwf r Hr). simpl.
    pose proof (index_of_lt _ _ _ Hi) as Hlt. unfold columns in Hlt.
    simpl in Hlt. now rewrite length_map in Hlt.
Qed.

Lemma run_converts (rt : Runtime) (c : Check) (df d : DataFrame)
    (ts : string) :
  converts_only c = Some ts -> In ts (columns df) ->
  convert_column rt df ts = Returns d ->
  snd (run rt c df) = d.
Proof.
  intros Hc Hin Hd. apply str_in_In in Hin.
  destruct c; simpl in Hc; try discriminate; injection Hc as ->; simpl.
  - unfold check_date_range. now rewrite Hd.
  - unfold check_data_freshness. rewrite Hin, Hd. simpl.
    destruct (_ <? _)%float; reflexivity.
  - unfold check_update_frequency. rewrite Hin, Hd. simpl.
    destruct (time_diffs _ _); [reflexivity|].
    destruct (_ <? _)%float; reflexivity.
  - unfold check_data_continuity. rewrite Hin, Hd. simpl.
    destruct (time_diffs _ _); [reflexivity|].
    destruct (filter _ _); reflexivity.
Qed.

(** What [check_date_range], [check_data_freshness],
    [check_update_frequency] and [check_data_continuity] leave with the
    caller, on a frame whose timestamp column converts: the same frame
    with that column replaced by its timestamps.  The labels, the number
    of rows and every other column are as before; and a second call finds
    nothing left to change, it hands back the frame the first call left. *)
Theorem conversion_settles (rt : Runtime) (c : Check) (df : DataFrame)
    (ts : string) (t : Series) :
  converts_only c = Some ts ->
  well_formed df -> In ts (columns df) ->
  to_datetime rt (column_of df ts) = Returns t ->
  let df1 := snd (run rt c df) in
  df1 = setitem df ts datetime_dtype t
  /\ columns df1 = columns df
  /\ len df1 = len df
  /\ column_of df1 ts = t
  /\ (forall c', c' <> ts -> column_of df1 c' = column_of df c')
  /\ snd (run rt c df1) = df1.
Proof.
  intros Hc Hwf Hin Ht df1.
  destruct (to_datetime_stamps rt _ _ Ht) as [Hlen Hst].
  rewrite (column_of_length df ts Hin) in Hlen.
  assert (E : df1 = setitem df ts datetime_dtype t).
  { unfold df1. apply (run_converts rt c df _ ts Hc Hin).
    now apply convert_column_present. }
  assert (Hcols : columns df1 = columns df)
    by (rewrite E; now apply setitem_columns).
  assert (Hcol : column_of df1 ts = t)
    by (rewrite E; now apply setitem_same).
  assert (Hwf1 : well_formed df1)
    by (rewrite E; now apply setitem_well_formed).
  split; [exact E|]. split; [exact Hcols|].
  split; [rewrite E; now apply setitem_len|].
  split; [exact Hcol|].
  split; [intros c' Hne; rewrite E; now apply setitem_other|].
  apply (run_converts rt c df1 df1 ts Hc); [now rewrite Hcols|].
  rewrite (convert_column_present rt df1 ts t);
    [|now rewrite Hcols | rewrite Hcol; now apply to_datetime_fixed].
  f_equal. rewrite <- Hcol at 1.
  destruct (index_of_Some _ _ Hin) as [i Hi].
  apply (setitem_noop df1 ts datetime_dtype i Hwf1).
  - now rewrite Hcols.
  - rewrite E. unfold setitem. rewrite Hi. simpl.
    apply nth_error_set_nth.
    pose proof (index_of_lt _ _ _ Hi) as Hlt. unfold columns in Hlt.
    now rewrite length_map in Hlt.
Qed.

Lemma conversion_settles_witness :
  snd (run rt0 (DateRange "day" None None)
         (snd (run rt0 (DateRange "day" None None) frame_days)))
  = snd (run rt0 (DateRange "day" None None) frame_days).
Proof.
  apply (conversion_settles rt0 (DateRange "day" None None) frame_days "day"
           [VTimestamp 0; VTimestamp 172800000000000]).
  - reflexivity.
  - repeat constructor.
  - now left.
  - reflexivity.
Defined.

(** ** Date range *)

Lemma count_before_zero (a : Z) (s : Series) :
  count_before a s = 0 <-> (forall x, In x (stamps s) -> a <= x).
Proof.
  unfold count_before. split.
  - intros H x Hx. destruct (x <? a) eqn:E; [|now apply Z.ltb_ge].
    assert (Hin : In x (filter (fun ns => ns <? a) (stamps s)))
      by (apply filter_In; auto).
    destruct (filter (fun ns => ns <? a) (stamps s));
      [contradiction | simpl in H; lia].
  - intros H. rewrite (filter_none (fun ns => ns <? a) (stamps s));
      [reflexivity|]. intros x Hx. apply Z.ltb_ge. now apply H.
Qed.

Lemma count_after_zero (b : Z) (s : Series) :
  count_after b s = 0 <-> (forall x, In x (stamps s) -> x <= b).
Proof.
  unfold count_after. split.
  - intros H x Hx. destruct (b <? x) eqn:E; [|now apply Z.ltb_ge].
    assert (Hin : In x (filter (fun ns => b <? ns) (stamps s)))
      by (apply filter_In; auto).
    destruct (filter (fun ns => b <? ns) (stamps s));
      [contradiction | simpl in H; lia].
  - intros H. rewrite (filter_none (fun ns => b <? ns) (stamps s));
      [reflexivity|]. intros x Hx. apply Z.ltb_ge. now apply H.
Qed.

Lemma count_before_nonneg (a : Z) (s : Series) : 0 <= count_before a s.
Proof. unfold count_before. lia. Qed.

Lemma count_after_nonneg (a : Z) (s : Series) : 0 <= count_after a s.
Proof. unfold count_after. lia. Qed.

(** On a frame whose date column converts, and with bounds the parser
    reads, [check_date_range] returns; it looks at the lower bound first.
    If some date is strictly before [min_date] it fails with ERROR and
    reports how many are, and nothing about the upper bound; otherwise, if
    some date is strictly after [max_date], it fails with ERROR and reports
    how many are.  It passes exactly when every date that is present lies
    in the closed interval; a missing date is never counted. *)
Theorem check_date_range_spec (rt : Runtime) (df : DataFrame)
    (column : string) (min_date max_date : option string)
    (lo hi : option Z) (t : Series) :
  well_formed df -> In column (columns df) ->
  to_datetime rt (column_of df column) = Returns t ->
  bound_is rt min_date lo -> bound_is rt max_date hi ->
  exists r,
    fst (check_date_range rt df column min_date max_date) = Returns r
    /\ (0 < before_min lo t ->
        passed r = false /\ severity r = Some ERROR
        /\ lookup "before_min_count" (metadata r)
           = Some (Some (MInt (before_min lo t)))
        /\ lookup "after_max_count" (metadata r) = None)
    /\ (before_min lo t = 0 -> 0 < after_max hi t ->
        passed r = false /\ severity r = Some ERROR
        /\ lookup "after_max_count" (metadata r)
           = Some (Some (MInt (after_max hi t))))
    /\ (passed r = true <->
        (forall x, In x (stamps t) -> between lo hi x)).
Proof.
  intros Hwf Hin Ht Hlo Hhi. unfold check_date_range.
  rewrite (convert_column_present rt df column t Hin Ht).
  rewrite (converted_column rt df column t Hwf Hin Ht). simpl.
  assert (Hmax :
    exists r,
      date_range_max rt column t min_date max_date = Returns r
      /\ (0 < after_max hi t ->
          passed r = false /\ severity r = Some ERROR
          /\ lookup "after_max_count" (metadata r)
             = Some (Some (MInt (after_max hi t))))
      /\ (passed r = true <-> after_max hi t = 0)).
  { unfold date_range_max, date_range_pass, parse_bound, after_max.
    destruct max_date as [s|], hi as [b|]; simpl in Hhi; try contradiction.
    - rewrite Hhi. simpl. pose proof (count_after_nonneg b t) as Hn.
      destruct (0 <? count_after b t) eqn:E.
      + apply Z.ltb_lt in E. eexists. split; [reflexivity|]. simpl.
        split; [intros _; repeat split|]. split; [discriminate | lia].
      + apply Z.ltb_ge in E. eexists. split; [reflexivity|]. simpl.
        split; [lia|]. split; [lia | reflexivity].
    - eexists. split; [reflexivity|]. simpl. split; [lia|].
      split; reflexivity. }
  assert (Hbetween :
    (forall x, In x (stamps t) -> between lo hi x)
    <-> before_min lo t = 0 /\ after_max hi t = 0).
  { unfold between, before_min, after_max. split.
    - intros H. split.
      + destruct lo as [a|]; [|reflexivity]. apply count_before_zero.
        intros x Hx. apply (H x Hx).
      + destruct hi as [b|]; [|reflexivity]. apply count_after_zero.
        intros x Hx. apply (H x Hx).
    - intros [H1 H2] x Hx. split.
      + destruct lo as [a|]; [|exact I].
        now apply (proj1 (count_before_zero a t) H1).
      + destruct hi as [b|]; [|exact I].
        now apply (proj1 (count_after_zero b t) H2). }
  unfold date_range_body, parse_bound.
  destruct min_date as [s|], lo as [a|]; simpl in Hlo; try contradiction.
  - rewrite Hlo. simpl. pose proof (count_before_nonneg a t) as Hn.
    destruct (0 <? count_before a t) eqn:E.
    + apply Z.ltb_lt in E. eexists. split; [reflexivity|]. simpl.
      split; [intros _; repeat split|]. split; [lia|].
      split; [discriminate|]. intros H. apply Hbetween in H. simpl in H. lia.
    + apply Z.ltb_ge in E. destruct Hmax as [r [Hr [H1 H2]]].
      exists r. split; [exact Hr|]. split; [simpl; lia|].
      split; [intros _; exact H1|].
      rewrite H2, Hbetween. simpl. split; [intros; split; [lia | assumption]
                                          | tauto].
  - destruct Hmax as [r [Hr [H1 H2]]].
    exists r. split; [exact Hr|]. split; [simpl; lia|].
    split; [intros _; exact H1|].
    rewrite H2, Hbetween. simpl. tauto.
Qed.

Lemma check_date_range_witness :
  exists r,
    fst (check_date_range rt0 frame_days "day"
           (Some "1970-01-01") (Some "1970-01-03")) = Returns r
    /\ passed r = true.
Proof.
  destruct (check_date_range_spec rt0 frame_days "day"
              (Some "1970-01-01") (Some "1970-01-03")
              (Some 0) (Some 172800000000000)
              [VTimestamp 0; VTimestamp 172800000000000])
    as [r [Hr [_ [_ Hp]]]].
  - repeat constructor.
  - now left.
  - reflexivity.
  - reflexivity.
  - reflexivity.
  - exists r. split; [exact Hr|]. apply Hp.
    intros x [<-|[<-|[]]]; split; simpl; lia.
Defined.

(** ** The wrappers of the asset decorators *)

Lemma check_no_nulls_fails (df : DataFrame) (cols : list string) :
  (forall c, In c cols -> In c (columns df)) ->
  exists r,
    check_no_nulls df cols = Returns r
    /\ (passed r = false <->
        exists c v, In c cols /\ In v (column_of df c) /\ isnull v = true).
Proof.
  intros Hall. unfold check_no_nulls.
  rewrite (getitems_present df cols Hall). simpl.
  rewrite null_counts_map, failed_columns_filter.
  assert (Hin : forall c,
            In c (filter (fun c => 0 <? nulls_in df c) cols) <->
            In c cols /\ exists v, In v (column_of df c) /\ isnull v = true).
  { intros c. rewrite filter_In. unfold nulls_in. now rewrite count_pos. }
  destruct (filter (fun c => 0 <? nulls_in df c) cols) as [|f l] eqn:E.
  - eexists. split; [reflexivity|]. simpl. split; [discriminate|].
    intros [c [v [Hc Hv]]]. exfalso. apply (proj2 (Hin c)). eauto.
  - eexists. split; [reflexivity|]. simpl. split; [|reflexivity].
    intros _. destruct (proj1 (Hin f) (or_introl eq_refl)) as [Hc [v Hv]].
    exists f, v. tauto.
Qed.

Lemma check_row_count_default (df : DataFrame) :
  passed (check_row_count df 1 None) = false <-> rows df = [].
Proof.
  unfold check_row_count, len. destruct (rows df) as [|r l]; simpl.
  - split; reflexivity.
  - destruct (Z.pos (Pos.of_succ_nat (List.length l)) <? 1) eqn:E.
    + apply Z.ltb_lt in E. lia.
    + simpl. split; discriminate.
Qed.

Lemma warn_if_failed_spec (has_context : bool) (r : AssetCheckResult) :
  (forall rec, In rec (warn_if_failed has_context r) ->
     exists msg, rec = LogWarning msg)
  /\ (warn_if_failed has_context r <> []
      <-> has_context = true /\ passed r = false).
Proof.
  unfold warn_if_failed. destruct has_context, (passed r); simpl.
  - split; [intros rec []|]. split; [intros H; now elim H|].
    intros [_ H]. discriminate.
  - split.
    + intros rec [<-|[]]. eexists. reflexivity.
    + split; [intros _; now split | discriminate].
  - split; [intros rec []|]. split; [intros H; now elim H|].
    intros [H _]. discriminate.
  - split; [intros rec []|]. split; [intros H; now elim H|].
    intros [H _]. discriminate.
Qed.

Lemma silver_check_returns (has_context : bool) (df : DataFrame)
    (name : string) :
  exists records,
    silver_check has_context df name = Returns records
    /\ (forall rec, In rec records -> exists msg, rec = LogWarning msg)
    /\ (records <> [] <->
        has_context = true
        /\ ((name = "no_nulls" /\ null_somewhere df)
            \/ (name = "row_count" /\ rows df = []))).
Proof.
  unfold silver_check.
  destruct (String.eqb name "no_nulls") eqn:E1.
  - apply String.eqb_eq in E1. subst name.
    destruct (check_no_nulls_fails df (columns df) (fun c H => H))
      as [r [Hr Hp]].
    rewrite Hr. simpl.
    destruct (warn_if_failed_spec has_context r) as [Hw Hn].
    exists (warn_if_failed has_context r).
    split; [reflexivity|]. split; [exact Hw|].
    rewrite Hn, Hp. unfold null_somewhere. split.
    + intros [Hc H]. split; [exact Hc|]. left. now split.
    + intros [Hc [[_ H]|[H _]]]; [now split | discriminate].
  - destruct (String.eqb name "row_count") eqn:E2.
    + apply String.eqb_eq in E2. subst name.
      destruct (warn_if_failed_spec has_context (check_row_count df 1 None))
        as [Hw Hn].
      eexists. split; [reflexivity|]. split; [exact Hw|].
      rewrite Hn, check_row_count_default. split.
      * intros [Hc H]. split; [exact Hc|]. right. now split.
      * intros [Hc [[H _]|[_ H]]]; [discriminate | now split].
    + apply String.eqb_neq in E1. apply String.eqb_neq in E2.
      exists []. split; [reflexivity|]. split; [intros rec []|].
      split; [intros H; now elim H|].
      intros [_ [[H _]|[H _]]]; contradiction.
Qed.

Lemma silver_loop_returns (has_context : bool) (df : DataFrame)
    (names : list string) :
  forall log,
  exists records,
    silver_loop has_context df names log = ((log ++ records)%list, None)
    /\ (forall rec, In rec records -> exists msg, rec = LogWarning msg)
    /\ (records <> [] <->
        has_context = true
        /\ ((In "no_nulls" names /\ null_somewhere df)
            \/ (In "row_count" names /\ rows df = []))).
Proof.
  induction names as [|n l IH]; simpl; intros log.
  - exists []. rewrite app_nil_r. split; [reflexivity|].
    split; [intros rec []|]. split; [intros H; now elim H|]. tauto.
  - destruct (silver_check_returns has_context df n) as [r1 [E1 [W1 N1]]].
    rewrite E1.
    destruct (IH (log ++ r1)%list) as [r2 [E2 [W2 N2]]].
    exists (r1 ++ r2)%list. rewrite E2, app_assoc.
    split; [reflexivity|]. split.
    + intros rec Hrec. apply in_app_iff in Hrec.
      destruct Hrec; [now apply W1 | now apply W2].
    + assert (Happ : (r1 ++ r2)%list <> [] <-> r1 <> [] \/ r2 <> []).
      { destruct r1; simpl; split; intros H; try discriminate.
        - now right.
        - destruct H as [H|H]; [now elim H | assumption].
        - left. discriminate. }
      rewrite Happ, N1, N2. intuition (subst; auto).
Qed.

(** On a frame whose labels are distinct texts, the wrapper that
    [silver_asset] puts around an asset function never stops the asset:
    whatever the checks find, it hands on the value the function returned,
    and the checks it runs ([check_no_nulls] on all columns,
    [check_row_count] with its defaults) raise nothing.  It writes warnings
    only, and only when it has a context: it writes one exactly when
    "no_nulls" is asked for and some cell is null, or "row_count" is asked
    for and the frame has no rows.  Any other name, "unique_values"
    included, does nothing. *)
Theorem silver_wrapper_spec (has_context : bool) (names : list string)
    (df : DataFrame) :
  distinct_labels df ->
  exists log,
    silver_wrapper has_context (Some names) (FrameValue df)
    = (log, Hands (FrameValue df))
    /\ (forall rec, In rec log -> exists msg, rec = LogWarning msg)
    /\ (log <> [] <->
        has_context = true
        /\ ((In "no_nulls" names /\ null_somewhere df)
            \/ (In "row_count" names /\ rows df = []))).
Proof.
  intros _. destruct names as [|n l].
  - exists []. simpl. split; [reflexivity|]. split; [intros rec []|].
    split; [intros H; now elim H|]. simpl. tauto.
  - destruct (silver_loop_returns has_context df (n :: l) [])
      as [records [E H]].
    exists records. unfold silver_wrapper. rewrite E. simpl.
    split; [reflexivity | exact H].
Qed.

Lemma silver_wrapper_witness :
  exists log,
    silver_wrapper true (Some ["unique_values"; "no_nulls"])
      (FrameValue frame_ab)
    = (log, Hands (FrameValue frame_ab))
    /\ log <> [].
Proof.
  destruct (silver_wrapper_spec true ["unique_values"; "no_nulls"] frame_ab)
    as [log [E [_ H]]].
  - repeat constructor; simpl; intuition discriminate.
  - exists log. split; [exact E|]. apply (proj2 H). split; [reflexivity|].
    left. split; [simpl; tauto|]. exists "b", VNone.
    repeat split; simpl; tauto.
Defined.

(** On a frame with distinct labels, the wrapper of
    [schema_validated_asset] hands the frame on exactly when every
    sub-check of the schema passes, and logs that it passed.  Otherwise it
    raises [ValueError] and hands nothing on; the message, which it also
    logs as an error, carries the prefix "Schema validation failed: "
    twice, before the issues.  A value that is not a frame is handed on
    unchecked. *)
Theorem schema_validated_wrapper_spec (schema : Schema) (df : DataFrame) :
  distinct_labels df ->
  let out := schema_validated_wrapper schema (FrameValue df) in
  let message :=
    "Schema validation failed: Schema validation failed: "
      ++ join "; " (map description (failing (subchecks df schema))) in
  (snd out = Hands (FrameValue df) <->
   (forall s, In s (subchecks df schema) -> passed s = true))
  /\ ((forall s, In s (subchecks df schema) -> passed s = true) ->
      fst out = [LogInfo "Schema validation passed"])
  /\ (~ (forall s, In s (subchecks df schema) -> passed s = true) ->
      out = ([LogError message], RaisesValueError message))
  /\ schema_validated_wrapper schema OtherValue = ([], Hands OtherValue).
Proof.
  intros _ out message. unfold out, message, schema_validated_wrapper.
  pose proof (validate_schema_passed df schema) as Hp.
  pose proof (schema_issues_failing df schema) as Hi.
  unfold validate_schema in *. rewrite Hi in *.
  destruct (failing (subchecks df schema)) as [|f l] eqn:E; simpl in *.
  - split; [split; [intros _; now apply Hp | reflexivity]|].
    split; [reflexivity|]. split; [|reflexivity].
    intros H. exfalso. apply H. now apply Hp.
  - split; [split; [discriminate|]; intros H; apply Hp in H; discriminate|].
    split; [intros H; apply Hp in H; discriminate|].
    split; reflexivity.
Qed.

Lemma schema_validated_wrapper_witness :
  schema_validated_wrapper (exact_schema ["a"; "b"]) (FrameValue frame_ab)
  = ([LogInfo "Schema validation passed"], Hands (FrameValue frame_ab))
  /\ schema_validated_wrapper (exact_schema ["b"; "a"]) (FrameValue frame_ab)
     = ([LogError
           ("Schema validation failed: Schema validation failed: "
              ++ "Column order doesn't match expected order")],
        RaisesValueError
          ("Schema validation failed: Schema validation failed: "
             ++ "Column order doesn't match expected order")).
Proof.
  assert (Hnd : distinct_labels frame_ab).
  { repeat constructor; simpl; intuition discriminate. }
  split.
  - destruct (schema_validated_wrapper_spec (exact_schema ["a"; "b"])
                frame_ab Hnd) as [H1 [H2 _]].
    assert (Hall : forall s,
              In s (subchecks frame_ab (exact_schema ["a"; "b"])) ->
              passed s = true).
    { intros s [<-|[<-|[<-|[]]]]; reflexivity. }
    apply injective_projections; [exact (H2 Hall) | exact (proj2 H1 Hall)].
  - destruct (schema_validated_wrapper_spec (exact_schema ["b"; "a"])
                frame_ab Hnd) as [_ [_ [H3 _]]].
    apply H3. intros Hall.
    specialize (Hall (check_column_order frame_ab ["b"; "a"])
                  (or_intror (or_intror (or_introl eq_refl)))).
    discriminate Hall.
Defined.

(** ** Tags *)

Lemma lookup_dict_set {A : Type} (k k' : string) (v : A)
    (d : list (string * A)) :
  lookup k (dict_set k' v d)
  = if String.eqb k k' then Some v else lookup k d.
Proof.
  unfold lookup. induction d as [|[a b] d IH]; simpl.
  - destruct (String.eqb k k'); reflexivity.
  - destruct (String.eqb k' a) eqn:E; simpl.
    + apply String.eqb_eq in E. subst a.
      destruct (String.eqb k k'); reflexivity.
    + destruct (String.eqb k a) eqn:E2; simpl.
      * apply String.eqb_eq in E2. subst a.
        rewrite String.eqb_sym in E. now rewrite E.
      * exact IH.
Qed.

Lemma lookup_absent {A : Type} (k : string) (d : list (string * A)) :
  ~ In k (map fst d) -> lookup k d = None.
Proof.
  unfold lookup. induction d as [|[a b] d IH]; simpl; [reflexivity|].
  intros H. destruct (String.eqb k a) eqn:E.
  - apply String.eqb_eq in E. subst. exfalso. auto.
  - apply IH. auto.
Qed.

Lemma lookup_dict_update {A : Type} (k : string)
    (extra base : list (string * A)) :
  NoDup (map fst extra) ->
  lookup k (dict_update base extra)
  = match lookup k extra with
    | Some v => Some v
    | None => lookup k base
    end.
Proof.
  unfold dict_update. revert base.
  induction extra as [|[a b] l IH]; simpl; intros base Hnd; [reflexivity|].
  inversion Hnd as [|? ? Hnot Hl]; subst. rewrite (IH _ Hl).
  rewrite lookup_dict_set. unfold lookup at 3. simpl.
  destruct (String.eqb k a) eqn:E; simpl.
  - apply String.eqb_eq in E. subst a. now rewrite (lookup_absent k l Hnot).
  - reflexivity.
Qed.

(** The tier decorators put their own tags first and the caller's tags
    over them: a tag the caller gives under "tier" or "stage" replaces the
    decorator's, and the tier is the decorator's own only when the caller
    gives none.  [gold_asset] then sets "business_owner" from its argument
    when that is a non-empty text, over any tag of that name, and leaves
    every other key as merged; with an empty text as owner it sets
    nothing. *)
Theorem tier_tags_spec (tags : list (string * string)) (k : string) :
  NoDup (map fst tags) ->
  let over (base : list (string * string)) :=
    match lookup k tags with
    | Some v => Some v
    | None => lookup k base
    end in
  lookup k (bronze_tags (Some tags))
  = over [("tier", "bronze"); ("stage", "raw_ingestion")]
  /\ lookup k (silver_tags (Some tags))
     = over [("tier", "silver"); ("stage", "cleaned_validated")]
  /\ lookup k (gold_tags (Some tags) None)
     = over [("tier", "gold"); ("stage", "business_logic")]
  /\ (forall owner, owner <> "" ->
        lookup "business_owner" (gold_tags (Some tags) (Some owner))
        = Some owner)
  /\ (forall owner, owner <> "" ->
        lookup k (gold_tags (Some tags) (Some owner))
        = if String.eqb k "business_owner" then Some owner
          else over [("tier", "gold"); ("stage", "business_logic")])
  /\ lookup k (gold_tags (Some tags) (Some ""))
     = over [("tier", "gold"); ("stage", "business_logic")].
Proof.
  intros Hnd over. unfold over, bronze_tags, silver_tags, gold_tags. simpl.
  rewrite !lookup_dict_update by assumption.
  repeat split.
  - intros owner Ho. apply String.eqb_neq in Ho. rewrite Ho.
    simpl. rewrite lookup_dict_set. reflexivity.
  - intros owner Ho. apply String.eqb_neq in Ho. rewrite Ho.
    simpl. rewrite lookup_dict_set.
    now rewrite lookup_dict_update by assumption.
Qed.

Lemma tier_tags_witness :
  lookup "tier" (bronze_tags (Some [("team", "data"); ("tier", "raw")]))
  = Some "raw"
  /\ lookup "tier"
       (gold_tags (Some [("team", "data"); ("business_owner", "x")])
          (Some "finance"))
     = Some "gold"
  /\ lookup "business_owner"
       (gold_tags (Some [("team", "data"); ("business_owner", "x")])
          (Some "finance"))
     = Some "finance".
Proof.
  split; [|split].
  - apply (tier_tags_spec [("team", "data"); ("tier", "raw")] "tier").
    repeat constructor; simpl; intuition discriminate.
  - destruct (tier_tags_spec [("team", "data"); ("business_owner", "x")]
                "tier") as [_ [_ [_ [_ [H _]]]]].
    + repeat constructor; simpl; intuition discriminate.
    + apply (H "finance"). discriminate.
  - destruct (tier_tags_spec [("team", "data"); ("business_owner", "x")]
                "business_owner") as [_ [_ [_ [_ [H _]]]]].
    + repeat constructor; simpl; intuition discriminate.
    + apply (H "finance"). discriminate.
Defined.

(** ** The frame after the business-hours check *)

Lemma setitem_columns_new (df : DataFrame) (c dt : string) (s : Series) :
  ~ In c (columns df) ->
  columns (setitem df c dt s) = (columns df ++ [c])%list.
Proof.
  intros H. unfold setitem. rewrite (index_of_None _ _ H).
  unfold columns. simpl. now rewrite map_app.
Qed.

(** What [check_business_hours_data] leaves with the caller, on a frame
    whose timestamp column converts and that has no column "hour" or
    "weekday" yet: the frame has these two columns more, on the right; the
    timestamp column holds the converted timestamps; the number of rows
    and every other column are as before. *)
Theorem business_hours_grows_frame (rt : Runtime) (df : DataFrame)
    (ts : string) (business_start business_end : Z) (t : Series) :
  well_formed df -> In ts (columns df) ->
  ~ In "hour" (columns df) -> ~ In "weekday" (columns df) ->
  to_datetime rt (column_of df ts) = Returns t ->
  let df3 :=
    snd (check_business_hours_data rt df ts business_start business_end) in
  columns df3 = (columns df ++ ["hour"; "weekday"])%list
  /\ len df3 = len df
  /\ column_of df3 ts = t
  /\ (forall c', In c' (columns df) -> c' <> ts ->
        column_of df3 c' = column_of df c').
Proof.
  intros Hwf Hin Hhour Hweek Ht df3. unfold df3, check_business_hours_data.
  assert (Hne : ts <> "hour") by (intros ->; contradiction).
  assert (Hne' : ts <> "weekday") by (intros ->; contradiction).
  rewrite (proj2 (str_in_In _ _) Hin). simpl.
  rewrite (convert_column_present rt df ts t Hin Ht).
  destruct (to_datetime_stamps rt _ _ Ht) as [Hlen Hst].
  rewrite (column_of_length df _ Hin) in Hlen.
  set (df1 := setitem df ts datetime_dtype t).
  assert (Hwf1 : well_formed df1) by (apply setitem_well_formed; assumption).
  assert (Hrows1 : List.length (rows df1) = List.length (rows df))
    by (apply setitem_rows; assumption).
  assert (Hcols1 : columns df1 = columns df)
    by (apply setitem_columns; assumption).
  assert (Hcol1 : column_of df1 ts = t) by (apply setitem_same; assumption).
  rewrite Hcol1.
  destruct (map_cells_hour t Hst) as [hs [Ehs [Hlh _]]]. rewrite Ehs.
  assert (Hlh' : List.length hs = List.length (rows df1)) by lia.
  set (df2 := setitem df1 "hour" (field_dtype hs) hs).
  assert (Hwf2 : well_formed df2) by (apply setitem_well_formed; assumption).
  assert (Hrows2 : List.length (rows df2) = List.length (rows df1))
    by (apply setitem_rows; assumption).
  assert (Hcols2 : columns df2 = (columns df ++ ["hour"])%list).
  { unfold df2. rewrite setitem_columns_new; rewrite Hcols1; auto. }
  assert (Hcol2 : column_of df2 ts = t).
  { unfold df2. rewrite setitem_other by assumption. exact Hcol1. }
  rewrite Hcol2.
  destruct (map_cells_weekday t Hst) as [ds [Eds [Hld _]]]. rewrite Eds.
  assert (Hld' : List.length ds = List.length (rows df2)) by lia.
  simpl. set (df3' := setitem df2 "weekday" (field_dtype ds) ds).
  assert (Hweek2 : ~ In "weekday" (columns df2)).
  { rewrite Hcols2, in_app_iff. intros [H|[H|[]]];
      [contradiction | discriminate]. }
  split; [|split; [|split]].
  - unfold df3'. rewrite setitem_columns_new by assumption.
    rewrite Hcols2, <- app_assoc. reflexivity.
  - unfold df3'. rewrite setitem_len by assumption. unfold len. lia.
  - unfold df3'. rewrite setitem_other by assumption. exact Hcol2.
  - intros c' Hc' Hc'ts.
    assert (Hh : c' <> "hour") by (intros ->; contradiction).
    assert (Hw : c' <> "weekday") by (intros ->; contradiction).
    unfold df3'. rewrite setitem_other by assumption.
    unfold df2. rewrite setitem_other by assumption.
    unfold df1. now rewrite setitem_other.
Qed.

Lemma business_hours_grows_witness :
  columns (snd (check_business_hours_data rt0 frame_ts "ts" 9 17))
  = ["ts"; "n"; "hour"; "weekday"].
Proof.
  apply (business_hours_grows_frame rt0 frame_ts "ts" 9 17
           [VTimestamp 36000000000000; VTimestamp 244800000000000]).
  - repeat constructor.
  - now left.
  - intros [H|[H|[]]]; discriminate.
  - intros [H|[H|[]]]; discriminate.
  - reflexivity.
Defined.

(** * Properties stated value by value *)

(** ** The order of binary64 *)

Lemma SFcompare_Lt_trans (a b c : spec_float) :
  SFcompare a b = Some Lt -> SFcompare b c = Some Lt ->
  SFcompare a c = Some Lt.
Proof.
  destruct a as [sa|sa| |sa ma ea], b as [sb|sb| |sb mb eb],
           c as [sc|sc| |sc mc ec]; simpl;
    try discriminate; try reflexivity;
    try (destruct sa, sb, sc; simpl; intros; congruence);
    try (destruct sa, sb; simpl; intros; congruence);
    try (destruct sa, sc; simpl; intros; congruence);
    try (destruct sb, sc; simpl; intros; congruence).
  all: change (PosDef.Pos.compare_cont Eq ma mb) with (Pos.compare ma mb).
  all: change (PosDef.Pos.compare_cont Eq mb mc) with (Pos.compare mb mc).
  all: change (PosDef.Pos.compare_cont Eq ma mc) with (Pos.compare ma mc).
  all: destruct sa, sb, sc; simpl; try congruence;
    destruct (Z.compare_spec ea eb), (Z.compare_spec eb ec),
             (Z.compare_spec ea ec); subst; try lia; try congruence;
    destruct (Pos.compare_spec ma mb), (Pos.compare_spec mb mc),
             (Pos.compare_spec ma mc); subst; simpl; try lia; try congruence.
Qed.

Lemma SFcompare_refl (a : spec_float) :
  SFcompare a a = None \/ SFcompare a a = Some Eq.
Proof.
  destruct a as [s|s| |s m e]; simpl; auto.
  - destruct s; auto.
  - right. rewrite Z.compare_refl.
    change (PosDef.Pos.compare_cont Eq m m) with (Pos.compare m m).
    rewrite Pos.compare_refl. destruct s; reflexivity.
Qed.

Lemma SFcompare_defined (a b : spec_float) :
  SFcompare a a <> None -> SFcompare b b <> None -> SFcompare a b <> None.
Proof. destruct a, b; simpl; congruence. Qed.

Lemma SFcompare_None_l (a b : spec_float) :
  SFcompare a a = None -> SFcompare a b = None.
Proof.
  destruct a as [s|s| |s m e]; simpl; try reflexivity; try discriminate;
    destruct s; discriminate.
Qed.

Lemma is_nan_compare (x : float) :
  PrimFloat.is_nan x = true <-> SFcompare (Prim2SF x) (Prim2SF x) = None.
Proof.
  unfold PrimFloat.is_nan. rewrite eqb_spec. unfold SFeqb.
  destruct (SFcompare_refl (Prim2SF x)) as [E|E]; rewrite E; simpl;
    split; congruence.
Qed.

Lemma is_nan_false_compare (x : float) :
  PrimFloat.is_nan x = false <-> SFcompare (Prim2SF x) (Prim2SF x) <> None.
Proof.
  rewrite <- is_nan_compare. destruct (PrimFloat.is_nan x); split; congruence.
Qed.

Lemma float_ltb_trans (a b c : float) :
  (a <? b)%float = true -> (b <? c)%float = true -> (a <? c)%float = true.
Proof.
  rewrite !ltb_spec. unfold SFltb.
  destruct (SFcompare (Prim2SF a) (Prim2SF b)) as [[]|] eqn:E1;
    try discriminate.
  destruct (SFcompare (Prim2SF b) (Prim2SF c)) as [[]|] eqn:E2;
    try discriminate.
  now rewrite (SFcompare_Lt_trans _ _ _ E1 E2).
Qed.


Lemma float_ltb_nan_r (a b : float) :
  PrimFloat.is_nan b = true -> (a <? b)%float = false.
Proof.
  intros H. apply is_nan_compare in H. rewrite ltb_spec. unfold SFltb.
  rewrite (SFcompare_antisym (Prim2SF b) (Prim2SF a)).
  now rewrite (SFcompare_None_l _ (Prim2SF a) H).
Qed.

Lemma float_total (a b : float) :
  PrimFloat.is_nan a = false -> PrimFloat.is_nan b = false ->
  (a <? b)%float = false -> (b <? a)%float = false ->
  (a =? b)%float = true.
Proof.
  rewrite !is_nan_false_compare, !ltb_spec, eqb_spec.
  unfold SFltb, SFeqb. intros Ha Hb.
  pose proof (SFcompare_defined _ _ Ha Hb) as Hd.
  rewrite (SFcompare_antisym (Prim2SF a) (Prim2SF b)).
  destruct (SFcompare (Prim2SF a) (Prim2SF b)) as [[]|]; simpl;
    congruence.
Qed.

Lemma float_ltb_eq_r (a b c : float) :
  (b =? c)%float = true -> (a <? b)%float = (a <? c)%float.
Proof.
  intros E. rewrite !ltb_spec. unfold SFltb.
  rewrite (SFcompare_antisym (Prim2SF b) (Prim2SF a)).
  rewrite (SFcompare_antisym (Prim2SF c) (Prim2SF a)).
  rewrite eqb_spec in E. unfold SFeqb in E.
  destruct (SFcompare (Prim2SF b) (Prim2SF c)) as [[]|] eqn:Ec;
    try discriminate.
  now rewrite (SFcompare_Eq_cong _ _ (Prim2SF a) Ec).
Qed.

(** Not less: a number that is not below another is above or equal. *)
Lemma float_not_ltb (a b c : float) :
  PrimFloat.is_nan a = false -> PrimFloat.is_nan b = false ->
  (a <? b)%float = false -> (c <? b)%float = true ->
  (c <? a)%float = true.
Proof.
  intros Ha Hb Hab Hcb.
  destruct (b <? a)%float eqn:Hba.
  - now apply (float_ltb_trans c b a).
  - rewrite (float_ltb_eq_r c a b); [assumption|].
    now apply float_total.
Qed.

(** ** The least and the greatest value of a column *)


Lemma fold_fmax_spec (xs : list float) :
  forall acc,
    (PrimFloat.is_nan (fold_left fmax xs acc) = true ->
     PrimFloat.is_nan acc = true
     /\ forall x, In x xs -> PrimFloat.is_nan x = true)
    /\ (PrimFloat.is_nan (fold_left fmax xs acc) = false ->
        (fold_left fmax xs acc = acc \/ In (fold_left fmax xs acc) xs)
        /\ (fold_left fmax xs acc <? acc)%float = false
        /\ forall x, In x xs -> (fold_left fmax xs acc <? x)%float = false).
Proof.
  induction xs as [|x l IH]; intros acc; simpl.
  - split; [intros H; split; [assumption | intros x []]|].
    intros H. split; [now left|]. split; [|intros x []].
    destruct (acc <? acc)%float eqn:E; [|reflexivity].
    rewrite ltb_spec in E. unfold SFltb in E.
    destruct (SFcompare_refl (Prim2SF acc)) as [E'|E']; rewrite E' in E;
      discriminate.
  - destruct (IH (fmax acc x)) as [Hn Hm]. set (m := fold_left fmax l (fmax acc x)) in *.
    unfold fmax in *.
    destruct (PrimFloat.is_nan x) eqn:Nx.
    + split.
      * intros H. destruct (Hn H) as [H1 H2]. split; [assumption|].
        intros y [<-|Hy]; auto.
      * intros H. destruct (Hm H) as [H1 [H2 H3]].
        split; [destruct H1; auto|]. split; [assumption|].
        intros y [<-|Hy]; [now apply float_ltb_nan_r | auto].
    + destruct (PrimFloat.is_nan acc) eqn:Na.
      * split.
        -- intros H. destruct (Hn H) as [H1 _]. congruence.
        -- intros H. destruct (Hm H) as [H1 [H2 H3]].
           split; [right; destruct H1 as [H1|H1]; [left; congruence | now right]|].
           split; [now apply float_ltb_nan_r|].
           intros y [<-|Hy]; auto.
      * destruct (acc <? x)%float eqn:Lt.
        -- split.
           ++ intros H. destruct (Hn H) as [H1 _]. congruence.
           ++ intros H. destruct (Hm H) as [H1 [H2 H3]].
              split; [right; destruct H1 as [H1|H1]; [left; congruence | now right]|].
              split; [|intros y [<-|Hy]; auto].
              destruct (m <? acc)%float eqn:E; [|reflexivity].
              rewrite (float_ltb_trans m acc x E Lt) in H2. discriminate.
        -- split.
           ++ intros H. destruct (Hn H) as [H1 _]. congruence.
           ++ intros H. destruct (Hm H) as [H1 [H2 H3]].
              split; [destruct H1; auto|]. split; [assumption|].
              intros y [Hy|Hy]; [subst y | auto].
              destruct (m <? x)%float eqn:E; [|reflexivity].
              exfalso.
              (* m < y and not (m < acc): acc <= m < y, against not (acc < y) *)
              destruct (acc <? m)%float eqn:Eam.
              ** rewrite (float_ltb_trans acc m x Eam E) in Lt. discriminate.
              ** assert (Eq : (m =? acc)%float = true)
                   by (apply float_total; assumption).
                 pose proof (float_eqb_cong m acc m Eq) as Hc.
                 assert (Eq' : (acc =? m)%float = true)
                   by (rewrite float_eqb_sym; exact Eq).
                 rewrite ltb_spec in E, Lt. unfold SFltb in E, Lt.
                 rewrite eqb_spec in Eq'. unfold SFeqb in Eq'.
                 destruct (SFcompare (Prim2SF acc) (Prim2SF m)) as [[]|] eqn:Ec;
                   try discriminate.
                 rewrite (SFcompare_Eq_cong _ _ (Prim2SF x) Ec) in Lt.
                 destruct (SFcompare (Prim2SF m) (Prim2SF x)) as [[]|];
                   discriminate.
Qed.


Lemma series_max_observed (xs : list float) : observed_max xs (series_max xs).
Proof.
  unfold observed_max, series_max.
  destruct (fold_fmax_spec xs nan) as [Hn Hm].
  destruct (PrimFloat.is_nan (fold_left fmax xs nan)) eqn:E.
  - left. split; [reflexivity|]. now apply Hn.
  - right. destruct (Hm eq_refl) as [[H1|H1] [_ H3]].
    + rewrite H1 in E. discriminate.
    + repeat split; assumption.
Qed.

(** ** Numeric range, stated value by value *)





(** ** Frames with distinct labels *)

Lemma fold_add_new (l acc : list string) :
  NoDup (acc ++ l) -> fold_left add_new l acc = (acc ++ l)%list.
Proof.
  revert acc. induction l as [|c l IH]; intros acc H; simpl.
  - now rewrite app_nil_r.
  - assert (Hc : ~ In c acc).
    { apply NoDup_remove_2 in H. intros Hin. apply H.
      apply in_app_iff. now left. }
    unfold add_new at 2. rewrite (proj2 (str_in_false c acc) Hc).
    rewrite IH; rewrite <- app_assoc; simpl; [reflexivity | assumption].
Qed.

Lemma distinct_id (l : list string) : NoDup l -> distinct l = l.
Proof. intros H. unfold distinct. now rewrite fold_add_new. Qed.

Lemma index_of_header (hs : list header) (h : header) :
  NoDup (map label hs) -> In h hs ->
  exists i, index_of (label h) (map label hs) = Some i
            /\ nth_error hs i = Some h.
Proof.
  induction hs as [|a r IH]; simpl; intros Hnd Hin; [contradiction|].
  inversion Hnd as [|? ? Ha Hr]; subst.
  destruct (String.eqb (label h) (label a)) eqn:E.
  - exists O. split; [reflexivity|]. simpl. f_equal.
    destruct Hin as [->|Hin]; [reflexivity|]. exfalso. apply Ha.
    apply String.eqb_eq in E. rewrite <- E. now apply in_map.
  - destruct Hin as [->|Hin]; [now rewrite String.eqb_refl in E|].
    destruct (IH Hr Hin) as [i [Hi Hn]]. rewrite Hi. now exists (S i).
Qed.

Lemma dtype_of_header (df : DataFrame) (h : header) :
  distinct_labels df -> In h (headers df) ->
  dtype_of df (label h) = dtype h.
Proof.
  intros Hnd Hin. unfold dtype_of, columns.
  destruct (index_of_header (headers df) h Hnd Hin) as [i [Hi Hn]].
  rewrite Hi. now rewrite (nth_error_nth _ _ _ Hn).
Qed.

(** On a frame with distinct labels the dictionary of dtypes has one entry
    per column, in the order of the columns, with the dtype of that
    column. *)
Lemma actual_types_headers (df : DataFrame) :
  distinct_labels df -> actual_types df = header_types df.
Proof.
  intros Hnd. unfold actual_types, header_types.
  rewrite (dict_of_items_map (dtype_of df) (columns df)).
  rewrite (distinct_id _ Hnd). unfold columns. rewrite map_map.
  apply map_ext_in. intros h Hh. now rewrite dtype_of_header.
Qed.

(** ** The schema validator on frames with distinct labels *)

(** C1. On a frame with distinct labels, [validate_schema] passes
    exactly when each sub-check asked for by a key of the schema passes on
    its own.  Its list of issues is made of the descriptions of the
    failing sub-checks, one each, in the order of the keys
    [required_columns], [column_types], [allowed_columns], [column_order].
    A failing aggregate has the severity ERROR and stores the issues; a
    passing and a failing aggregate both store the snapshot of the frame:
    the labels of its columns, the dtype of each column under its label,
    the number of rows and of columns. *)
Theorem validate_schema_spec (df : DataFrame) (schema : Schema) :
  distinct_labels df ->
  let r := validate_schema df schema in
  let subs := subchecks df schema in
  (passed r = true <-> (forall s, In s subs -> passed s = true))
  /\ schema_issues df schema = map description (failing subs)
  /\ List.length (schema_issues df schema) = List.length (failing subs)
  /\ (passed r = false ->
      severity r = Some ERROR
      /\ lookup "schema_issues" (metadata r)
         = Some (Some (MJson (json_strs (map description (failing subs))))))
  /\ lookup "actual_schema" (metadata r)
     = Some (Some (MJson (JDict
         [("columns", JList (map (fun h => JStr (label h)) (headers df)));
          ("types",
           JDict (map (fun h => (label h, JStr (dtype h))) (headers df)));
          ("shape", JList [JInt (Z.of_nat (List.length (rows df)));
                           JInt (Z.of_nat (List.length (headers df)))])]))).
Proof.
  intros Hnd r subs. pose proof (schema_issues_failing df schema) as Hi.
  fold subs in Hi.
  assert (Hsnap : actual_schema df
    = JDict
        [("columns", JList (map (fun h => JStr (label h)) (headers df)));
         ("types",
          JDict (map (fun h => (label h, JStr (dtype h))) (headers df)));
         ("shape", JList [JInt (Z.of_nat (List.length (rows df)));
                          JInt (Z.of_nat (List.length (headers df)))])]).
  { unfold actual_schema. rewrite (actual_types_headers df Hnd).
    unfold header_types, json_strdict, json_strs, columns, len.
    now rewrite !map_map. }
  unfold r, validate_schema. rewrite Hi, Hsnap.
  rewrite <- failing_nil_iff.
  destruct (failing subs) as [|f l] eqn:E; simpl.
  - repeat split; try reflexivity; discriminate.
  - repeat split; try reflexivity; try discriminate.
    now rewrite length_map.
Qed.

Lemma validate_schema_witness :
  passed (validate_schema frame_ab (exact_schema ["b"; "a"])) = false
  /\ lookup "actual_schema"
       (metadata (validate_schema frame_ab (exact_schema ["b"; "a"])))
     = Some (Some (MJson (JDict
         [("columns", JList [JStr "a"; JStr "b"]);
          ("types", JDict [("a", JStr "int64"); ("b", JStr "object")]);
          ("shape", JList [JInt 2; JInt 2])]))).
Proof.
  assert (Hnd : distinct_labels frame_ab).
  { repeat constructor; simpl; intuition discriminate. }
  destruct (validate_schema_spec frame_ab (exact_schema ["b"; "a"]) Hnd)
    as [_ [_ [_ [_ Hs]]]].
  split; [reflexivity | exact Hs].
Defined.

(** ** Null counts on frames with distinct labels *)



(** ** Absent columns in the type check *)

(** C10. [check_column_types] skips a column that is named in
    [expected_types] and is not a column of the frame: such an entry adds
    nothing to the mismatches, and, on a frame with distinct labels, when
    no named column is in the frame the check passes. *)
Theorem check_column_types_skips_absent (df : DataFrame)
    (expected_types : list (string * string)) :
  distinct_labels df ->
  type_mismatches df expected_types
  = type_mismatches df
      (filter (fun ct => str_in (fst ct) (columns df)) expected_types)
  /\ ((forall ct, In ct expected_types ->
         str_in (fst ct) (columns df) = false) ->
      type_mismatches df expected_types = []
      /\ passed (check_column_types df expected_types) = true).
Proof.
  intros _. split.
  - induction expected_types as [|[c t] l IH]; simpl; [reflexivity|].
    destruct (str_in c (columns df)) eqn:E; simpl.
    + rewrite IH. reflexivity.
    + rewrite (type_mismatch_absent _ _ _ E). exact IH.
  - intros H.
    assert (Hm : type_mismatches df expected_types = []).
    { induction expected_types as [|[c t] l IH]; simpl; [reflexivity|].
      rewrite (type_mismatch_absent df c t (H (c, t) (or_introl eq_refl))).
      apply IH. intros ct Hct. apply H. now right. }
    split; [exact Hm|]. unfold check_column_types. now rewrite Hm.
Qed.

Lemma check_column_types_witness :
  passed (check_column_types frame_ab
            [("price", "float"); ("when", "datetime")]) = true.
Proof.
  apply (check_column_types_skips_absent frame_ab
           [("price", "float"); ("when", "datetime")]).
  - repeat constructor; simpl; intuition discriminate.
  - intros ct [<-|[<-|[]]]; reflexivity.
Defined.

(** ** Shape and kinds on frames with distinct labels *)

(** Composition of the shape checks: on a frame with distinct labels, a
    schema that names one list as required, as allowed and as the order is
    satisfied by exactly the frames whose columns are that list. *)
Theorem exact_schema_columns (df : DataFrame) (l : list string) :
  distinct_labels df ->
  passed (validate_schema df (exact_schema l)) = true
  <-> map label (headers df) = l.
Proof.
  intros _. fold (columns df).
  rewrite validate_schema_passed. unfold subchecks, exact_schema. simpl.
  pose proof (check_required_columns_passed df l) as Hr.
  pose proof (check_no_extra_columns_passed df l) as He.
  pose proof (check_column_order_passed df l) as Ho.
  split.
  - intros H.
    assert (H1 := H _ (or_introl eq_refl)).
    assert (H2 := H _ (or_intror (or_introl eq_refl))).
    assert (H3 := H _ (or_intror (or_intror (or_introl eq_refl)))).
    pose proof (proj1 Hr H1) as H1'. pose proof (proj1 He H2) as H2'.
    apply (proj1 Ho) in H3.
    rewrite (filter_all _ l) in H3
      by (intros x Hx; apply str_in_In; auto).
    rewrite (filter_all _ (columns df)) in H3
      by (intros x Hx; apply str_in_In; auto).
    congruence.
  - intros E s [<-|[<-|[<-|[]]]].
    + apply Hr. intros c Hc. now rewrite E.
    + apply He. intros c Hc. now rewrite <- E.
    + apply Ho. rewrite E. reflexivity.
Qed.

Lemma exact_schema_witness :
  passed (validate_schema frame_ab (exact_schema ["a"; "b"])) = true
  /\ passed (validate_schema frame_ab (exact_schema ["b"; "a"])) = false.
Proof.
  assert (Hnd : distinct_labels frame_ab).
  { repeat constructor; simpl; intuition discriminate. }
  split.
  - apply (proj2 (exact_schema_columns frame_ab ["a"; "b"] Hnd)).
    reflexivity.
  - destruct (passed (validate_schema frame_ab (exact_schema ["b"; "a"])))
      eqn:E; [|reflexivity].
    apply (proj1 (exact_schema_columns frame_ab ["b"; "a"] Hnd)) in E.
    discriminate E.
Defined.

(** On a frame with distinct labels, [check_column_types] passes exactly
    when every named column that is in the frame has a dtype whose name
    starts with the prefix of its expected kind ("object", "int", "float",
    "datetime", "bool"); a failure has the severity ERROR.  Both results
    store the dtype of every column under its label.  An expected kind
    other than the five it knows asks nothing: such an entry never gives a
    mismatch. *)
Theorem check_column_types_spec (df : DataFrame)
    (expected : list (string * string)) :
  distinct_labels df ->
  let r := check_column_types df expected in
  (passed r = true <->
   (forall c t, In (c, t) expected ->
    forall h, In h (headers df) -> label h = c ->
      kind_ok t (dtype h) = true))
  /\ (passed r = false -> severity r = Some ERROR)
  /\ lookup "actual_types" (metadata r)
     = Some (Some (MJson
         (JDict (map (fun h => (label h, JStr (dtype h))) (headers df)))))
  /\ (forall c t, kind_prefix t = None -> type_mismatch df c t = None).
Proof.
  intros Hnd r. unfold r. split; [|split; [|split]].
  - rewrite check_column_types_passed. split.
    + intros H c t Hct h Hh Hl. subst c.
      rewrite <- (dtype_of_header df h Hnd Hh). apply H; [exact Hct|].
      unfold columns. now apply in_map.
    + intros H c t Hct Hc. unfold columns in Hc. apply in_map_iff in Hc.
      destruct Hc as [h [Hl Hh]]. subst c.
      rewrite (dtype_of_header df h Hnd Hh). now apply (H (label h) t Hct).
  - unfold check_column_types.
    destruct (type_mismatches df expected); simpl;
      [discriminate | reflexivity].
  - unfold check_column_types. rewrite (actual_types_headers df Hnd).
    unfold header_types, json_strdict. rewrite map_map.
    destruct (type_mismatches df expected); reflexivity.
  - intros c t Hk. apply type_mismatch_None. intros _.
    unfold kind_ok. now rewrite Hk.
Qed.

Lemma column_kinds_witness :
  passed (check_column_types frame_ab [("a", "integer"); ("b", "string")])
  = true
  /\ passed (check_column_types frame_ab [("a", "string")]) = false
  /\ lookup "actual_types"
       (metadata (check_column_types frame_ab [("a", "string")]))
     = Some (Some (MJson (JDict [("a", JStr "int64"); ("b", JStr "object")]))).
Proof.
  assert (Hnd : distinct_labels frame_ab).
  { repeat constructor; simpl; intuition discriminate. }
  split; [|split].
  - apply (proj1 (check_column_types_spec frame_ab
                    [("a", "integer"); ("b", "string")] Hnd)).
    intros c t [[= <- <-]|[[= <- <-]|[]]] h [<-|[<-|[]]] Hl;
      try discriminate Hl; reflexivity.
  - destruct (passed (check_column_types frame_ab [("a", "string")]))
      eqn:E; [|reflexivity].
    pose proof (proj1 (proj1 (check_column_types_spec frame_ab
                                [("a", "string")] Hnd)) E
                  "a" "string" (or_introl eq_refl)
                  (mkHeader "a" "int64") (or_introl eq_refl) eq_refl) as K.
    discriminate K.
  - apply (check_column_types_spec frame_ab [("a", "string")] Hnd).
Defined.

(** ** Gaps between consecutive timestamps *)

Lemma insert_sorted_perm (x : Z) (l : list Z) :
  Permutation (insert_sorted x l) (x :: l).
Proof.
  induction l as [|y r IH]; simpl; [apply Permutation_refl|].
  destruct (x <=? y); [apply Permutation_refl|].
  apply (Permutation_trans (perm_skip y IH)). apply perm_swap.
Qed.

Lemma sort_stamps_perm (l : list Z) : Permutation (sort_stamps l) l.
Proof.
  unfold sort_stamps. induction l as [|x r IH]; simpl; [constructor|].
  apply (Permutation_trans (insert_sorted_perm x _)). now constructor.
Qed.

Lemma insert_sorted_sorted (x : Z) (l : list Z) :
  StronglySorted Z.le l -> StronglySorted Z.le (insert_sorted x l).
Proof.
  induction 1 as [|y r Hr IH Hy]; simpl.
  - constructor; constructor.
  - destruct (x <=? y) eqn:E.
    + apply Z.leb_le in E. constructor; [now constructor|].
      constructor; [exact E|]. apply Forall_forall. intros z Hz.
      rewrite Forall_forall in Hy. specialize (Hy z Hz). lia.
    + apply Z.leb_gt in E. constructor; [exact IH|].
      apply (Permutation_Forall (Permutation_sym (insert_sorted_perm x r))).
      constructor; [lia | exact Hy].
Qed.

Lemma sort_stamps_sorted (l : list Z) : StronglySorted Z.le (sort_stamps l).
Proof.
  unfold sort_stamps. induction l as [|x r IH]; simpl; [constructor|].
  now apply insert_sorted_sorted.
Qed.

Lemma diffs_pairs (l : list Z) :
  diffs l = map (fun p => snd p - fst p) (combine l (tl l)).
Proof.
  induction l as [|a [|b r] IH]; try reflexivity.
  change (diffs (a :: b :: r)) with ((b - a) :: diffs (b :: r)).
  rewrite IH. reflexivity.
Qed.

Lemma time_diffs_gaps (s : Series) (unit : float) :
  time_diffs s unit = gaps_between (sort_stamps (stamps s)) unit.
Proof.
  unfold time_diffs, gaps_between. rewrite diffs_pairs, map_map.
  reflexivity.
Qed.

(** The greatest gap is within a threshold exactly when every gap is. *)
Lemma max_gap_within (thr : float) (gs : list float) :
  (thr <? series_max gs)%float = false
  <-> (forall g, In g gs -> (thr <? g)%float = false).
Proof.
  destruct (series_max_observed gs) as [[Hn Hall]|[Hn [Hin Hmax]]].
  - split; [|intros _; now apply float_ltb_nan_r].
    intros _ g Hg. apply float_ltb_nan_r. now apply Hall.
  - split; [|intros H; now apply H].
    intros H g Hg. destruct (thr <? g)%float eqn:E; [|reflexivity].
    assert (Hgn : PrimFloat.is_nan g = false).
    { destruct (PrimFloat.is_nan g) eqn:N; [|reflexivity].
      rewrite (float_ltb_nan_r thr g N) in E. discriminate. }
    rewrite (float_not_ltb (series_max gs) g thr Hn Hgn (Hmax g Hg) E) in H.
    discriminate.
Qed.

(** On a frame with distinct labels whose timestamp column converts,
    [check_update_frequency] and [check_data_continuity] return.  With
    fewer than two timestamps in the column (an empty frame, a single row,
    or missing values only) both fail with the severity WARN for lack of
    data.  With two or more, the gaps are the differences of consecutive
    timestamps once the timestamps are put in ascending order, in minutes
    for [check_data_continuity] and in hours for [check_update_frequency].
    [check_data_continuity] passes exactly when no gap exceeds one and a
    half times the expected interval, and otherwise fails with WARN and
    reports the number of gaps that do and the greatest of them.
    [check_update_frequency] passes exactly when no gap exceeds twice the
    expected frequency, fails with WARN otherwise, and reports the greatest
    gap. *)
Theorem sparse_and_gapped_timestamps (rt : Runtime) (df : DataFrame)
    (ts : string) (n : Z) (t : Series) :
  well_formed df -> distinct_labels df -> In ts (columns df) ->
  to_datetime rt (column_of df ts) = Returns t ->
  exists sorted rf rc,
    Permutation sorted (stamps t)
    /\ StronglySorted Z.le sorted
    /\ fst (check_update_frequency rt df ts n) = Returns rf
    /\ fst (check_data_continuity rt df ts n) = Returns rc
    /\ ((List.length (stamps t) <= 1)%nat ->
        passed rf = false /\ severity rf = Some WARN
        /\ description rf = "Insufficient data to check update frequency"
        /\ passed rc = false /\ severity rc = Some WARN
        /\ description rc = "Insufficient data to check continuity")
    /\ ((2 <= List.length (stamps t))%nat ->
        let minutes :=
          map (fun p => (float_of_Z (snd p - fst p) / 1000000000 / 60)%float)
              (combine sorted (tl sorted)) in
        let hours :=
          map (fun p => (float_of_Z (snd p - fst p) / 1000000000 / 3600)%float)
              (combine sorted (tl sorted)) in
        let tolerance := (float_of_Z n * 1.5)%float in
        let long := filter (fun g => (tolerance <? g)%float) minutes in
        S (List.length minutes) = List.length (stamps t)
        /\ (passed rc = true <->
            (forall g, In g minutes -> (tolerance <? g)%float = false))
        /\ (passed rc = false ->
            severity rc = Some WARN
            /\ lookup "gap_count" (metadata rc)
               = Some (Some (MInt (Z.of_nat (List.length long))))
            /\ exists m,
                 lookup "largest_gap_minutes" (metadata rc)
                 = Some (Some (MFloat m))
                 /\ observed_max long m)
        /\ (passed rf = true <->
            (forall g, In g hours ->
               (float_of_Z (n * 2) <? g)%float = false))
        /\ (passed rf = false -> severity rf = Some WARN)
        /\ exists m,
             lookup "max_gap_hours" (metadata rf) = Some (Some (MFloat m))
             /\ observed_max hours m).
Proof.
  intros Hwf _ Hin Ht. exists (sort_stamps (stamps t)).
  unfold check_update_frequency, check_data_continuity.
  rewrite (proj2 (str_in_In _ _) Hin). simpl.
  rewrite (convert_column_present rt df ts t Hin Ht).
  rewrite (converted_column rt df ts t Hwf Hin Ht).
  pose proof (time_diffs_length t 3600) as L1.
  pose proof (time_diffs_length t 60) as L2.
  rewrite !time_diffs_gaps in *. unfold gaps_between in *.
  set (sorted := sort_stamps (stamps t)) in *.
  set (hours :=
         map (fun p => (float_of_Z (snd p - fst p) / 1000000000 / 3600)%float)
             (combine sorted (tl sorted))) in *.
  set (minutes :=
         map (fun p => (float_of_Z (snd p - fst p) / 1000000000 / 60)%float)
             (combine sorted (tl sorted))) in *.
  pose proof (max_gap_within (float_of_Z (n * 2)) hours) as Hmax.
  pose proof (series_max_observed hours) as Hobs.
  pose proof (filter_nil_iff
                (fun g => (float_of_Z n * 1.5 <? g)%float) minutes) as Hnil.
  pose proof (series_max_observed
                (filter (fun g => (float_of_Z n * 1.5 <? g)%float) minutes))
    as Hlong.
  destruct hours as [|d1 l1] eqn:E1; destruct minutes as [|d2 l2] eqn:E2;
    simpl in L1, L2.
  - eexists. eexists. split; [apply sort_stamps_perm|].
    split; [apply sort_stamps_sorted|].
    split; [reflexivity|]. split; [reflexivity|]. simpl.
    split; [intros _; repeat split | intros H; lia].
  - exfalso. lia.
  - exfalso. lia.
  - destruct (float_of_Z (n * 2) <? series_max (d1 :: l1))%float eqn:Ef;
      destruct (filter (fun g => (float_of_Z n * 1.5 <? g)%float)
                  (d2 :: l2)) as [|g gs] eqn:Eg;
      (eexists; eexists; split; [apply sort_stamps_perm|];
       split; [apply sort_stamps_sorted|];
       split; [reflexivity|]; split; [reflexivity|];
       cbv zeta; simpl passed; simpl severity; simpl metadata;
       split; [intros H; lia|]; intros _;
       split; [simpl List.length; lia|];
       split; [split; [intros H; first [discriminate H
                                       | now apply (proj1 Hnil)]
                      | intros H; first [reflexivity
                                        | apply (proj2 Hnil) in H;
                                          discriminate H]]|];
       split; [intros H;
               first [discriminate H
                     | split; [reflexivity|]; split; [reflexivity|];
                       eexists; split; [reflexivity | exact Hlong]]|];
       split; [split; [intros H; first [discriminate H
                                       | now apply (proj1 Hmax)]
                      | intros H; first [reflexivity
                                        | apply (proj2 Hmax) in H;
                                          discriminate H]]|];
       split; [intros H; first [discriminate H | reflexivity]|];
       eexists; split; [reflexivity | exact Hobs]).
Qed.

Lemma sparse_timestamps_witness :
  (exists rf rc,
     fst (check_update_frequency rt0 frame_days "day" 60) = Returns rf
     /\ fst (check_data_continuity rt0 frame_days "day" 60) = Returns rc
     /\ passed rf = true
     /\ lookup "max_gap_hours" (metadata rf) = Some (Some (MFloat 48%float))
     /\ passed rc = false
     /\ lookup "gap_count" (metadata rc) = Some (Some (MInt 1))
     /\ lookup "largest_gap_minutes" (metadata rc)
        = Some (Some (MFloat 2880%float)))
  /\ (exists rf rc,
        fst (check_update_frequency rt0 frame_day "day" 1) = Returns rf
        /\ fst (check_data_continuity rt0 frame_day "day" 1) = Returns rc
        /\ description rf = "Insufficient data to check update frequency"
        /\ description rc = "Insufficient data to check continuity").
Proof.
  split.
  - destruct (sparse_and_gapped_timestamps rt0 frame_days "day" 60
                [VTimestamp 0; VTimestamp 172800000000000])
      as [sorted [rf [rc [_ [_ [Hf [Hc _]]]]]]].
    + repeat constructor.
    + repeat constructor; simpl; intuition discriminate.
    + now left.
    + reflexivity.
    + exists rf, rc. split; [exact Hf|]. split; [exact Hc|].
      vm_compute in Hf, Hc. inversion Hf. inversion Hc. repeat split.
  - destruct (sparse_and_gapped_timestamps rt0 frame_day "day" 1
                [VTimestamp 0])
      as [sorted [rf [rc [_ [_ [Hf [Hc [Hs _]]]]]]]].
    + repeat constructor.
    + repeat constructor; simpl; intuition discriminate.
    + now left.
    + reflexivity.
    + exists rf, rc. split; [exact Hf|]. split; [exact Hc|].
      destruct (Hs (le_n 1)) as [_ [_ [Hd [_ [_ Hd']]]]]. now split.
Defined.
